(** * Personal finance tracker: month ranges, aggregation, budgets, CSV import and export

    A shallow embedding of [personal_finance/core/services.py] (and of the
    pieces of [forms.py], [views.py] and [models.py] it works with), followed
    by the properties of the specification that the code settles.

    Conventions.
    - A Python [str] is its sequence of Unicode code points ([list Z]), so
      that [str.strip] removes exactly Python's whitespace characters and the
      Cyrillic labels of the CSV format are compared character by character.
    - An amount held by a [DecimalField(max_digits=12, decimal_places=2)]
      column is the integer number of hundredths it denotes; sums are exact.
      A [Decimal] that Python builds from a string is its sign, coefficient
      and exponent, or a special value.
    - The standard library is that of CPython 3.11 on Linux: [Decimal] and
      [date.fromisoformat] are the C implementations, [strftime] is the C
      library's.
    - A CSV file is the sequence of rows that [csv.reader] yields for it, and
      what [csv.writer] is given row by row; a row is a list of [str].
    - The tables of the data store are lists in primary-key order.
    - Code that raises returns [Raise e]; code that writes to the store
      threads the store, and keeps what was written before an exception. *)

From Stdlib Require Import String Ascii.
From Stdlib Require Import ZArith List Bool Lia Permutation.
From Stdlib Require Import DecimalN.
From Stdlib Require Import Sorted.
Import ListNotations.
Local Open Scope Z_scope.

(** ** Python values used by the services *)

Module Py.

(** A [str]: the code points of its characters. *)
Definition str := list Z.

(** [ord] of an ASCII character of a literal. *)
Definition ord (a : ascii) : Z := Z.of_nat (nat_of_ascii a).

(** UTF-8 decoding of a literal of this file (sequences of one to three
    bytes, which cover its Latin and Cyrillic text); any other byte stands
    for itself. *)
Fixpoint decode_utf8 (bs : list Z) (fuel : nat) : str :=
  match fuel with
  | O => []
  | S fuel' =>
      match bs with
      | [] => []
      | b0 :: r0 =>
          if b0 <? 128 then b0 :: decode_utf8 r0 fuel'
          else if (192 <=? b0) && (b0 <? 224) then
            match r0 with
            | b1 :: r1 => ((b0 - 192) * 64 + (b1 - 128)) :: decode_utf8 r1 fuel'
            | _ => b0 :: decode_utf8 r0 fuel'
            end
          else if (224 <=? b0) && (b0 <? 240) then
            match r0 with
            | b1 :: b2 :: r2 =>
                ((b0 - 224) * 4096 + (b1 - 128) * 64 + (b2 - 128)) :: decode_utf8 r2 fuel'
            | _ => b0 :: decode_utf8 r0 fuel'
            end
          else b0 :: decode_utf8 r0 fuel'
      end
  end.

Definition lit (s : string) : str :=
  let bs := map ord (list_ascii_of_string s) in decode_utf8 bs (length bs).

Definition str_eq_dec : forall a b : str, {a = b} + {a <> b} := list_eq_dec Z.eq_dec.

(** [a == b] on strings. *)
Definition str_eqb (a b : str) : bool := if str_eq_dec a b then true else false.

(** [str.isspace] for one character: the code points CPython's
    [_PyUnicode_IsWhitespace] accepts. *)
Definition isspace (c : Z) : bool :=
  ((9 <=? c) && (c <=? 13)) || ((28 <=? c) && (c <=? 32))
  || (c =? 133) || (c =? 160) || (c =? 5760)
  || ((8192 <=? c) && (c <=? 8202))
  || (c =? 8232) || (c =? 8233) || (c =? 8239) || (c =? 8287) || (c =? 12288).

Fixpoint lstrip (s : str) : str :=
  match s with
  | [] => []
  | c :: s' => if isspace c then lstrip s' else s
  end.

Definition rstrip (s : str) : str := rev (lstrip (rev s)).

(** [s.strip()]. *)
Definition strip (s : str) : str := rstrip (lstrip s).

(** [not s] for a string or a list. *)
Definition is_empty {A} (s : list A) : bool :=
  match s with [] => true | _ => false end.

(** [s or ''] *)
Definition or_empty (s : str) : str := if is_empty s then [] else s.

(** The decimal digits of a numeral. *)
Fixpoint str_of_uint (d : Decimal.uint) : str :=
  match d with
  | Decimal.Nil => []
  | Decimal.D0 r => 48 :: str_of_uint r
  | Decimal.D1 r => 49 :: str_of_uint r
  | Decimal.D2 r => 50 :: str_of_uint r
  | Decimal.D3 r => 51 :: str_of_uint r
  | Decimal.D4 r => 52 :: str_of_uint r
  | Decimal.D5 r => 53 :: str_of_uint r
  | Decimal.D6 r => 54 :: str_of_uint r
  | Decimal.D7 r => 55 :: str_of_uint r
  | Decimal.D8 r => 56 :: str_of_uint r
  | Decimal.D9 r => 57 :: str_of_uint r
  end.

Definition uint_cons (c : Z) : option (Decimal.uint -> Decimal.uint) :=
  if c =? 48 then Some Decimal.D0 else if c =? 49 then Some Decimal.D1
  else if c =? 50 then Some Decimal.D2 else if c =? 51 then Some Decimal.D3
  else if c =? 52 then Some Decimal.D4 else if c =? 53 then Some Decimal.D5
  else if c =? 54 then Some Decimal.D6 else if c =? 55 then Some Decimal.D7
  else if c =? 56 then Some Decimal.D8 else if c =? 57 then Some Decimal.D9
  else None.

(** The numeral that a string of ASCII digits is. *)
Fixpoint uint_of_str (s : str) : option Decimal.uint :=
  match s with
  | [] => Some Decimal.Nil
  | c :: r =>
      match uint_cons c, uint_of_str r with
      | Some f, Some d => Some (f d)
      | _, _ => None
      end
  end.

(** The UTF-8 bytes of a character; a surrogate has none. *)
Definition utf8_of_char (c : Z) : option (list Z) :=
  if c <? 128 then Some [c]
  else if c <? 2048 then Some [192 + c / 64; 128 + c mod 64]
  else if c <? 65536 then
    if (55296 <=? c) && (c <=? 57343) then None
    else Some [224 + c / 4096; 128 + (c / 64) mod 64; 128 + c mod 64]
  else Some [240 + c / 262144; 128 + (c / 4096) mod 64; 128 + (c / 64) mod 64;
             128 + c mod 64].

(** [PyUnicode_AsUTF8AndSize] *)
Fixpoint encode_utf8 (s : str) : option (list Z) :=
  match s with
  | [] => Some []
  | c :: r =>
      match utf8_of_char c, encode_utf8 r with
      | Some b, Some bs => Some (b ++ bs)
      | _, _ => None
      end
  end.

(** The first characters of the 66 runs of decimal digits of Unicode 14. *)
Definition DECIMAL_ZEROS : list Z :=
  [48; 1632; 1776; 1984; 2406; 2534; 2662; 2790; 2918; 3046; 3174; 3302; 3430;
   3558; 3664; 3792; 3872; 4160; 4240; 6112; 6160; 6470; 6608; 6784; 6800; 6992;
   7088; 7232; 7248; 42528; 43216; 43264; 43472; 43504; 43600; 44016; 65296;
   66720; 68912; 69734; 69872; 69942; 70096; 70384; 70736; 70864; 71248; 71360;
   71472; 71904; 72016; 72784; 73040; 73120; 92768; 92864; 93008; 120782; 120792;
   120802; 120812; 120822; 123200; 123632; 125264; 130032].

(** [Py_UNICODE_TODECIMAL] *)
Definition todecimal (c : Z) : option Z :=
  match find (fun z => (z <=? c) && (c <=? z + 9)) DECIMAL_ZEROS with
  | Some z => Some (c - z)
  | None => None
  end.

End Py.

(** ** Exceptions and results *)

Inductive exn : Type :=
| ValidationError (message : Py.str)  (* django.core.exceptions.ValidationError *)
| ValueError                          (* date fields out of range, malformed ISO date *)
| OverflowError                       (* date arithmetic leaving the date range *)
| AssertionError
| InvalidOperation                    (* decimal.InvalidOperation *)
| MultipleObjectsReturned             (* Model.objects.get with several matches *)
| DecimalValidationError              (* the ValidationError of models.DecimalField.to_python;
                                         its message is Django's, in the active language,
                                         and none of the messages of the services *)
| DataError.                          (* django.db.DataError *)

Inductive result (A : Type) : Type :=
| Ok (a : A)
| Raise (e : exn).

Arguments Ok {A} a.
Arguments Raise {A} e.

Definition rbind {A B} (r : result A) (k : A -> result B) : result B :=
  match r with
  | Ok a => k a
  | Raise e => Raise e
  end.

Declare Scope result_scope.
Delimit Scope result_scope with result.
Notation "'let?' x ':=' r 'in' k" := (rbind r (fun x => k))
  (at level 10, x pattern, r at level 100, k at level 200) : result_scope.

(** ** [datetime.date], [calendar] and [dateutil.relativedelta] *)

Module datetime.
Local Open Scope result_scope.

Definition MINYEAR : Z := 1.
Definition MAXYEAR : Z := 9999.

Record date : Type := mkdate { year : Z; month : Z; day : Z }.

Definition _DAYS_IN_MONTH (m : Z) : Z :=
  nth (Z.to_nat m) [-1; 31; 28; 31; 30; 31; 30; 31; 31; 30; 31; 30; 31] 0.

Definition _DAYS_BEFORE_MONTH (m : Z) : Z :=
  nth (Z.to_nat m) [-1; 0; 31; 59; 90; 120; 151; 181; 212; 243; 273; 304; 334] 0.

Definition _is_leap (y : Z) : bool :=
  (y mod 4 =? 0) && (negb (y mod 100 =? 0) || (y mod 400 =? 0)).

Definition _days_before_year (y : Z) : Z :=
  let y := y - 1 in y * 365 + y / 4 - y / 100 + y / 400.

Definition _days_in_month (y m : Z) : Z :=
  if (m =? 2) && _is_leap y then 29 else _DAYS_IN_MONTH m.

Definition _days_before_month (y m : Z) : Z :=
  _DAYS_BEFORE_MONTH m + (if (2 <? m) && _is_leap y then 1 else 0).

Definition _ymd2ord (y m d : Z) : Z :=
  _days_before_year y + _days_before_month y m + d.

Definition _DI400Y : Z := 146097.
Definition _DI100Y : Z := 36524.
Definition _DI4Y : Z := 1461.
Definition _MAXORDINAL : Z := 3652059.

Definition _ord2ymd (n : Z) : Z * Z * Z :=
  let n := n - 1 in
  let n400 := n / _DI400Y in
  let n := n mod _DI400Y in
  let y := n400 * 400 + 1 in
  let n100 := n / _DI100Y in
  let n := n mod _DI100Y in
  let n4 := n / _DI4Y in
  let n := n mod _DI4Y in
  let n1 := n / 365 in
  let n := n mod 365 in
  let y := y + n100 * 100 + n4 * 4 + n1 in
  if (n1 =? 4) || (n100 =? 4) then (y - 1, 12, 31)
  else
    let leapyear := (n1 =? 3) && (negb (n4 =? 24) || (n100 =? 3)) in
    let m := Z.shiftr (n + 50) 5 in
    let preceding := _DAYS_BEFORE_MONTH m + (if (2 <? m) && leapyear then 1 else 0) in
    let '(m, preceding) :=
      if n <? preceding
      then (m - 1,
            preceding - (_DAYS_IN_MONTH (m - 1) + (if (m - 1 =? 2) && leapyear then 1 else 0)))
      else (m, preceding) in
    (y, m, n - preceding + 1).

(** [_check_date_fields] *)
Definition valid_dateb (y m d : Z) : bool :=
  (MINYEAR <=? y) && (y <=? MAXYEAR) && (1 <=? m) && (m <=? 12)
  && (1 <=? d) && (d <=? _days_in_month y m).

(** [date(year, month, day)] *)
Definition new_date (y m d : Z) : result date :=
  if valid_dateb y m d then Ok (mkdate y m d) else Raise ValueError.

Definition toordinal (d : date) : Z := _ymd2ord (year d) (month d) (day d).

Definition fromordinal (n : Z) : result date :=
  let '(y, m, d) := _ord2ymd n in new_date y m d.

(** [dt.replace(year=y, month=m, day=d)] *)
Definition replace (dt : date) (y m d : Z) : result date := new_date y m d.

(** A [timedelta] of whole days. *)
Record timedelta : Type := mktimedelta { days : Z }.

(** [date.resolution] *)
Definition resolution : timedelta := mktimedelta 1.

(** [date + timedelta] *)
Definition add (d : date) (t : timedelta) : result date :=
  let o := toordinal d + days t in
  if (0 <? o) && (o <=? _MAXORDINAL) then fromordinal o else Raise OverflowError.

(** [date - timedelta] *)
Definition sub (d : date) (t : timedelta) : result date :=
  add d (mktimedelta (- days t)).

(** Dates compare as their [(year, month, day)] triples. *)
Definition date_compare (a b : date) : comparison :=
  match year a ?= year b with
  | Eq => match month a ?= month b with
          | Eq => day a ?= day b
          | c => c
          end
  | c => c
  end.

Definition date_leb (a b : date) : bool :=
  match date_compare a b with Gt => false | _ => true end.

Definition date_eqb (a b : date) : bool :=
  (year a =? year b) && (month a =? month b) && (day a =? day b).

(** [a <= d <= b], the test of a [date__range=[a, b]] filter. *)
Definition in_range (d a b : date) : bool := date_leb a d && date_leb d b.

(** A date object: its fields passed [_check_date_fields]. *)
Definition valid (d : date) : Prop := valid_dateb (year d) (month d) (day d) = true.

(** Decimal digits of the format strings. *)
Definition digit (n : Z) : Z := 48 + n.

Definition zfill2 (n : Z) : Py.str := [digit (n / 10); digit (n mod 10)].

Definition HYPHEN : Z := 45.
Definition LETTER_W : Z := 87.

(** [d.strftime('%Y-%m-%d')] with the C library's [strftime]: the year as
    it is, without leading zeros, month and day as two digits. *)
Definition strftime_Ymd (d : date) : Py.str :=
  Py.str_of_uint (N.to_uint (Z.to_N (year d)))
  ++ [HYPHEN] ++ zfill2 (month d) ++ [HYPHEN] ++ zfill2 (day d).

Definition digit_val (c : Z) : option Z :=
  if (48 <=? c) && (c <=? 57) then Some (c - 48) else None.

Fixpoint parse_digits (s : Py.str) (acc : Z) : option Z :=
  match s with
  | [] => Some acc
  | c :: r =>
      match digit_val c with
      | Some v => parse_digits r (10 * acc + v)
      | None => None
      end
  end.

(** [parse_digits(ptr, var, num_digits)] of [_datetimemodule.c] at the
    offset [p]: the value of [n] ASCII digits; the byte after the last one
    of the string is the terminator, which is no digit. *)
Definition digits_at (b : list Z) (p n : nat) : option Z :=
  let ds := firstn n (skipn p b) in
  if (List.length ds =? n)%nat then parse_digits ds 0 else None.

Definition byte_at (b : list Z) (p : nat) : Z := nth p b 0.

(** [weekday(year, month, day)]: 0 for a Monday. *)
Definition weekday (y m d : Z) : Z := (_ymd2ord y m d + 6) mod 7.

(** [iso_week1_monday(year)]: the ordinal of the Monday that starts week 1. *)
Definition iso_week1_monday (y : Z) : Z :=
  let first_day := _ymd2ord y 1 1 in
  let first_weekday := (first_day + 6) mod 7 in
  let week1_monday := first_day - first_weekday in
  if 3 <? first_weekday then week1_monday + 7 else week1_monday.

(** [iso_to_ymd]: the fields of the day [iso_day] of week [iso_week]. *)
Definition iso_to_ymd (iso_year iso_week iso_day : Z) : option (Z * Z * Z) :=
  let out_of_range :=
    ((iso_week <=? 0) || (53 <=? iso_week))
    && negb ((iso_week =? 53)
             && (let first_weekday := weekday iso_year 1 1 in
                 (first_weekday =? 3) || ((first_weekday =? 2) && _is_leap iso_year))) in
  if out_of_range then None
  else if (iso_day <=? 0) || (8 <=? iso_day) then None
  else Some (_ord2ymd (iso_week1_monday iso_year + (iso_week - 1) * 7 + iso_day - 1)).

(** [parse_isoformat_date] of [_datetimemodule.c] on the UTF-8 bytes of the
    string: [YYYY-MM-DD], [YYYYMMDD], [YYYY-Www-D], [YYYYWwwD], [YYYY-Www]
    and [YYYYWww]; what follows the last field read is not looked at. *)
Definition parse_isoformat_date (b : list Z) : option (Z * Z * Z) :=
  match digits_at b 0 4 with
  | None => None
  | Some y =>
      let uses_separator := byte_at b 4 =? HYPHEN in
      let p := if uses_separator then 5%nat else 4%nat in
      if byte_at b p =? LETTER_W then
        match digits_at b (p + 1) 2 with
        | None => None
        | Some iso_week =>
            let p := (p + 3)%nat in
            if (p <? List.length b)%nat then
              if uses_separator && negb (byte_at b p =? HYPHEN) then None
              else
                let p := if uses_separator then (p + 1)%nat else p in
                match digits_at b p 1 with
                | None => None
                | Some iso_day => iso_to_ymd y iso_week iso_day
                end
            else iso_to_ymd y iso_week 1
        end
      else
        match digits_at b p 2 with
        | None => None
        | Some m =>
            let p := (p + 2)%nat in
            if uses_separator && negb (byte_at b p =? HYPHEN) then None
            else
              let p := if uses_separator then (p + 1)%nat else p in
              match digits_at b p 2 with
              | None => None
              | Some d => Some (y, m, d)
              end
        end
  end.

(** [date.fromisoformat(s)] (Python 3.11): the string has 7, 8 or 10 bytes
    in UTF-8 and its fields are a date; anything else is a [ValueError]. *)
Definition fromisoformat (s : Py.str) : result date :=
  match Py.encode_utf8 s with
  | None => Raise ValueError
  | Some b =>
      let len := List.length b in
      if ((len =? 7) || (len =? 8) || (len =? 10))%nat then
        match parse_isoformat_date b with
        | Some (y, m, d) => new_date y m d
        | None => Raise ValueError
        end
      else Raise ValueError
  end.

End datetime.

Module calendar.

Definition isleap (y : Z) : bool :=
  (y mod 4 =? 0) && (negb (y mod 100 =? 0) || (y mod 400 =? 0)).

Definition mdays (m : Z) : Z :=
  nth (Z.to_nat m) [0; 31; 28; 31; 30; 31; 30; 31; 31; 30; 31; 30; 31] 0.

(** [calendar.monthrange(year, month)[1]]; [IllegalMonthError] is a [ValueError]. *)
Definition monthrange_ndays (y m : Z) : result Z :=
  if negb ((1 <=? m) && (m <=? 12)) then Raise ValueError
  else Ok (mdays m + (if (m =? 2) && isleap y then 1 else 0)).

End calendar.

Module relativedelta.
Local Open Scope result_scope.
Import datetime.

(** The fields of a [relativedelta] that the services set. *)
Record relativedelta : Type := mk { months : Z; rdays : Z }.

Definition neg (r : relativedelta) : relativedelta :=
  mk (- months r) (- rdays r).

(** [dt + r] ([relativedelta.__radd__]). *)
Definition radd (r : relativedelta) (dt : date) : result date :=
  let y := year dt in
  let m := month dt in
  let? (y, m) :=
    (if months r =? 0 then Ok (y, m)
     else if negb ((1 <=? Z.abs (months r)) && (Z.abs (months r) <=? 12))
     then Raise AssertionError
     else
       let m := m + months r in
       if 12 <? m then Ok (y + 1, m - 12)
       else if m <? 1 then Ok (y - 1, m + 12)
       else Ok (y, m)) in
  let? nd := calendar.monthrange_ndays y m in
  let d := Z.min nd (day dt) in
  let? repl := replace dt y m d in
  add repl (mktimedelta (rdays r)).

(** [dt - r] ([relativedelta.__rsub__]). *)
Definition rsub (r : relativedelta) (dt : date) : result date :=
  radd (neg r) dt.

End relativedelta.

(** ** [decimal.Decimal] *)

Module decimal.

(** An amount of the column: the number of hundredths. *)
Definition amount := Z.

(** A [Decimal]: sign, coefficient and exponent of a finite number, or one
    of the special values. *)
Inductive t : Type :=
| Finite (negative : bool) (coefficient : Z) (exponent : Z)
| Infinity (negative : bool)
| NaN (negative signaling : bool) (payload : Z).

Definition MINUS : Z := 45.
Definition PLUS : Z := 43.
Definition DOT : Z := 46.
Definition UNDERSCORE : Z := 95.
Definition SPACE : Z := 32.

Definition MAX_PREC : Z := 999999999999999999.
Definition MAX_EMAX : Z := 999999999999999999.
Definition MIN_ETINY : Z := -1999999999999999997.

(** [numeric_as_ascii(u, strip_ws=1, ignore_underscores=1)] of
    [_decimal.c] after the whitespace at both ends is gone: underscores are
    dropped, a decimal digit of any script becomes its ASCII digit. *)
Fixpoint as_ascii (s : Py.str) : option Py.str :=
  match s with
  | [] => Some []
  | ch :: r =>
      if ch =? UNDERSCORE then as_ascii r
      else if (0 <? ch) && (ch <=? 127) then option_map (cons ch) (as_ascii r)
      else if Py.isspace ch then option_map (cons SPACE) (as_ascii r)
      else
        match Py.todecimal ch with
        | Some d => option_map (cons (48 + d)) (as_ascii r)
        | None => None
        end
  end.

Definition numeric_as_ascii (s : Py.str) : option Py.str := as_ascii (Py.strip s).

Definition lower (c : Z) : Z := if (65 <=? c) && (c <=? 90) then c + 32 else c.

(** [_mpd_strneq]: [s] without the prefix [pattern], which it has in
    letters of either case. *)
Fixpoint after_prefix (pattern s : Py.str) : option Py.str :=
  match pattern, s with
  | [], _ => Some s
  | p :: pattern', c :: s' => if lower c =? p then after_prefix pattern' s' else None
  | _ :: _, [] => None
  end.

Definition NAN_ : Py.str := [110; 97; 110].
Definition SNAN_ : Py.str := [115; 110; 97; 110].
Definition INF_ : Py.str := [105; 110; 102].
Definition INITY_ : Py.str := [105; 110; 105; 116; 121].

(** The text before the first point, and the text after it if there is one. *)
Fixpoint split_point (s : Py.str) : Py.str * option Py.str :=
  match s with
  | [] => ([], None)
  | c :: r =>
      if c =? DOT then ([], Some r)
      else let '(a, b) := split_point r in (c :: a, b)
  end.

(** The text before the first [e] or [E], and the text after it. *)
Fixpoint split_exponent (s : Py.str) : Py.str * option Py.str :=
  match s with
  | [] => ([], None)
  | c :: r =>
      if lower c =? 101 then ([], Some r)
      else let '(a, b) := split_exponent r in (c :: a, b)
  end.

Definition signed (s : Py.str) : bool * Py.str :=
  match s with
  | c :: r => if c =? MINUS then (true, r) else if c =? PLUS then (false, r) else (false, s)
  | [] => (false, s)
  end.

Fixpoint drop_zeros (s : Py.str) : Py.str :=
  match s with
  | c :: r => if c =? 48 then drop_zeros r else s
  | [] => []
  end.

Definition len (s : Py.str) : Z := Z.of_nat (List.length s).

(** The number that a string of ASCII digits denotes, zero for no digit. *)
Definition digits_value (s : Py.str) : option Z :=
  option_map (fun d => Z.of_N (N.of_uint d)) (Py.uint_of_str s).

(** [scan_payload]: the digits after [NaN]. *)
Definition payload (s : Py.str) : option Z :=
  if len (drop_zeros s) <=? MAX_PREC then digits_value s else None.

(** [strtoexp]: an optional sign and at least one digit. *)
Definition exponent_value (s : Py.str) : option Z :=
  let '(negative, ds) := signed s in
  if Py.is_empty ds then None
  else
    match digits_value ds with
    | Some v => Some (if negative then - v else v)
    | None => None
    end.

(** The numeric strings of [mpd_qset_string], converted exactly (in the
    context [mpd_maxcontext]): the coefficient is the number that the digits
    before and after the point denote together. *)
Definition numeric_value (negative : bool) (s : Py.str) : option t :=
  let '(mantissa, e) := split_exponent s in
  let '(ip, fp) := split_point mantissa in
  let fp := match fp with Some f => f | None => [] end in
  match digits_value ip, digits_value fp,
        (match e with Some e => exponent_value e | None => Some 0 end) with
  | Some i, Some f, Some e =>
      let coefficient := i * 10 ^ len fp + f in
      let digits := Z.max 1 (len (drop_zeros (ip ++ fp))) in
      let exponent := e - len fp in
      if Py.is_empty (ip ++ fp) then None
      else if (MAX_PREC <? len fp) || (MAX_PREC <? digits) then None
      else if (MAX_EMAX <? exponent + digits - 1) || (exponent <? MIN_ETINY) then None
      else Some (Finite negative coefficient exponent)
  | _, _, _ => None
  end.

Definition of_ascii (s : Py.str) : option t :=
  let '(negative, s) := signed s in
  match after_prefix NAN_ s with
  | Some r => option_map (NaN negative false) (payload r)
  | None =>
      match after_prefix SNAN_ s with
      | Some r => option_map (NaN negative true) (payload r)
      | None =>
          match after_prefix INF_ s with
          | Some r =>
              if Py.is_empty r then Some (Infinity negative)
              else
                match after_prefix INITY_ r with
                | Some [] => Some (Infinity negative)
                | _ => None
                end
          | None => numeric_value negative s
          end
      end
  end.

(** [Decimal(s)] *)
Definition Decimal (s : Py.str) : result t :=
  match numeric_as_ascii s with
  | Some a =>
      match of_ascii a with
      | Some v => Ok v
      | None => Raise InvalidOperation
      end
  | None => Raise InvalidOperation
  end.

Definition is_finite (v : t) : bool :=
  match v with Finite _ _ _ => true | _ => false end.

(** The value of a finite number in hundredths, when it is a whole number
    of hundredths. *)
Definition hundredths (v : t) : option amount :=
  match v with
  | Finite negative c e =>
      let signed := if negative then - c else c in
      if 0 <=? e + 2 then Some (signed * 10 ^ (e + 2))
      else
        let p := 10 ^ (- (e + 2)) in
        if c mod p =? 0 then Some (signed / p) else None
  | _ => None
  end.

(** [str(a)] for an amount read from the column: sign, integer part,
    point, two digits ([Decimal('-0.50')] prints as [-0.50]). *)
Definition to_str (a : amount) : Py.str :=
  (if a <? 0 then [MINUS] else [])
  ++ Py.str_of_uint (N.to_uint (Z.to_N (Z.abs a / 100)))
  ++ [DOT] ++ datetime.zfill2 (Z.abs a mod 100).

End decimal.

(** ** The amount column *)

Module column.

(** [DecimalField(max_digits=12, decimal_places=2)]: the column holds the
    amounts of at most twelve digits, two of them after the point. *)
Definition holds (a : decimal.amount) : bool := Z.abs a <? 10 ^ 12.

(** What becomes of a finite amount that the column does not hold exactly,
    one with more than twelve digits or that is no whole number of
    hundredths, is not settled by the code of the application: it depends on
    the version of Django and on the database engine (a rounded value, a
    value kept as it is, [decimal.InvalidOperation] while Django prepares
    the value, a [DataError] of the engine). *)
Inductive answer : Type :=
| Stored (a : decimal.amount)
| NotPrepared                 (* decimal.InvalidOperation *)
| NotStored.                  (* django.db.DataError *)

Definition engine : Type := decimal.t -> answer.

Definition answered (a : answer) : result decimal.amount :=
  match a with
  | Stored a => Ok a
  | NotPrepared => Raise InvalidOperation
  | NotStored => Raise DataError
  end.

(** The amount a new row holds for a [Decimal] that is saved:
    [DecimalField.to_python] refuses a value that is not finite, an amount of
    the column is held as it is, and for any other amount the engine
    answers. *)
Definition save (e : engine) (v : decimal.t) : result decimal.amount :=
  if decimal.is_finite v then
    match decimal.hundredths v with
    | Some a => if holds a then Ok a else answered (e v)
    | None => answered (e v)
    end
  else Raise DecimalValidationError.

End column.

(** ** [core/models.py]: the tables *)

(** [created_at] of categories and transactions is left out: no service
    reads it. Users are referred to by primary key. *)

Inductive CategoryType : Type := INCOME | EXPENSE.

Definition CategoryType_eqb (a b : CategoryType) : bool :=
  match a, b with
  | INCOME, INCOME | EXPENSE, EXPENSE => true
  | _, _ => false
  end.

Module Category.
Record t : Type := mk { id : Z; name : Py.str; type : CategoryType; user : Z }.
End Category.

Module Transaction.
Record t : Type := mk {
  id : Z; user : Z; amount : decimal.amount; category : Z;
  description : Py.str; date : datetime.date }.
End Transaction.

Module Budget.
Record t : Type := mk {
  id : Z; user : Z; category : Z; amount : decimal.amount; month : datetime.date }.
End Budget.

(** The data store. *)
Record DB : Type := mkDB {
  Category_objects : list Category.t;
  Transaction_objects : list Transaction.t;
  Budget_objects : list Budget.t }.

(** ** The query operations the services use *)

Module orm.

(** The key an [AutoField] gives the next row. *)
Definition next_pk (pks : list Z) : Z := 1 + fold_right Z.max 0 pks.

(** The category row a foreign key refers to. *)
Definition category_of (db : DB) (pk : Z) : option Category.t :=
  find (fun c => Category.id c =? pk) (Category_objects db).

(** Transactions joined with their category ([select_related('category')],
    and every lookup through [category__...]): an inner join. *)
Fixpoint join_category (db : DB) (ts : list Transaction.t)
  : list (Transaction.t * Category.t) :=
  match ts with
  | [] => []
  | t :: r =>
      match category_of db (Transaction.category t) with
      | Some c => (t, c) :: join_category db r
      | None => join_category db r
      end
  end.

(** Budgets joined with their category. *)
Fixpoint join_budget_category (db : DB) (bs : list Budget.t)
  : list (Budget.t * Category.t) :=
  match bs with
  | [] => []
  | b :: r =>
      match category_of db (Budget.category b) with
      | Some c => (b, c) :: join_budget_category db r
      | None => join_budget_category db r
      end
  end.

(** [aggregate(total=Sum(...))['total']]: [None] over no rows. *)
Definition Sum (xs : list decimal.amount) : option decimal.amount :=
  match xs with
  | [] => None
  | _ => Some (fold_left Z.add xs 0)
  end.

(** [x or 0] on the result of an aggregate. *)
Definition or_0 (x : option decimal.amount) : decimal.amount :=
  match x with
  | None => 0
  | Some v => if v =? 0 then 0 else v
  end.

(** Stable insertion sort; [before a b] says that [a] may precede [b]. *)
Fixpoint insert_by {A} (before : A -> A -> bool) (x : A) (l : list A) : list A :=
  match l with
  | [] => [x]
  | y :: r => if before x y then x :: y :: r else y :: insert_by before x r
  end.

Definition order_by {A} (before : A -> A -> bool) (l : list A) : list A :=
  fold_right (insert_by before) [] l.

(** [Transaction.objects.filter(user=user, category__type=ty,
    date__range=[a, b])] *)
Definition transactions_of_type (db : DB) (user : Z) (ty : CategoryType)
  (a b : datetime.date) : list (Transaction.t * Category.t) :=
  filter (fun tc =>
            (Transaction.user (fst tc) =? user)
            && CategoryType_eqb (Category.type (snd tc)) ty
            && datetime.in_range (Transaction.date (fst tc)) a b)
         (join_category db (Transaction_objects db)).

(** [Transaction.objects.filter(user=user, category=c, date__range=[a, b])] *)
Definition transactions_of_category (db : DB) (user : Z) (c : Z)
  (a b : datetime.date) : list Transaction.t :=
  filter (fun t =>
            (Transaction.user t =? user)
            && (Transaction.category t =? c)
            && datetime.in_range (Transaction.date t) a b)
         (Transaction_objects db).

Definition amounts (ts : list Transaction.t) : list decimal.amount :=
  map Transaction.amount ts.

End orm.

(** ** Store-writing code: a state monad with exceptions *)

Definition M (A : Type) : Type := DB -> result A * DB.

Definition ret {A} (a : A) : M A := fun db => (Ok a, db).

Definition raise {A} (e : exn) : M A := fun db => (Raise e, db).

Definition bind {A B} (c : M A) (k : A -> M B) : M B :=
  fun db =>
    match c db with
    | (Ok a, db') => k a db'
    | (Raise e, db') => (Raise e, db')
    end.

(** A computation that does not touch the store. *)
Definition lift {A} (r : result A) : M A := fun db => (r, db).

Declare Scope store_scope.
Delimit Scope store_scope with store.
Notation "x <- c ;; k" := (bind c (fun x => k))
  (at level 61, c at next level, right associativity) : store_scope.
Notation "' p <- c ;; k" := (bind c (fun x => match x with p => k end))
  (at level 61, p pattern, c at next level, right associativity) : store_scope.

Module writes.

(** [Category.objects.get_or_create(name=name, type=type, user=user)] *)
Definition Category_get_or_create (name : Py.str) (type : CategoryType) (user : Z)
  : M (Category.t * bool) :=
  fun db =>
    match filter (fun c =>
                    Py.str_eqb (Category.name c) name
                    && CategoryType_eqb (Category.type c) type
                    && (Category.user c =? user))
                 (Category_objects db) with
    | [] =>
        let c := Category.mk (orm.next_pk (map Category.id (Category_objects db)))
                   name type user in
        (Ok (c, true),
         mkDB (Category_objects db ++ [c]) (Transaction_objects db) (Budget_objects db))
    | [c] => (Ok (c, false), db)
    | _ => (Raise MultipleObjectsReturned, db)
    end.

(** The insertion of a transaction whose amount is an amount of the
    column: a new row at the end of the table. *)
Definition Transaction_insert (user : Z) (category : Category.t)
  (amount : decimal.amount) (description : Py.str) (date : datetime.date)
  : M Transaction.t :=
  fun db =>
    let t := Transaction.mk (orm.next_pk (map Transaction.id (Transaction_objects db)))
               user amount (Category.id category) description date in
    (Ok t, mkDB (Category_objects db) (Transaction_objects db ++ [t]) (Budget_objects db)).

(** [Transaction.objects.create(user=..., category=..., amount=...,
    description=..., date=...)] with a [Decimal] as amount. *)
Definition Transaction_create (engine : column.engine) (user : Z) (category : Category.t)
  (amount : decimal.t) (description : Py.str) (date : datetime.date)
  : M Transaction.t :=
  fun db =>
    match column.save engine amount with
    | Ok a => Transaction_insert user category a description date db
    | Raise e => (Raise e, db)
    end.

(** [budget.save()] of a new row. *)
Definition Budget_insert (user category : Z) (amount : decimal.amount)
  (month : datetime.date) (db : DB) : DB :=
  let b := Budget.mk (orm.next_pk (map Budget.id (Budget_objects db)))
             user category amount month in
  mkDB (Category_objects db) (Transaction_objects db) (Budget_objects db ++ [b]).

(** [existing.save()]: the row with the key of [existing] takes its fields. *)
Definition Budget_update (existing : Budget.t) (db : DB) : DB :=
  mkDB (Category_objects db) (Transaction_objects db)
       (map (fun b => if Budget.id b =? Budget.id existing then existing else b)
            (Budget_objects db)).

End writes.

(** ** [csv]: rows written and read *)

Module csv.

Definition row := list Py.str.

(** What a [csv.writer] has written to its target, row by row. *)
Definition writerow (response : list row) (r : row) : list row := response ++ [r].

End csv.

(** ** [core/services.py] *)

Module services.
Local Open Scope result_scope.
Import datetime.

Record Summary : Type := mkSummary {
  income : decimal.amount; expense : decimal.amount; balance : decimal.amount }.

(** The month range of [get_monthly_summary] and of
    [get_expense_breakdown_by_category]: [start_date] and [end_date]. *)
Definition month_bounds (year month : Z) : result (date * date) :=
  let? start_date := new_date year month 1 in
  let? end_date :=
    (if month =? 12 then new_date (year + 1) 1 1
     else new_date year (month + 1) 1) in
  let? end_date := sub end_date resolution in
  Ok (start_date, end_date).

(** The month range of [get_budget_vs_actual], through [relativedelta]. *)
Definition month_bounds_relativedelta (year month : Z) : result (date * date) :=
  let? start_date := new_date year month 1 in
  let? next := relativedelta.radd (relativedelta.mk 1 0) start_date in
  let? end_date := relativedelta.rsub (relativedelta.mk 0 1) next in
  Ok (start_date, end_date).

Definition get_monthly_summary (db : DB) (user : Z) (year month : Z)
  : result Summary :=
  let? (start_date, end_date) := month_bounds year month in
  let income :=
    orm.or_0 (orm.Sum (orm.amounts (map fst
      (orm.transactions_of_type db user INCOME start_date end_date)))) in
  let expense :=
    orm.or_0 (orm.Sum (orm.amounts (map fst
      (orm.transactions_of_type db user EXPENSE start_date end_date)))) in
  Ok (mkSummary income expense (income - expense)).

Record BreakdownRow : Type := mkBreakdownRow {
  category__name : Py.str; total : decimal.amount }.

(** The distinct strings of a list, in order of first occurrence. *)
Fixpoint distinct (l seen : list Py.str) : list Py.str :=
  match l with
  | [] => []
  | x :: r =>
      if existsb (Py.str_eqb x) seen then distinct r seen
      else x :: distinct r (x :: seen)
  end.

(** [values('category__name').annotate(total=Sum('amount'))]: one row per
    distinct category name, with the sum of the amounts under that name. *)
Definition group_by_name (rows : list (Transaction.t * Category.t))
  : list BreakdownRow :=
  map (fun n =>
         mkBreakdownRow n
           (fold_left Z.add
              (orm.amounts (map fst
                 (filter (fun tc => Py.str_eqb (Category.name (snd tc)) n) rows))) 0))
      (distinct (map (fun tc => Category.name (snd tc)) rows) []).

Definition get_expense_breakdown_by_category (db : DB) (user : Z) (year month : Z)
  : result (list BreakdownRow) :=
  let? (start_date, end_date) := month_bounds year month in
  Ok (orm.order_by (fun a b => total b <=? total a)
        (group_by_name (orm.transactions_of_type db user EXPENSE start_date end_date))).

Record BudgetVsActual : Type := mkBudgetVsActual {
  category_name : Py.str;
  budget_amount : decimal.amount;
  actual_amount : decimal.amount;
  difference : decimal.amount;
  is_over_budget : bool }.

(** The body of the loop over [budgets]. *)
Definition budget_entry (db : DB) (user : Z) (start_date end_date : date)
  (bc : Budget.t * Category.t) : BudgetVsActual :=
  let '(budget, category) := bc in
  let actual :=
    orm.or_0 (orm.Sum (orm.amounts
      (orm.transactions_of_category db user (Budget.category budget) start_date end_date))) in
  let diff := Budget.amount budget - actual in
  mkBudgetVsActual (Category.name category) (Budget.amount budget) actual diff
    (Budget.amount budget <? actual).

(** [Budget.objects.filter(user=user, month=start_date).select_related('category')] *)
Definition budgets_of_month (db : DB) (user : Z) (start_date : date)
  : list (Budget.t * Category.t) :=
  orm.join_budget_category db
    (filter (fun b => (Budget.user b =? user) && date_eqb (Budget.month b) start_date)
            (Budget_objects db)).

Definition get_budget_vs_actual (db : DB) (user : Z) (year month : Z)
  : result (list BudgetVsActual) :=
  let? (start_date, end_date) := month_bounds_relativedelta year month in
  Ok (map (budget_entry db user start_date end_date)
          (budgets_of_month db user start_date)).

(** *** CSV export and import *)

Local Open Scope store_scope.

Definition INCOME_LABEL : Py.str := Eval vm_compute in Py.lit "Доход".
Definition EXPENSE_LABEL : Py.str := Eval vm_compute in Py.lit "Расход".

Definition HEADER : csv.row := Eval vm_compute in
  [Py.lit "Дата"; Py.lit "Тип"; Py.lit "Категория"; Py.lit "Сумма"; Py.lit "Описание"].

Definition EMPTY_FILE_MESSAGE : Py.str := Eval vm_compute in Py.lit "Пустой CSV-файл".
Definition UNKNOWN_TYPE_MESSAGE : Py.str := Eval vm_compute in
  Py.lit "Неизвестный тип операции: ".

(** The row written for one transaction. *)
Definition export_row (tc : Transaction.t * Category.t) : csv.row :=
  let '(t, c) := tc in
  [ strftime_Ymd (Transaction.date t);
    if CategoryType_eqb (Category.type c) INCOME then INCOME_LABEL else EXPENSE_LABEL;
    Category.name c;
    decimal.to_str (Transaction.amount t);
    Py.or_empty (Transaction.description t) ].

(** [Transaction.objects.filter(user=user).select_related('category')
    .order_by('-date')]; rows of one date keep the order of the table. *)
Definition transactions_newest_first (db : DB) (user : Z)
  : list (Transaction.t * Category.t) :=
  orm.order_by
    (fun a b => date_leb (Transaction.date (fst b)) (Transaction.date (fst a)))
    (orm.join_category db
       (filter (fun t => Transaction.user t =? user) (Transaction_objects db))).

Definition export_transactions_to_csv (response : list csv.row) (db : DB) (user : Z)
  : list csv.row :=
  fold_left (fun w tc => csv.writerow w (export_row tc))
            (transactions_newest_first db user)
            (csv.writerow response HEADER).

Definition len (r : csv.row) : Z := Z.of_nat (List.length r).

(** One pass of the loop over the data rows: the count after the row. A
    [continue] leaves count and store as they are. *)
Definition import_row (engine : column.engine) (user : Z) (row : csv.row) (count : Z)
  : M Z :=
  if Py.is_empty row || forallb (fun cell => Py.str_eqb (Py.strip cell) []) row
  then ret count
  else if len row <? 4 then ret count
  else
    let date_str := Py.strip (nth 0 row []) in
    let type_str := Py.strip (nth 1 row []) in
    let category_name := Py.strip (nth 2 row []) in
    let amount_str := Py.strip (nth 3 row []) in
    let description := if 4 <? len row then Py.strip (nth 4 row []) else [] in
    if Py.is_empty date_str || Py.is_empty type_str
       || Py.is_empty category_name || Py.is_empty amount_str
    then ret count
    else
      cat_type <-
        (if Py.str_eqb type_str INCOME_LABEL then ret INCOME
         else if Py.str_eqb type_str EXPENSE_LABEL then ret EXPENSE
         else raise (ValidationError (UNKNOWN_TYPE_MESSAGE ++ type_str))) ;;
      ' (category, created) <- writes.Category_get_or_create category_name cat_type user ;;
      amount <- lift (decimal.Decimal amount_str) ;;
      date <- lift (fromisoformat date_str) ;;
      _ <- writes.Transaction_create engine user category amount description date ;;
      ret (count + 1).

(** [for row in reader: ...] *)
Fixpoint import_rows (engine : column.engine) (user : Z) (rows : list csv.row)
  (count : Z) : M Z :=
  match rows with
  | [] => ret count
  | row :: rest =>
      count' <- import_row engine user row count ;; import_rows engine user rest count'
  end.

(** [file] is the content of the upload as [csv.reader] splits it;
    [engine] is the database the project runs on. *)
Definition import_transactions_from_csv (engine : column.engine) (file : list csv.row)
  (user : Z) : M Z :=
  match file with
  | [] => raise (ValidationError EMPTY_FILE_MESSAGE)
  | _header :: rows => import_rows engine user rows 0
  end.

End services.

(** ** [core/forms.py] and the budget view of [core/views.py] *)

Module forms.
Import datetime.

Definition POSITIVE_AMOUNT_MESSAGE : Py.str := Eval vm_compute in
  Py.lit "Сумма должна быть положительной.".

(** [TransactionForm.clean_amount] *)
Definition TransactionForm_clean_amount (amount : decimal.amount)
  : result decimal.amount :=
  if amount <=? 0 then Raise (ValidationError POSITIVE_AMOUNT_MESSAGE)
  else Ok amount.

(** The fields of a bound [BudgetForm] as the field classes deliver them:
    the key of the chosen category, the amount and the date. *)
Record BudgetFormData : Type := mkBudgetFormData {
  category : Z; amount : decimal.amount; month : date }.

(** [BudgetForm.__init__]: the categories offered, the expense categories
    of the user. *)
Definition BudgetForm_category_queryset (db : DB) (user : Z) : list Category.t :=
  filter (fun c => (Category.user c =? user) && CategoryType_eqb (Category.type c) EXPENSE)
         (Category_objects db).

(** [BudgetForm.clean_month]: [month.replace(day=1)]. *)
Definition BudgetForm_clean_month (m : date) : result date :=
  replace m (year m) (datetime.month m) 1.

(** [DecimalField(max_digits=12, decimal_places=2)] on a number of hundredths. *)
Definition amount_fits (a : decimal.amount) : bool := Z.abs a <? 10 ^ 12.

(** [form.is_valid()] followed by [form.save(commit=False)]: the budget to
    store, or [None] when a field is refused. *)
Definition BudgetForm_clean (db : DB) (user : Z) (data : BudgetFormData)
  : option (Category.t * decimal.amount * date) :=
  match find (fun c => Category.id c =? category data)
             (BudgetForm_category_queryset db user) with
  | None => None
  | Some c =>
      if amount_fits (amount data) then
        match BudgetForm_clean_month (month data) with
        | Ok m => Some (c, amount data, m)
        | Raise _ => None
        end
      else None
  end.

End forms.

Module views.
Import datetime.

(** The [POST] branch of [budget_list]. *)
Definition budget_list_POST (user : Z) (data : forms.BudgetFormData) (db : DB) : DB :=
  match forms.BudgetForm_clean db user data with
  | Some (c, amount, month) =>
      let existing :=
        hd_error
          (filter (fun b =>
                     (Budget.user b =? user)
                     && (Budget.category b =? Category.id c)
                     && date_eqb (Budget.month b) month)
                  (Budget_objects db)) in
      match existing with
      | Some e =>
          writes.Budget_update
            (Budget.mk (Budget.id e) (Budget.user e) (Budget.category e) amount (Budget.month e))
            db
      | None => writes.Budget_insert user (Category.id c) amount month db
      end
  | None => db
  end.

End views.

(** ** [core/forms.py] and [core/views.py]: transactions, categories, the budget page *)

Module TransactionForm.
Import datetime.

(** The fields of a bound [TransactionForm] as the field classes deliver
    them: the amount, the key of the chosen category, the text typed as
    description, the date. *)
Record Data : Type := mkData {
  amount : decimal.amount; category : Z; description : Py.str; date : datetime.date }.

(** [TransactionForm.__init__]: the categories offered, those of the user. *)
Definition category_queryset (db : DB) (user : Z) : list Category.t :=
  filter (fun c => Category.user c =? user) (Category_objects db).

(** A [CharField(max_length=n)] of a model form: the text is stripped, and
    refused when longer than [n] or when it holds a null character. *)
Definition clean_text (n : Z) (s : Py.str) : option Py.str :=
  let s := Py.strip s in
  if (Z.of_nat (List.length s) <=? n) && negb (existsb (fun c => c =? 0) s)
  then Some s else None.

(** [form.is_valid()] followed by [form.save(commit=False)]: the
    transaction to store, or [None] when a field is refused. *)
Definition clean (db : DB) (user : Z) (data : Data)
  : option (Category.t * decimal.amount * Py.str * datetime.date) :=
  match find (fun c => Category.id c =? category data) (category_queryset db user) with
  | None => None
  | Some c =>
      if forms.amount_fits (amount data) then
        match forms.TransactionForm_clean_amount (amount data) with
        | Raise _ => None
        | Ok a =>
            match clean_text 255 (description data) with
            | None => None
            | Some text =>
                if valid_dateb (year (date data)) (month (date data)) (day (date data))
                then Some (c, a, text, date data) else None
            end
        end
      else None
  end.

End TransactionForm.

Module CategoryForm.

(** The fields of a bound [CategoryForm]: the text typed as name and the
    chosen type. *)
Record Data : Type := mkData { name : Py.str; type : CategoryType }.

(** [form.is_valid()]: the name is required, stripped, at most 100
    characters long. The form does not know the user and checks no
    uniqueness. *)
Definition clean (data : Data) : option (Py.str * CategoryType) :=
  match TransactionForm.clean_text 100 (name data) with
  | None => None
  | Some text => if Py.is_empty text then None else Some (text, type data)
  end.

End CategoryForm.

Module pages.
Import datetime.
Local Open Scope result_scope.

(** What a view answers to a request. *)
Inductive response : Type :=
| Redirect (db : DB)        (* the write was made and the browser is sent on *)
| Render                    (* a page is shown; the store is as before *)
| Http404
| Uncaught (e : exn)        (* an exception no handler catches *)
| IntegrityError.           (* the store refuses a row that breaks a constraint *)

(** The [POST] branch of [transaction_create]; the form delivers an amount
    of the column, which the new row holds as it is. *)
Definition transaction_create_POST (user : Z) (data : TransactionForm.Data) (db : DB)
  : response :=
  match TransactionForm.clean db user data with
  | Some (c, amount, description, date) =>
      Redirect (snd (writes.Transaction_insert user c amount description date db))
  | None => Render
  end.

(** The [POST] branch of [category_create]; [category.save()] meets the
    constraint [unique_together = ('name', 'user', 'type')] in the store. *)
Definition category_create_POST (user : Z) (data : CategoryForm.Data) (db : DB)
  : response :=
  match CategoryForm.clean data with
  | Some (name, type) =>
      if existsb (fun c => Py.str_eqb (Category.name c) name
                           && CategoryType_eqb (Category.type c) type
                           && (Category.user c =? user))
                 (Category_objects db)
      then IntegrityError
      else
        let c := Category.mk (orm.next_pk (map Category.id (Category_objects db)))
                   name type user in
        Redirect (mkDB (Category_objects db ++ [c]) (Transaction_objects db)
                       (Budget_objects db))
  | None => Render
  end.

(** [transaction_delete]: [get_object_or_404(Transaction, pk=pk,
    user=request.user)], then the confirmation page for a [GET] and
    [transaction.delete()] for a [POST]. *)
Definition transaction_delete (post : bool) (user pk : Z) (db : DB) : response :=
  match filter (fun t => (Transaction.id t =? pk) && (Transaction.user t =? user))
               (Transaction_objects db) with
  | [] => Http404
  | [t] =>
      if post then
        Redirect (mkDB (Category_objects db)
                       (filter (fun x => negb (Transaction.id x =? Transaction.id t))
                               (Transaction_objects db))
                       (Budget_objects db))
      else Render
  | _ => Uncaught MultipleObjectsReturned
  end.

(** The two months of the budget page: [current_month] and [last_month]. *)
Definition budget_list_months (today : date) : result (date * date) :=
  let? current_month := replace today (year today) (month today) 1 in
  let? last_month := relativedelta.rsub (relativedelta.mk 1 0) current_month in
  Ok (current_month, last_month).

(** The budgets shown by [budget_list]:
    [Budget.objects.filter(user=..., month__in=[last_month, current_month])
    .select_related('category')]. *)
Definition budget_list_budgets (today : date) (user : Z) (db : DB)
  : result (list (Budget.t * Category.t)) :=
  let? (current_month, last_month) := budget_list_months today in
  Ok (orm.join_budget_category db
        (filter (fun b => (Budget.user b =? user)
                          && (date_eqb (Budget.month b) last_month
                              || date_eqb (Budget.month b) current_month))
                (Budget_objects db))).

End pages.

(** ** The vocabulary of the specification *)

Module spec.
Import datetime.

(** The sum of a list of amounts. *)
Definition total (xs : list decimal.amount) : decimal.amount := fold_right Z.add 0 xs.

(** First and last day of a month, and the first day of the month after it. *)
Definition first_day (y m : Z) : date := mkdate y m 1.

Definition last_day (y m : Z) : date := mkdate y m (_days_in_month y m).

Definition next_month_first_day (y m : Z) : date :=
  if m =? 12 then mkdate (y + 1) 1 1 else mkdate y (m + 1) 1.

(** The length of a month in the Gregorian calendar. *)
Definition leap_year (y : Z) : bool :=
  ((y mod 4 =? 0) && negb (y mod 100 =? 0)) || (y mod 400 =? 0).

Definition month_length (y m : Z) : Z :=
  if m =? 2 then (if leap_year y then 29 else 28)
  else if (m =? 4) || (m =? 6) || (m =? 9) || (m =? 11) then 30
  else 31.

(** The months whose range the services compute: every month of the date
    type but the last one. *)
Definition month_in_domain (y m : Z) : Prop :=
  1 <= y <= 9999 /\ 1 <= m <= 12 /\ ~ (y = 9999 /\ m = 12).

(** A transaction whose category is of type [ty]. *)
Definition has_type (db : DB) (t : Transaction.t) (ty : CategoryType) : bool :=
  match orm.category_of db (Transaction.category t) with
  | Some c => CategoryType_eqb (Category.type c) ty
  | None => false
  end.

(** The sum of the amounts of the transactions of [user] dated within
    [[a, b]] whose category is of type [ty]. *)
Definition total_of_type (db : DB) (user : Z) (ty : CategoryType) (a b : date)
  : decimal.amount :=
  total (map Transaction.amount
    (filter (fun t => (Transaction.user t =? user) && has_type db t ty
                      && date_leb a (Transaction.date t) && date_leb (Transaction.date t) b)
            (Transaction_objects db))).

(** The sum of the amounts of the transactions of [user] dated within
    [[a, b]] under the category [cat]. *)
Definition category_total (db : DB) (user cat : Z) (a b : date) : decimal.amount :=
  total (map Transaction.amount
    (filter (fun t => (Transaction.user t =? user) && (Transaction.category t =? cat)
                      && date_leb a (Transaction.date t) && date_leb (Transaction.date t) b)
            (Transaction_objects db))).

(** The expense total of the category [cat]: as [category_total], over
    expense transactions only. *)
Definition expense_total_of_category (db : DB) (user cat : Z) (a b : date)
  : decimal.amount :=
  total (map Transaction.amount
    (filter (fun t => (Transaction.user t =? user) && (Transaction.category t =? cat)
                      && has_type db t EXPENSE
                      && date_leb a (Transaction.date t) && date_leb (Transaction.date t) b)
            (Transaction_objects db))).

(** The budget rows of [user] for the month that starts on [first_day y m]. *)
Definition budget_rows (db : DB) (user : Z) (y m : Z) : list Budget.t :=
  filter (fun b => (Budget.user b =? user) && date_eqb (Budget.month b) (first_day y m))
         (Budget_objects db).

(** No transaction of [user] is dated within the month. *)
Definition no_transactions_in_month (db : DB) (user : Z) (y m : Z) : Prop :=
  forall t, In t (Transaction_objects db) -> Transaction.user t = user ->
    in_range (Transaction.date t) (first_day y m) (last_day y m) = false.

(** The trimmed field [i] of a row of the CSV file. *)
Definition field (row : csv.row) (i : nat) : Py.str := Py.strip (nth i row []).

(** A fully blank row: no field, or only fields that trim to nothing. *)
Definition blank (row : csv.row) : Prop := Forall (fun cell => Py.strip cell = []) row.

(** The rows the importer passes over: fully blank, fewer than four fields,
    or an empty date, type, category name or amount after trimming. *)
Definition skipped (row : csv.row) : Prop :=
  blank row \/ (List.length row < 4)%nat
  \/ field row 0 = [] \/ field row 1 = [] \/ field row 2 = [] \/ field row 3 = [].

Definition skippedb (row : csv.row) : bool :=
  forallb (fun cell => Py.is_empty (Py.strip cell)) row
  || (List.length row <? 4)%nat
  || Py.is_empty (field row 0) || Py.is_empty (field row 1)
  || Py.is_empty (field row 2) || Py.is_empty (field row 3).

(** The category type that a type label stands for. *)
Definition label_type (type_str : Py.str) : option CategoryType :=
  if Py.str_eqb type_str services.INCOME_LABEL then Some INCOME
  else if Py.str_eqb type_str services.EXPENSE_LABEL then Some EXPENSE
  else None.

(** The category rows with a given name, type and owner. *)
Definition categories_matching (db : DB) (name : Py.str) (ty : CategoryType) (user : Z)
  : list Category.t :=
  filter (fun c => Py.str_eqb (Category.name c) name
                   && CategoryType_eqb (Category.type c) ty
                   && (Category.user c =? user))
         (Category_objects db).

(** [unique_together = ('name', 'user', 'type')] of [Category]. *)
Definition category_unique_together (db : DB) : Prop :=
  forall name ty user, (List.length (categories_matching db name ty user) <= 1)%nat.

(** The budget rows with the key [(user, category, month)]. *)
Definition budget_key_rows (db : DB) (user cat : Z) (month : date) : list Budget.t :=
  filter (fun b => (Budget.user b =? user) && (Budget.category b =? cat)
                   && date_eqb (Budget.month b) month)
         (Budget_objects db).

(** [unique_together = ('user', 'category', 'month')] of [Budget]. *)
Definition budget_unique_together (db : DB) : Prop :=
  forall user cat month, (List.length (budget_key_rows db user cat month) <= 1)%nat.

(** The primary key of [Budget]. *)
Definition budget_pk_unique (db : DB) : Prop := NoDup (map Budget.id (Budget_objects db)).

(** What a transaction shows of itself: date, type, category name, amount
    and description. *)
Definition tuple : Type :=
  (date * CategoryType * Py.str * decimal.amount * Py.str)%type.

Definition tuple_of (tc : Transaction.t * Category.t) : tuple :=
  (Transaction.date (fst tc), Category.type (snd tc), Category.name (snd tc),
   Transaction.amount (fst tc), Transaction.description (fst tc)).

(** The transactions of [user], each with its category. *)
Definition user_rows (db : DB) (user : Z) : list (Transaction.t * Category.t) :=
  orm.join_category db
    (filter (fun t => Transaction.user t =? user) (Transaction_objects db)).

Definition user_tuples (db : DB) (user : Z) : list tuple :=
  map tuple_of (user_rows db user).

(** A string without leading or trailing whitespace. *)
Definition trimmed (s : Py.str) : Prop := Py.strip s = s.

(** An account whose text survives trimming: category names are trimmed and
    not empty, descriptions are trimmed; and dates are date objects. *)
Definition account_trimmed (db : DB) (user : Z) : Prop :=
  forall t c, In (t, c) (user_rows db user) ->
    valid (Transaction.date t)
    /\ trimmed (Category.name c) /\ Category.name c <> []
    /\ trimmed (Transaction.description t).

(** An account without categories and without transactions. *)
Definition account_empty (db : DB) (user : Z) : Prop :=
  (forall t, In t (Transaction_objects db) -> Transaction.user t <> user)
  /\ (forall c, In c (Category_objects db) -> Category.user c <> user).

(** The primary key of [Category]. *)
Definition category_pk_unique (db : DB) : Prop :=
  NoDup (map Category.id (Category_objects db)).

(** A character that [strip] keeps. *)
Definition nonspace (c : Z) : Prop := Py.isspace c = false.

(** A digit, a hyphen or a point. *)
Definition numeric (c : Z) : Prop := 48 <= c <= 57 \/ c = 45 \/ c = 46.

(** What the import of a row relies on in the store it writes to: category
    keys are unique, the user has at most one category of a name and type,
    and the user's transactions refer to categories that exist. *)
Definition import_ready (db : DB) (user : Z) : Prop :=
  category_pk_unique db
  /\ (forall name ty, (List.length (categories_matching db name ty user) <= 1)%nat)
  /\ (forall t, In t (Transaction_objects db) -> Transaction.user t = user ->
                orm.category_of db (Transaction.category t) <> None).

(** The hundredths 0..99. *)
Definition all_hundredths : list Z := map Z.of_nat (seq 0 100).

(** The two errors of the importer that the specification names. *)
Definition EmptyInputError : exn := ValidationError services.EMPTY_FILE_MESSAGE.

Definition UnrecognizedTypeError (type_str : Py.str) : exn :=
  ValidationError (services.UNKNOWN_TYPE_MESSAGE ++ type_str).

(** The ordinal of the first and of the last day of a month converts back
    to that day: the check run over one 400-year cycle of the calendar. *)
Definition month_ends_roundtripb (y m : Z) : bool :=
  let check d :=
    let '(y', m', d') := _ord2ymd (_ymd2ord y m d) in
    (y' =? y) && (m' =? m) && (d' =? d) in
  check 1 && check (_days_in_month y m).

Definition cycle_years : list Z := map Z.of_nat (seq 1 400).
Definition all_months : list Z := map Z.of_nat (seq 1 12).

Definition cycle_roundtripb : bool :=
  forallb (fun y => forallb (month_ends_roundtripb y) all_months) cycle_years.

(** The primary key of [Transaction]. *)
Definition transaction_pk_unique (db : DB) : Prop :=
  NoDup (map Transaction.id (Transaction_objects db)).

(** Every transaction is under a category of its own user. *)
Definition owner_consistent (db : DB) : Prop :=
  forall t, In t (Transaction_objects db) ->
    exists c, orm.category_of db (Transaction.category t) = Some c
              /\ Category.user c = Transaction.user t.

(** Every budget is on an expense category of its own user, for a month
    given by its first day. *)
Definition budgets_well_formed (db : DB) : Prop :=
  forall b, In b (Budget_objects db) ->
    exists c, orm.category_of db (Budget.category b) = Some c
              /\ Category.user c = Budget.user b
              /\ Category.type c = EXPENSE
              /\ day (Budget.month b) = 1.

(** The text and the dates of the store are as the forms and the importer
    deliver them: names trimmed and not empty, descriptions trimmed, dates
    valid. *)
Definition text_clean (db : DB) : Prop :=
  (forall c, In c (Category_objects db) ->
     trimmed (Category.name c) /\ Category.name c <> [])
  /\ (forall t, In t (Transaction_objects db) ->
        trimmed (Transaction.description t) /\ valid (Transaction.date t)).

(** The constraints of the schema together with what the forms enforce. *)
Definition store_ok (db : DB) : Prop :=
  category_pk_unique db /\ category_unique_together db
  /\ transaction_pk_unique db /\ owner_consistent db
  /\ budget_pk_unique db /\ budget_unique_together db
  /\ budgets_well_formed db /\ text_clean db.

(** The first day of the month before month [m] of year [y]. *)
Definition previous_month_first_day (y m : Z) : date :=
  if m =? 1 then mkdate (y - 1) 12 1 else mkdate y (m - 1) 1.

(** Newest first. *)
Definition not_older (a b : Transaction.t * Category.t) : Prop :=
  date_leb (Transaction.date (fst b)) (Transaction.date (fst a)) = true.

(** Largest total first. *)
Definition not_smaller (a b : services.BreakdownRow) : Prop :=
  services.total b <= services.total a.

(** The expense rows of [user] in the range [[a, b]] under categories
    named [n]. *)
Definition expenses_named (db : DB) (user : Z) (a b : date) (n : Py.str)
  : list (Transaction.t * Category.t) :=
  filter (fun tc => Py.str_eqb (Category.name (snd tc)) n)
         (orm.transactions_of_type db user EXPENSE a b).

(** The store as one user sees it: all categories, and the transactions and
    budgets of that user only. *)
Definition own_part (db : DB) (user : Z) : DB :=
  mkDB (Category_objects db)
       (filter (fun t => Transaction.user t =? user) (Transaction_objects db))
       (filter (fun b => Budget.user b =? user) (Budget_objects db)).

(** The description the loop body stores. *)
Definition stored_description (row : csv.row) : Py.str :=
  if 4 <? services.len row then field row 4 else [].

(** The store after the category of a row has been resolved. *)
Definition with_category (db : DB) (cats : list Category.t) : DB :=
  mkDB cats (Transaction_objects db) (Budget_objects db).

(** The store after the transaction of a row has been inserted. *)
Definition with_transaction (db : DB) (cats : list Category.t) (user : Z)
  (a : decimal.amount) (c : Category.t) (text : Py.str) (d : date) : DB :=
  mkDB cats
       (Transaction_objects db
        ++ [Transaction.mk (orm.next_pk (map Transaction.id (Transaction_objects db)))
              user a (Category.id c) text d])
       (Budget_objects db).

(** The years of four digits, and the four digits of a year. *)
Definition four_digit_years : list Z :=
  map (fun k => 1000 + Z.of_nat k) (seq 0 (Z.to_nat 9000)).

Definition four_digits (y : Z) : Py.str :=
  [digit (y / 1000); digit (y / 100 mod 10); digit (y / 10 mod 10); digit (y mod 10)].

(** The two conversions of a row and the preparation of the amount, in the
    order of the call of [Transaction.objects.create]: what the new row is
    to hold as amount and date. *)
Definition conversions (engine : column.engine) (row : csv.row)
  : result (decimal.amount * date) :=
  match decimal.Decimal (field row 3) with
  | Raise e => Raise e
  | Ok v =>
      match fromisoformat (field row 0) with
      | Raise e => Raise e
      | Ok d =>
          match column.save engine v with
          | Raise e => Raise e
          | Ok a => Ok (a, d)
          end
      end
  end.

(** An account that the exporter writes in the form the importer reads:
    the years of its dates have four digits and its amounts are amounts of
    the column. *)
Definition account_exportable (db : DB) (user : Z) : Prop :=
  forall t c, In (t, c) (user_rows db user) ->
    1000 <= year (Transaction.date t) /\ column.holds (Transaction.amount t) = true.

(** The data rows the importer does not pass over. *)
Definition kept_rows (rows : list csv.row) : list csv.row :=
  filter (fun row => negb (skippedb row)) rows.

End spec.

(** ** [core/tests.py]: the fixture of [ServicesTest] *)

Module tests.
Import datetime.

Definition user : Z := 1.

Definition FOOD : Py.str := Eval vm_compute in Py.lit "Еда".
Definition SALARY : Py.str := Eval vm_compute in Py.lit "ЗП".

Definition expense_cat : Category.t := Category.mk 1 FOOD EXPENSE user.

Definition income_cat : Category.t := Category.mk 2 SALARY INCOME user.

Definition db : DB :=
  mkDB [expense_cat; income_cat]
       [ Transaction.mk 1 user 5000000 2 [] (mkdate 2025 10 5);
         Transaction.mk 2 user 100000 1 [] (mkdate 2025 10 10);
         Transaction.mk 3 user 50000 1 [] (mkdate 2025 10 20) ]
       [].

(** The same account with a budget of 1200.00 on food for October 2025. *)
Definition db_with_budget : DB :=
  mkDB (Category_objects db) (Transaction_objects db)
       [Budget.mk 1 user 1 120000 (mkdate 2025 10 1)].

Definition D_2025_10_01 : Py.str := Eval vm_compute in Py.lit "2025-10-01".
Definition D_2025_02_30 : Py.str := Eval vm_compute in Py.lit "2025-02-30".
Definition TRANSFER : Py.str := Eval vm_compute in Py.lit "Перевод".
Definition MINUS_FIVE : Py.str := Eval vm_compute in Py.lit "-5.00".

(** The database engine of the examples: it refuses every amount that the
    column does not hold. *)
Definition engine : column.engine := fun _ => column.NotStored.

Definition NAN : Py.str := Eval vm_compute in Py.lit "NaN".

(** A data row whose amount is not a number. *)
Definition row_of_nan_amount : csv.row :=
  [D_2025_10_01; services.EXPENSE_LABEL; FOOD; NAN; []].

(** An account with a transaction of the year 999. *)
Definition db_year_999 : DB :=
  mkDB [expense_cat] [Transaction.mk 1 user 100000 1 [] (mkdate 999 10 10)] [].

(** The fixture with a budget for December 9999 and a transaction in that
    month. *)
Definition db_december_9999 : DB :=
  mkDB [expense_cat]
       [Transaction.mk 1 user 100000 1 [] (mkdate 9999 12 15)]
       [Budget.mk 1 user 1 120000 (mkdate 9999 12 1)].

(** A data row of three fields. *)
Definition row_of_three : csv.row := [D_2025_10_01; services.EXPENSE_LABEL; FOOD].

(** A data row with a type that is neither label. *)
Definition row_of_unknown_type : csv.row :=
  [D_2025_10_01; TRANSFER; FOOD; MINUS_FIVE; []].

(** A data row with a negative amount. *)
Definition row_of_negative_amount : csv.row :=
  [D_2025_10_01; services.EXPENSE_LABEL; FOOD; MINUS_FIVE; []].

(** A data row with a negative amount and February 30 as date. *)
Definition row_of_bad_date : csv.row :=
  [D_2025_02_30; services.EXPENSE_LABEL; FOOD; MINUS_FIVE; []].

(** Two submissions of the budget form for food in October 2025. *)
Definition first_submission : forms.BudgetFormData :=
  forms.mkBudgetFormData 1 300000 (mkdate 2025 10 15).

Definition second_submission : forms.BudgetFormData :=
  forms.mkBudgetFormData 1 450000 (mkdate 2025 10 28).

(** The file of [test_import_csv]. *)
Definition D_2025_10_02 : Py.str := Eval vm_compute in Py.lit "2025-10-02".
Definition GROCERIES : Py.str := Eval vm_compute in Py.lit "Продукты".
Definition FIFTY_THOUSAND : Py.str := Eval vm_compute in Py.lit "50000".
Definition ONE_THOUSAND : Py.str := Eval vm_compute in Py.lit "1000".

Definition csv_data : list csv.row :=
  [ services.HEADER;
    [D_2025_10_01; services.INCOME_LABEL; SALARY; FIFTY_THOUSAND; []];
    [D_2025_10_02; services.EXPENSE_LABEL; FOOD; ONE_THOUSAND; GROCERIES] ].

(** The file of [test_import_csv] followed by a row dated February 30. *)
Definition csv_with_bad_row : list csv.row := csv_data ++ [row_of_bad_date].

(** A row dated February 30 under a category the fixture does not have. *)
Definition row_of_new_category : csv.row :=
  [D_2025_02_30; services.EXPENSE_LABEL; GROCERIES; MINUS_FIVE; []].

(** A transaction form: 10.00 on food, with a description typed with a
    trailing space. *)
Definition transaction_form : TransactionForm.Data :=
  TransactionForm.mkData 1000 1 (GROCERIES ++ [32]) (mkdate 2025 10 21).

(** Category forms: a new name, and the name of the food category typed with
    a leading space. *)
Definition category_form : CategoryForm.Data := CategoryForm.mkData GROCERIES EXPENSE.

Definition duplicate_category_form : CategoryForm.Data :=
  CategoryForm.mkData (32 :: FOOD) EXPENSE.

(** The fixture with a second user, who has a category and a transaction. *)
Definition other_user : Z := 2.

Definition other_transaction : Transaction.t :=
  Transaction.mk 4 other_user 70000 3 [] (mkdate 2025 10 7).

Definition db_two_users : DB :=
  mkDB (Category_objects db ++ [Category.mk 3 FOOD EXPENSE other_user])
       (Transaction_objects db ++ [other_transaction])
       [].

(** An account whose category name starts with a space. *)
Definition db_untrimmed : DB :=
  mkDB [Category.mk 1 (32 :: FOOD) EXPENSE user]
       [Transaction.mk 1 user 100000 1 [] (mkdate 2025 10 10)]
       [].

(** An account whose only budget is on its income category. *)
Definition db_income_budget : DB :=
  mkDB [income_cat]
       [Transaction.mk 1 user 5000000 2 [] (mkdate 2025 10 5)]
       [Budget.mk 1 user 2 100000 (mkdate 2025 10 1)].

End tests.

(** * Properties *)

(** The eight constraints of [spec.store_ok], one goal each. *)
Ltac store_ok_split :=
  refine (conj _ (conj _ (conj _ (conj _ (conj _ (conj _ (conj _ _))))))).

(** ** The calendar *)

Section Calendar.
Import datetime.

Lemma cycle_roundtrip :
  forallb (fun y => forallb (spec.month_ends_roundtripb y) spec.all_months)
          spec.cycle_years = true.
Proof. vm_compute. reflexivity. Qed.

Lemma is_leap_shift y k : _is_leap (y + 400 * k) = _is_leap y.
Proof.
  unfold _is_leap.
  replace ((y + 400 * k) mod 4) with (y mod 4)
    by (replace (y + 400 * k) with (y + (100 * k) * 4) by ring; now rewrite Z.mod_add).
  replace ((y + 400 * k) mod 100) with (y mod 100)
    by (replace (y + 400 * k) with (y + (4 * k) * 100) by ring; now rewrite Z.mod_add).
  replace ((y + 400 * k) mod 400) with (y mod 400)
    by (replace (y + 400 * k) with (y + k * 400) by ring; now rewrite Z.mod_add).
  reflexivity.
Qed.

Lemma days_before_year_shift y k :
  _days_before_year (y + 400 * k) = _days_before_year y + _DI400Y * k.
Proof.
  unfold _days_before_year, _DI400Y. cbv zeta.
  replace ((y + 400 * k - 1) / 4) with ((y - 1) / 4 + 100 * k)
    by (replace (y + 400 * k - 1) with (y - 1 + (100 * k) * 4) by ring;
        now rewrite Z.div_add).
  replace ((y + 400 * k - 1) / 100) with ((y - 1) / 100 + 4 * k)
    by (replace (y + 400 * k - 1) with (y - 1 + (4 * k) * 100) by ring;
        now rewrite Z.div_add).
  replace ((y + 400 * k - 1) / 400) with ((y - 1) / 400 + k)
    by (replace (y + 400 * k - 1) with (y - 1 + k * 400) by ring;
        now rewrite Z.div_add).
  ring.
Qed.

Lemma days_in_month_shift y k m : _days_in_month (y + 400 * k) m = _days_in_month y m.
Proof. unfold _days_in_month. now rewrite is_leap_shift. Qed.

Lemma ymd2ord_shift y k m d :
  _ymd2ord (y + 400 * k) m d = _ymd2ord y m d + _DI400Y * k.
Proof.
  unfold _ymd2ord, _days_before_month.
  rewrite days_before_year_shift, is_leap_shift. ring.
Qed.

Lemma ord2ymd_shift n k :
  _ord2ymd (n + _DI400Y * k) =
  let '(y, m, d) := _ord2ymd n in (y + 400 * k, m, d).
Proof.
  unfold _ord2ymd. cbv zeta.
  replace (n + _DI400Y * k - 1) with (n - 1 + k * _DI400Y) by ring.
  rewrite Z.div_add, Z.mod_add by (unfold _DI400Y; lia).
  set (r := (n - 1) mod _DI400Y).
  set (n1 := r mod _DI100Y mod _DI4Y / 365).
  set (n100 := r / _DI100Y).
  destruct ((n1 =? 4) || (n100 =? 4)).
  - f_equal. f_equal. ring.
  - destruct (_ <? _); f_equal; f_equal; ring.
Qed.

Lemma in_range_list (n : nat) (z : Z) :
  1 <= z <= Z.of_nat n -> In z (map Z.of_nat (seq 1 n)).
Proof.
  intros Hz. apply in_map_iff. exists (Z.to_nat z). split; [lia|].
  apply in_seq. lia.
Qed.

Lemma month_ends_roundtripb_sound y m :
  spec.month_ends_roundtripb y m = true ->
  _ord2ymd (_ymd2ord y m 1) = (y, m, 1)
  /\ _ord2ymd (_ymd2ord y m (_days_in_month y m)) = (y, m, _days_in_month y m).
Proof.
  unfold spec.month_ends_roundtripb.
  destruct (_ord2ymd (_ymd2ord y m 1)) as [[a b] c].
  destruct (_ord2ymd (_ymd2ord y m (_days_in_month y m))) as [[a' b'] c'].
  rewrite !andb_true_iff, !Z.eqb_eq.
  intros [[[-> ->] ->] [[-> ->] ->]]. split; reflexivity.
Qed.

Lemma month_ends_roundtrip_cycle y m :
  1 <= y <= 400 -> 1 <= m <= 12 -> spec.month_ends_roundtripb y m = true.
Proof.
  intros Hy Hm.
  assert (Hiy : In y spec.cycle_years) by (apply (in_range_list 400); lia).
  assert (Him : In m spec.all_months) by (apply (in_range_list 12); lia).
  pose proof (proj1 (forallb_forall _ _) cycle_roundtrip y Hiy) as H.
  exact (proj1 (forallb_forall _ _) H m Him).
Qed.

(** The ordinal of the first and of the last day of any month converts
    back to that day. *)
Lemma month_ends_roundtrip y m :
  1 <= y -> 1 <= m <= 12 ->
  _ord2ymd (_ymd2ord y m 1) = (y, m, 1)
  /\ _ord2ymd (_ymd2ord y m (_days_in_month y m)) = (y, m, _days_in_month y m).
Proof.
  intros Hy Hm.
  set (y0 := (y - 1) mod 400 + 1). set (k := (y - 1) / 400).
  assert (Ey : y = y0 + 400 * k).
  { unfold y0, k. pose proof (Z.div_mod (y - 1) 400). lia. }
  assert (Hy0 : 1 <= y0 <= 400).
  { unfold y0. pose proof (Z.mod_pos_bound (y - 1) 400). lia. }
  destruct (month_ends_roundtripb_sound y0 m (month_ends_roundtrip_cycle y0 m Hy0 Hm))
    as [H1 H2].
  rewrite Ey, days_in_month_shift, !ymd2ord_shift, !ord2ymd_shift, H1, H2.
  split; reflexivity.
Qed.

(** Case analysis on a month number. *)
Lemma month_cases m : 1 <= m <= 12 ->
  m = 1 \/ m = 2 \/ m = 3 \/ m = 4 \/ m = 5 \/ m = 6 \/ m = 7
  \/ m = 8 \/ m = 9 \/ m = 10 \/ m = 11 \/ m = 12.
Proof. lia. Qed.

Ltac each_month H :=
  apply month_cases in H;
  repeat (destruct H as [H | H]); subst.

(** Month lengths. *)
Lemma days_in_month_bounds y m : 1 <= m <= 12 -> 28 <= _days_in_month y m <= 31.
Proof.
  intros Hm. unfold _days_in_month.
  destruct (_is_leap y); each_month Hm; vm_compute; split; discriminate.
Qed.

Lemma is_leap_calendar y : _is_leap y = spec.leap_year y.
Proof.
  unfold _is_leap, spec.leap_year.
  destruct (Z.eqb_spec (y mod 4) 0), (Z.eqb_spec (y mod 100) 0),
    (Z.eqb_spec (y mod 400) 0); cbn; trivial;
    exfalso; Z.to_euclidean_division_equations; lia.
Qed.

Lemma days_in_month_calendar y m :
  1 <= m <= 12 -> _days_in_month y m = spec.month_length y m.
Proof.
  intros Hm. unfold _days_in_month, spec.month_length.
  rewrite is_leap_calendar.
  destruct (spec.leap_year y); each_month Hm; reflexivity.
Qed.

Lemma days_before_year_succ y :
  _days_before_year (y + 1) = _days_before_year y + 365 + (if _is_leap y then 1 else 0).
Proof.
  unfold _days_before_year, _is_leap. cbv zeta.
  replace (y + 1 - 1) with y by ring.
  destruct (y mod 4 =? 0) eqn:E4; destruct (y mod 100 =? 0) eqn:E100;
    destruct (y mod 400 =? 0) eqn:E400; cbn;
    rewrite ?Z.eqb_eq, ?Z.eqb_neq in *;
    Z.to_euclidean_division_equations; lia.
Qed.

(** The day after the last day of a month is the first day of the next. *)
Lemma days_before_next_month y m :
  1 <= m <= 11 ->
  _days_before_month y (m + 1) = _days_before_month y m + _days_in_month y m.
Proof.
  intros Hm. assert (Hm' : 1 <= m <= 12) by lia.
  unfold _days_before_month, _days_in_month.
  destruct (_is_leap y); each_month Hm'; try (vm_compute; reflexivity).
  all: exfalso; lia.
Qed.

Lemma days_in_year y :
  _days_before_month y 12 + _days_in_month y 12 = 365 + (if _is_leap y then 1 else 0)
  /\ _days_before_month (y + 1) 1 = 0.
Proof.
  unfold _days_before_month, _days_in_month.
  destruct (_is_leap y), (_is_leap (y + 1)); vm_compute; split; reflexivity.
Qed.

Lemma next_month_ordinal y m :
  1 <= m <= 12 ->
  toordinal (spec.next_month_first_day y m) = toordinal (spec.last_day y m) + 1.
Proof.
  intros Hm. unfold spec.next_month_first_day, spec.last_day, toordinal.
  destruct (Z.eqb_spec m 12) as [-> | Hne]; cbn [year month day]; unfold _ymd2ord.
  - rewrite days_before_year_succ. destruct (days_in_year y) as [H1 H2]. lia.
  - rewrite days_before_next_month by lia. lia.
Qed.

Lemma days_before_year_mono y : 1 <= y <= 9999 ->
  0 <= _days_before_year y
  /\ _days_before_year y + 365 + (if _is_leap y then 1 else 0) <= _MAXORDINAL.
Proof.
  intros Hy. unfold _days_before_year, _is_leap, _MAXORDINAL. cbv zeta.
  split.
  - Z.to_euclidean_division_equations; lia.
  - destruct (y mod 4 =? 0) eqn:E4; destruct (y mod 100 =? 0) eqn:E100;
      destruct (y mod 400 =? 0) eqn:E400; cbn;
      rewrite ?Z.eqb_eq, ?Z.eqb_neq in *;
      Z.to_euclidean_division_equations; lia.
Qed.

Lemma days_through_month y m :
  1 <= m <= 12 ->
  0 <= _days_before_month y m
  /\ _days_before_month y m + _days_in_month y m <= 365 + (if _is_leap y then 1 else 0).
Proof.
  intros Hm. unfold _days_before_month, _days_in_month.
  destruct (_is_leap y); each_month Hm; vm_compute; split; discriminate.
Qed.

Lemma ordinal_bounds y m d :
  1 <= y <= 9999 -> 1 <= m <= 12 -> 1 <= d <= _days_in_month y m ->
  0 < _ymd2ord y m d <= _MAXORDINAL.
Proof.
  intros Hy Hm Hd. unfold _ymd2ord.
  pose proof (days_before_year_mono y Hy). pose proof (days_through_month y m Hm). lia.
Qed.

Lemma new_date_ok y m d :
  1 <= y <= 9999 -> 1 <= m <= 12 -> 1 <= d <= _days_in_month y m ->
  new_date y m d = Ok (mkdate y m d).
Proof.
  intros Hy Hm Hd. unfold new_date, valid_dateb, MINYEAR, MAXYEAR.
  repeat match goal with
         | |- context [?a <=? ?b] =>
             let L := fresh in destruct (Z.leb_spec a b) as [L | L]; [| exfalso; lia]
         end.
  reflexivity.
Qed.

Lemma new_date_first y m :
  1 <= y <= 9999 -> 1 <= m <= 12 -> new_date y m 1 = Ok (spec.first_day y m).
Proof.
  intros Hy Hm. apply new_date_ok; trivial.
  pose proof (days_in_month_bounds y m Hm). lia.
Qed.

Lemma new_date_last y m :
  1 <= y <= 9999 -> 1 <= m <= 12 ->
  new_date y m (_days_in_month y m) = Ok (spec.last_day y m).
Proof.
  intros Hy Hm. apply new_date_ok; trivial.
  pose proof (days_in_month_bounds y m Hm). lia.
Qed.

Lemma new_date_next y m :
  spec.month_in_domain y m ->
  (if m =? 12 then new_date (y + 1) 1 1 else new_date y (m + 1) 1)
  = Ok (spec.next_month_first_day y m).
Proof.
  intros (Hy & Hm & Hlast). unfold spec.next_month_first_day.
  destruct (Z.eqb_spec m 12) as [-> | Hne].
  - apply new_date_first; lia.
  - apply new_date_first; lia.
Qed.

Lemma fromordinal_first y m :
  1 <= y <= 9999 -> 1 <= m <= 12 ->
  fromordinal (_ymd2ord y m 1) = Ok (spec.first_day y m).
Proof.
  intros Hy Hm. unfold fromordinal.
  destruct (month_ends_roundtrip y m) as [-> _]; [lia | lia |].
  now apply new_date_first.
Qed.

Lemma fromordinal_last y m :
  1 <= y <= 9999 -> 1 <= m <= 12 ->
  fromordinal (_ymd2ord y m (_days_in_month y m)) = Ok (spec.last_day y m).
Proof.
  intros Hy Hm. unfold fromordinal.
  destruct (month_ends_roundtrip y m) as [_ ->]; [lia | lia |].
  now apply new_date_last.
Qed.

Lemma in_ordinal_range o : 0 < o <= _MAXORDINAL -> (0 <? o) && (o <=? _MAXORDINAL) = true.
Proof. intros H. apply andb_true_iff. split; [apply Z.ltb_lt | apply Z.leb_le]; lia. Qed.

(** One day before the first day of the next month is the last day. *)
Lemma sub_next_month y m :
  1 <= y <= 9999 -> 1 <= m <= 12 ->
  sub (spec.next_month_first_day y m) resolution = Ok (spec.last_day y m).
Proof.
  intros Hy Hm. unfold sub, add. cbn [days resolution].
  rewrite next_month_ordinal by trivial.
  replace (toordinal (spec.last_day y m) + 1 + - (1)) with (toordinal (spec.last_day y m)) by ring.
  unfold toordinal, spec.last_day. cbn [year month day].
  pose proof (days_in_month_bounds y m Hm).
  rewrite in_ordinal_range by (apply ordinal_bounds; lia).
  now apply fromordinal_last.
Qed.

(** One day after the last day is the first day of the next month. *)
Lemma add_last_day y m :
  spec.month_in_domain y m ->
  add (spec.last_day y m) resolution = Ok (spec.next_month_first_day y m).
Proof.
  intros (Hy & Hm & Hlast). unfold add. cbn [days resolution].
  rewrite <- next_month_ordinal by trivial.
  unfold spec.next_month_first_day, toordinal.
  destruct (Z.eqb_spec m 12) as [-> | Hne]; cbn [year month day].
  - pose proof (days_in_month_bounds (y + 1) 1 ltac:(lia)).
    rewrite in_ordinal_range by (apply ordinal_bounds; lia).
    apply fromordinal_first; lia.
  - pose proof (days_in_month_bounds y (m + 1) ltac:(lia)).
    rewrite in_ordinal_range by (apply ordinal_bounds; lia).
    apply fromordinal_first; lia.
Qed.

Lemma add_nothing_first_day y m :
  1 <= y <= 9999 -> 1 <= m <= 12 ->
  add (spec.first_day y m) (mktimedelta 0) = Ok (spec.first_day y m).
Proof.
  intros Hy Hm. unfold add, toordinal, spec.first_day. cbn [days year month day].
  rewrite Z.add_0_r. pose proof (days_in_month_bounds y m Hm).
  rewrite in_ordinal_range by (apply ordinal_bounds; lia).
  now apply fromordinal_first.
Qed.

Lemma month_bounds_ok y m :
  spec.month_in_domain y m ->
  services.month_bounds y m = Ok (spec.first_day y m, spec.last_day y m).
Proof.
  intros Hd. pose proof Hd as (Hy & Hm & Hlast). unfold services.month_bounds.
  rewrite new_date_first by trivial. cbn [rbind].
  rewrite new_date_next by trivial. cbn [rbind].
  rewrite sub_next_month by trivial. reflexivity.
Qed.

Lemma monthrange_ndays_ok y m :
  1 <= m <= 12 -> calendar.monthrange_ndays y m = Ok (_days_in_month y m).
Proof.
  intros Hm. unfold calendar.monthrange_ndays, _days_in_month, calendar.isleap, _is_leap.
  destruct (y mod 4 =? 0), (y mod 100 =? 0), (y mod 400 =? 0);
    each_month Hm; vm_compute; reflexivity.
Qed.

Lemma first_day_next y m :
  1 <= m <= 12 ->
  spec.next_month_first_day y m
  = spec.first_day (if m =? 12 then y + 1 else y) (if m =? 12 then 1 else m + 1).
Proof.
  intros Hm. unfold spec.next_month_first_day, spec.first_day. now destruct (m =? 12).
Qed.

Lemma month_bounds_relativedelta_ok y m :
  spec.month_in_domain y m ->
  services.month_bounds_relativedelta y m = Ok (spec.first_day y m, spec.last_day y m).
Proof.
  intros Hd. pose proof Hd as (Hy & Hm & Hlast).
  unfold services.month_bounds_relativedelta.
  rewrite new_date_first by trivial. cbn [rbind].
  set (y' := if m =? 12 then y + 1 else y).
  set (m' := if m =? 12 then 1 else m + 1).
  assert (Hy' : 1 <= y' <= 9999) by (unfold y'; destruct (Z.eqb_spec m 12); lia).
  assert (Hm' : 1 <= m' <= 12) by (unfold m'; destruct (Z.eqb_spec m 12); lia).
  pose proof (days_in_month_bounds y' m' Hm') as Hdim.
  assert (Hnext : relativedelta.radd (relativedelta.mk 1 0) (spec.first_day y m)
                  = Ok (spec.first_day y' m')).
  { unfold relativedelta.radd. cbn [relativedelta.months relativedelta.rdays
      spec.first_day year month day Z.eqb Z.abs Z.leb Z.compare Pos.compare
      Pos.compare_cont andb negb].
    assert (E : (if 12 <? m + 1 then Ok (y + 1, m + 1 - 12)
                 else if m + 1 <? 1 then Ok (y - 1, m + 1 + 12)
                 else Ok (y, m + 1)) = Ok (y', m')).
    { unfold y', m'. destruct (Z.eqb_spec m 12) as [-> | Hne]; [reflexivity|].
      destruct (Z.ltb_spec 12 (m + 1)); [lia|].
      destruct (Z.ltb_spec (m + 1) 1); [lia|]. reflexivity. }
    rewrite E. cbn [rbind]. rewrite monthrange_ndays_ok by trivial. cbn [rbind].
    rewrite Z.min_r by lia. unfold replace.
    rewrite new_date_first by trivial. cbn [rbind].
    now apply add_nothing_first_day. }
  rewrite Hnext. cbn [rbind].
  unfold relativedelta.rsub, relativedelta.radd, relativedelta.neg.
  cbn [relativedelta.months relativedelta.rdays spec.first_day year month day
       Z.opp Z.eqb rbind].
  rewrite monthrange_ndays_ok by trivial. cbn [rbind].
  rewrite Z.min_r by lia. unfold replace.
  rewrite new_date_first by trivial. cbn [rbind].
  fold (spec.first_day y' m'). unfold y', m'. rewrite <- first_day_next by trivial.
  change (mktimedelta (-1)) with (mktimedelta (- days resolution)).
  fold (sub (spec.next_month_first_day y m) resolution).
  rewrite sub_next_month by trivial. reflexivity.
Qed.

End Calendar.

(** C7 (amended). For every year 1..9999 and month 1..12 other than
    December 9999, the month range of the aggregation functions, computed
    either way, runs from the first day of the month to its last day: the
    last day is the first day of the next month minus one day, the day after
    it is the first day of the next month, its day number is the length of
    the month in the Gregorian calendar, and December of year [y] ends on
    December 31 of year [y]. *)
Theorem month_range_exact y m :
  spec.month_in_domain y m ->
  services.month_bounds y m = Ok (spec.first_day y m, spec.last_day y m)
  /\ services.month_bounds_relativedelta y m = Ok (spec.first_day y m, spec.last_day y m)
  /\ datetime.sub (spec.next_month_first_day y m) datetime.resolution
     = Ok (spec.last_day y m)
  /\ datetime.add (spec.last_day y m) datetime.resolution
     = Ok (spec.next_month_first_day y m)
  /\ datetime.day (spec.last_day y m) = spec.month_length y m
  /\ (m = 12 -> spec.last_day y m = datetime.mkdate y 12 31
                /\ spec.next_month_first_day y m = datetime.mkdate (y + 1) 1 1).
Proof.
  intros Hd. pose proof Hd as (Hy & Hm & Hlast).
  split; [now apply month_bounds_ok|].
  split; [now apply month_bounds_relativedelta_ok|].
  split; [now apply sub_next_month|].
  split; [now apply add_last_day|].
  split; [now apply days_in_month_calendar|].
  intros ->. split; reflexivity.
Qed.

(** February 2024, a leap month. *)
Lemma month_range_exact_witness :
  spec.month_in_domain 2024 2
  /\ services.month_bounds 2024 2
     = Ok (datetime.mkdate 2024 2 1, datetime.mkdate 2024 2 29)
  /\ services.month_bounds_relativedelta 2024 2
     = Ok (datetime.mkdate 2024 2 1, datetime.mkdate 2024 2 29).
Proof.
  assert (H : spec.month_in_domain 2024 2) by (unfold spec.month_in_domain; lia).
  split; [exact H|].
  destruct (month_range_exact 2024 2 H) as (H1 & H2 & _).
  split; [exact H1 | exact H2].
Defined.

(** C7, as stated, fails for December 9999, a month of a valid year: the
    first day of the next month is outside the date range, and both
    computations raise instead of ending the range on December 31. *)
Lemma month_range_december_9999 :
  datetime.new_date 9999 12 31 = Ok (datetime.mkdate 9999 12 31)
  /\ services.month_bounds 9999 12 = Raise ValueError
  /\ services.month_bounds_relativedelta 9999 12 = Raise ValueError
  /\ services.get_monthly_summary (mkDB [] [] []) 1 9999 12 = Raise ValueError
  /\ services.get_budget_vs_actual (mkDB [] [] []) 1 9999 12 = Raise ValueError.
Proof. repeat split; vm_compute; reflexivity. Qed.

(** ** The aggregation service *)

Section Aggregation.
Import datetime.

Lemma fold_left_add xs a : fold_left Z.add xs a = a + spec.total xs.
Proof.
  revert a. induction xs as [| x xs IH]; intros a; cbn [fold_left].
  - unfold spec.total. cbn [fold_right]. lia.
  - rewrite IH. unfold spec.total. cbn [fold_right]. lia.
Qed.

(** [Sum(...) or 0] is the sum, zero over no rows. *)
Lemma or_0_Sum xs : orm.or_0 (orm.Sum xs) = spec.total xs.
Proof.
  destruct xs as [| x xs]; [reflexivity|].
  unfold orm.Sum, orm.or_0. rewrite fold_left_add.
  destruct (Z.eqb_spec (0 + spec.total (x :: xs)) 0) as [E | E]; lia.
Qed.

(** Filtering the join is filtering the transactions whose category exists. *)
Lemma join_category_filter db (p : Transaction.t -> Category.t -> bool) ts :
  map fst (filter (fun tc => p (fst tc) (snd tc)) (orm.join_category db ts))
  = filter (fun t => match orm.category_of db (Transaction.category t) with
                     | Some c => p t c
                     | None => false
                     end) ts.
Proof.
  induction ts as [| t ts IH]; [reflexivity|].
  cbn [orm.join_category filter].
  destruct (orm.category_of db (Transaction.category t)) as [c|]; [|exact IH].
  cbn [filter fst snd]. destruct (p t c); cbn [map fst]; now rewrite IH.
Qed.

Lemma total_of_type_ok db user ty a b :
  orm.or_0 (orm.Sum (orm.amounts (map fst (orm.transactions_of_type db user ty a b))))
  = spec.total_of_type db user ty a b.
Proof.
  rewrite or_0_Sum. unfold orm.transactions_of_type, spec.total_of_type, orm.amounts.
  rewrite (join_category_filter db
    (fun t c => (Transaction.user t =? user) && CategoryType_eqb (Category.type c) ty
                && in_range (Transaction.date t) a b)).
  f_equal. f_equal. apply filter_ext. intros t. unfold spec.has_type, in_range.
  destruct (orm.category_of db (Transaction.category t)) as [c|].
  - now rewrite !andb_assoc.
  - now rewrite andb_false_r.
Qed.

Lemma category_total_ok db user cat a b :
  orm.or_0 (orm.Sum (orm.amounts (orm.transactions_of_category db user cat a b)))
  = spec.category_total db user cat a b.
Proof.
  rewrite or_0_Sum. unfold orm.transactions_of_category, spec.category_total, orm.amounts.
  f_equal. f_equal. apply filter_ext. intros t. unfold in_range.
  now rewrite !andb_assoc.
Qed.

(** The balance of every summary is income minus expense. *)
Lemma summary_balance db user y m s :
  services.get_monthly_summary db user y m = Ok s ->
  services.balance s = services.income s - services.expense s.
Proof.
  unfold services.get_monthly_summary.
  destruct (services.month_bounds y m) as [[a b] | e]; cbn [rbind]; [|discriminate].
  intros [= <-]. reflexivity.
Qed.

(** C5 (amended). For every year 1..9999 and month 1..12 other than
    December 9999, [get_monthly_summary] returns as income the sum of the
    amounts of the user's transactions with income categories dated within
    the first and the last day of the month, as expense the same sum over
    expense categories, and as balance income minus expense; the balance
    identity holds for every summary the function returns. *)
Theorem monthly_summary_totals db user y m :
  spec.month_in_domain y m ->
  (exists s,
      services.get_monthly_summary db user y m = Ok s
      /\ services.income s
         = spec.total_of_type db user INCOME (spec.first_day y m) (spec.last_day y m)
      /\ services.expense s
         = spec.total_of_type db user EXPENSE (spec.first_day y m) (spec.last_day y m)
      /\ services.balance s = services.income s - services.expense s)
  /\ (forall s, services.get_monthly_summary db user y m = Ok s ->
                services.balance s = services.income s - services.expense s).
Proof.
  intros Hd. split; [|intros s; apply summary_balance].
  unfold services.get_monthly_summary.
  rewrite month_bounds_ok by trivial. cbn [rbind].
  rewrite !total_of_type_ok. eexists. split; [reflexivity|].
  cbn [services.income services.expense services.balance]. repeat split.
Qed.

(** October 2025 of the test fixture: income 50000.00, expense 1500.00. *)
Lemma monthly_summary_totals_witness :
  spec.month_in_domain 2025 10
  /\ exists s,
      services.get_monthly_summary tests.db tests.user 2025 10 = Ok s
      /\ services.income s = 5000000
      /\ services.expense s = 150000
      /\ services.balance s = services.income s - services.expense s.
Proof.
  assert (H : spec.month_in_domain 2025 10) by (unfold spec.month_in_domain; lia).
  split; [exact H|].
  destruct (monthly_summary_totals tests.db tests.user 2025 10 H)
    as [(s & Hs & Hi & He & Hb) _].
  exists s. repeat split; assumption.
Defined.

(** An account with an expense and a budget in December 9999 satisfies the
    constraints of the schema and of the forms. *)
Lemma december_9999_store_ok : spec.store_ok tests.db_december_9999.
Proof.
  store_ok_split.
  - repeat (constructor; [cbn; intuition discriminate|]). constructor.
  - intros name ty user. unfold spec.categories_matching.
    cbn [tests.db_december_9999 Category_objects filter]. destruct (_ && _); cbn; lia.
  - repeat (constructor; [cbn; intuition discriminate|]). constructor.
  - intros t [<- | []]. exists tests.expense_cat. split; reflexivity.
  - repeat (constructor; [cbn; intuition discriminate|]). constructor.
  - intros user cat mo. unfold spec.budget_key_rows.
    cbn [tests.db_december_9999 Budget_objects filter]. destruct (_ && _); cbn; lia.
  - intros b [<- | []]. exists tests.expense_cat. repeat split.
  - split.
    + intros c [<- | []]; split; (reflexivity || discriminate).
    + intros t [<- | []]; split; reflexivity.
Qed.

(** C5, as stated, fails for December 9999: in a store that satisfies the
    constraints, the account has a transaction dated within that month, and
    [get_monthly_summary] raises instead of returning its amount as
    expense. *)
Lemma monthly_summary_december_9999 :
  spec.store_ok tests.db_december_9999
  /\ valid (mkdate 9999 12 15)
  /\ spec.total_of_type tests.db_december_9999 tests.user EXPENSE
       (spec.first_day 9999 12) (spec.last_day 9999 12) = 100000
  /\ services.get_monthly_summary tests.db_december_9999 tests.user 9999 12
     = Raise ValueError.
Proof.
  split; [exact december_9999_store_ok|]. repeat split; vm_compute; reflexivity.
Qed.

Lemma filter_none {A} (f : A -> bool) l :
  (forall x, In x l -> f x = false) -> filter f l = [].
Proof.
  induction l as [| x l IH]; intros H; [reflexivity|].
  cbn [filter]. rewrite (H x (or_introl eq_refl)).
  apply IH. intros y Hy. apply H. now right.
Qed.

Lemma in_join_category db ts t c :
  In (t, c) (orm.join_category db ts) ->
  In t ts /\ orm.category_of db (Transaction.category t) = Some c.
Proof.
  induction ts as [| t' ts IH]; cbn [orm.join_category]; [intros []|].
  destruct (orm.category_of db (Transaction.category t')) as [c'|] eqn:E.
  - intros [[= -> ->] | H].
    + split; [now left | exact E].
    + destruct (IH H) as [H1 H2]. split; [now right | exact H2].
  - intros H. destruct (IH H) as [H1 H2]. split; [now right | exact H2].
Qed.

Lemma no_transactions_of_type db user ty y m :
  spec.no_transactions_in_month db user y m ->
  orm.transactions_of_type db user ty (spec.first_day y m) (spec.last_day y m) = [].
Proof.
  intros Hno. unfold orm.transactions_of_type. apply filter_none.
  intros [t c] Hin. apply in_join_category in Hin. destruct Hin as [Hin _].
  cbn [fst snd]. destruct (Z.eqb_spec (Transaction.user t) user) as [Hu | Hu];
    [|reflexivity].
  rewrite (Hno t Hin Hu). apply andb_false_r.
Qed.

Lemma no_transactions_of_category db user cat y m :
  spec.no_transactions_in_month db user y m ->
  orm.transactions_of_category db user cat (spec.first_day y m) (spec.last_day y m) = [].
Proof.
  intros Hno. unfold orm.transactions_of_category. apply filter_none.
  intros t Hin. destruct (Z.eqb_spec (Transaction.user t) user) as [Hu | Hu];
    [|reflexivity].
  rewrite (Hno t Hin Hu). apply andb_false_r.
Qed.

(** C6 (amended). For every year 1..9999 and month 1..12 other than
    December 9999 in which the user has no transaction,
    [get_monthly_summary] returns income, expense and balance zero; the
    other aggregation functions do not raise either: the expense breakdown
    is empty, and every budget entry has actual amount zero and the whole
    budget as difference. *)
Theorem aggregations_without_data db user y m :
  spec.month_in_domain y m ->
  spec.no_transactions_in_month db user y m ->
  services.get_monthly_summary db user y m = Ok (services.mkSummary 0 0 0)
  /\ services.get_expense_breakdown_by_category db user y m = Ok []
  /\ exists r,
      services.get_budget_vs_actual db user y m = Ok r
      /\ Forall (fun e => services.actual_amount e = 0
                          /\ services.difference e = services.budget_amount e
                          /\ services.is_over_budget e
                             = (services.budget_amount e <? 0)) r.
Proof.
  intros Hd Hno. split; [|split].
  - unfold services.get_monthly_summary.
    rewrite month_bounds_ok by trivial. cbn [rbind].
    now rewrite !no_transactions_of_type.
  - unfold services.get_expense_breakdown_by_category.
    rewrite month_bounds_ok by trivial. cbn [rbind].
    now rewrite no_transactions_of_type.
  - unfold services.get_budget_vs_actual.
    rewrite month_bounds_relativedelta_ok by trivial. cbn [rbind].
    eexists. split; [reflexivity|].
    apply Forall_forall. intros e He. apply in_map_iff in He.
    destruct He as ([b c] & <- & _). unfold services.budget_entry.
    rewrite no_transactions_of_category by trivial.
    cbn. repeat split. lia.
Qed.

(** November 2025 of the test fixture, a month without transactions. *)
Lemma aggregations_without_data_witness :
  spec.month_in_domain 2025 11
  /\ spec.no_transactions_in_month tests.db_with_budget tests.user 2025 11
  /\ services.get_monthly_summary tests.db_with_budget tests.user 2025 11
     = Ok (services.mkSummary 0 0 0)
  /\ services.get_expense_breakdown_by_category tests.db_with_budget tests.user 2025 11
     = Ok [].
Proof.
  assert (H : spec.month_in_domain 2025 11) by (unfold spec.month_in_domain; lia).
  assert (Hno : spec.no_transactions_in_month tests.db_with_budget tests.user 2025 11).
  { intros t [<- | [<- | [<- | []]]] _; reflexivity. }
  split; [exact H|]. split; [exact Hno|].
  destruct (aggregations_without_data tests.db_with_budget tests.user 2025 11 H Hno)
    as (H1 & H2 & _).
  split; [exact H1 | exact H2].
Defined.

(** C6, as stated, fails for December 9999: in a store without
    transactions the three aggregation functions raise instead of returning
    zeroed results. *)
Lemma no_data_december_9999 :
  spec.no_transactions_in_month (mkDB [] [] []) tests.user 9999 12
  /\ services.get_monthly_summary (mkDB [] [] []) tests.user 9999 12 = Raise ValueError
  /\ services.get_expense_breakdown_by_category (mkDB [] [] []) tests.user 9999 12
     = Raise ValueError
  /\ services.get_budget_vs_actual (mkDB [] [] []) tests.user 9999 12 = Raise ValueError.
Proof. split; [intros t []|]. repeat split; vm_compute; reflexivity. Qed.

Lemma join_budget_category_all db bs :
  (forall b, In b bs -> orm.category_of db (Budget.category b) <> None) ->
  Forall2 (fun b bc => fst bc = b
                       /\ orm.category_of db (Budget.category b) = Some (snd bc))
          bs (orm.join_budget_category db bs).
Proof.
  induction bs as [| b bs IH]; intros H; cbn [orm.join_budget_category]; [constructor|].
  destruct (orm.category_of db (Budget.category b)) as [c|] eqn:E.
  - constructor; [split; [reflexivity | exact E]|].
    apply IH. intros b' Hb'. apply H. now right.
  - exfalso. apply (H b); [now left | exact E].
Qed.

Lemma Forall2_map_r {A B C} (R : A -> C -> Prop) (f : B -> C) l l' :
  Forall2 (fun a b => R a (f b)) l l' -> Forall2 R l (map f l').
Proof. induction 1; cbn [map]; constructor; assumption. Qed.

(** Under an expense category every transaction is an expense. *)
Lemma expense_total_of_expense_category db user cat c a b :
  orm.category_of db cat = Some c -> Category.type c = EXPENSE ->
  spec.expense_total_of_category db user cat a b = spec.category_total db user cat a b.
Proof.
  intros Hc Hty. unfold spec.expense_total_of_category, spec.category_total.
  f_equal. f_equal. apply filter_ext. intros t.
  destruct (Z.eqb_spec (Transaction.category t) cat) as [E | E].
  - unfold spec.has_type. rewrite E, Hc, Hty. cbn [CategoryType_eqb].
    now rewrite andb_true_r.
  - now rewrite !andb_false_r.
Qed.

(** C2 (amended). For every year 1..9999 and month 1..12 other than
    December 9999, and budget rows on expense categories (as [BudgetForm]
    leaves them and [spec.store_ok] has them),
    [get_budget_vs_actual] returns one entry per budget row of the user for
    the first day of the month, in order; each entry carries the name of the
    budget's category and the budget amount, as actual amount the expense
    total of the category over the month (zero without transactions), budget
    minus actual as difference, and the over-budget flag exactly when actual
    exceeds budget. Nothing else produces an entry, and nothing raises. *)
Theorem budget_vs_actual_entries db user y m :
  spec.month_in_domain y m ->
  (forall b, In b (spec.budget_rows db user y m) ->
             exists c, orm.category_of db (Budget.category b) = Some c
                       /\ Category.type c = EXPENSE) ->
  exists r,
    services.get_budget_vs_actual db user y m = Ok r
    /\ Forall2
         (fun b e =>
            (exists c,
                orm.category_of db (Budget.category b) = Some c
                /\ services.category_name e = Category.name c)
            /\ services.budget_amount e = Budget.amount b
            /\ services.actual_amount e
               = spec.expense_total_of_category db user (Budget.category b)
                   (spec.first_day y m) (spec.last_day y m)
            /\ services.difference e
               = services.budget_amount e - services.actual_amount e
            /\ (services.is_over_budget e = true
                <-> services.actual_amount e > services.budget_amount e))
         (spec.budget_rows db user y m) r.
Proof.
  intros Hd Hfk. unfold services.get_budget_vs_actual.
  rewrite month_bounds_relativedelta_ok by trivial. cbn [rbind].
  eexists. split; [reflexivity|].
  apply Forall2_map_r. unfold services.budgets_of_month.
  fold (spec.budget_rows db user y m).
  assert (Hall : Forall2
                   (fun b bc => In b (spec.budget_rows db user y m) /\ fst bc = b
                                /\ orm.category_of db (Budget.category b) = Some (snd bc))
                   (spec.budget_rows db user y m)
                   (orm.join_budget_category db (spec.budget_rows db user y m))).
  { assert (Hsub : forall bs,
               (forall b, In b bs -> In b (spec.budget_rows db user y m)) ->
               Forall2
                 (fun b bc => In b (spec.budget_rows db user y m) /\ fst bc = b
                              /\ orm.category_of db (Budget.category b) = Some (snd bc))
                 bs (orm.join_budget_category db bs)).
    { induction bs as [| b bs IH]; intros Hin; cbn [orm.join_budget_category];
        [constructor|].
      destruct (Hfk b (Hin b (or_introl eq_refl))) as (c & Hc & _). rewrite Hc.
      constructor; [split; [apply Hin; now left | split; [reflexivity | exact Hc]]|].
      apply IH. intros b' Hb'. apply Hin. now right. }
    apply Hsub. trivial. }
  eapply Forall2_impl; [| exact Hall].
  intros b [b' c] (Hin & Hb & Hc). cbn [fst snd] in Hb, Hc. subst b'.
  unfold services.budget_entry.
  cbn [services.category_name services.budget_amount services.actual_amount
       services.difference services.is_over_budget].
  rewrite category_total_ok. split; [|split; [|split; [|split]]].
  - exists c. split; [exact Hc | reflexivity].
  - reflexivity.
  - destruct (Hfk b Hin) as (c' & Hc' & Hty).
    symmetry. now apply (expense_total_of_expense_category db user _ c').
  - reflexivity.
  - rewrite Z.ltb_lt. lia.
Qed.

(** October 2025 of the test fixture with its food budget: 1500.00 spent
    of 1200.00. *)
Lemma budget_vs_actual_entries_witness :
  spec.month_in_domain 2025 10
  /\ exists r,
      services.get_budget_vs_actual tests.db_with_budget tests.user 2025 10 = Ok r
      /\ Forall2
           (fun b e =>
              services.budget_amount e = Budget.amount b
              /\ services.actual_amount e
                 = spec.expense_total_of_category tests.db_with_budget tests.user
                     (Budget.category b) (spec.first_day 2025 10) (spec.last_day 2025 10))
           (spec.budget_rows tests.db_with_budget tests.user 2025 10) r.
Proof.
  assert (H : spec.month_in_domain 2025 10) by (unfold spec.month_in_domain; lia).
  split; [exact H|].
  assert (Hfk : forall b, In b (spec.budget_rows tests.db_with_budget tests.user 2025 10) ->
                  exists c, orm.category_of tests.db_with_budget (Budget.category b) = Some c
                            /\ Category.type c = EXPENSE).
  { intros b [<- | []]. exists tests.expense_cat. split; reflexivity. }
  destruct (budget_vs_actual_entries tests.db_with_budget tests.user 2025 10 H Hfk)
    as (r & Hr & Hall).
  exists r. split; [exact Hr|].
  eapply Forall2_impl; [| exact Hall].
  intros b e (_ & Hb & Ha & _). split; assumption.
Defined.

(** C2, as stated, fails for December 9999: in a store that satisfies the
    constraints, the user has a budget on an expense category for that month
    and an expense under it, and [get_budget_vs_actual] raises instead of
    returning the entry. *)
Lemma budget_vs_actual_december_9999 :
  spec.store_ok tests.db_december_9999
  /\ spec.budget_rows tests.db_december_9999 tests.user 9999 12
     = [Budget.mk 1 tests.user 1 120000 (mkdate 9999 12 1)]
  /\ orm.category_of tests.db_december_9999 1 = Some tests.expense_cat
  /\ services.get_budget_vs_actual tests.db_december_9999 tests.user 9999 12
     = Raise ValueError.
Proof.
  split; [exact december_9999_store_ok|]. repeat split; vm_compute; reflexivity.
Qed.

(** Without the condition on the categories: a budget on an income
    category, which [BudgetForm] does not offer, is compared with the income
    recorded under the category. *)
Lemma budget_on_income_category :
  services.get_budget_vs_actual tests.db_income_budget tests.user 2025 10
  = Ok [services.mkBudgetVsActual tests.SALARY 100000 5000000 (-4900000) true]
  /\ spec.expense_total_of_category tests.db_income_budget tests.user 2
       (spec.first_day 2025 10) (spec.last_day 2025 10) = 0.
Proof. split; vm_compute; reflexivity. Qed.

End Aggregation.

(** ** The CSV importer *)

Section Importer.
Import services.
Local Open Scope store_scope.

Lemma is_empty_nil {A} (l : list A) : Py.is_empty l = true <-> l = [].
Proof. destruct l; cbn; split; congruence. Qed.

Lemma str_eqb_eq a b : Py.str_eqb a b = true <-> a = b.
Proof. unfold Py.str_eqb. destruct (Py.str_eq_dec a b); split; congruence. Qed.

Lemma str_eqb_nil s : Py.str_eqb s [] = Py.is_empty s.
Proof. destruct s; reflexivity. Qed.

Lemma forallb_pointwise {A} (f g : A -> bool) l :
  (forall x, f x = g x) -> forallb f l = forallb g l.
Proof.
  intros H. induction l as [| x l IH]; [reflexivity|].
  cbn [forallb]. now rewrite H, IH.
Qed.

Lemma skippedb_spec row : spec.skippedb row = true <-> spec.skipped row.
Proof.
  unfold spec.skippedb, spec.skipped, spec.blank.
  rewrite !orb_true_iff, !is_empty_nil, forallb_forall, Forall_forall, Nat.ltb_lt.
  setoid_rewrite is_empty_nil. tauto.
Qed.

Lemma not_skipped row : ~ spec.skipped row <-> spec.skippedb row = false.
Proof. rewrite <- skippedb_spec. destruct (spec.skippedb row); split; congruence. Qed.

(** The three tests of the loop body that end in [continue]. *)
Lemma import_row_tests row :
  (Py.is_empty row || forallb (fun cell => Py.str_eqb (Py.strip cell) []) row)
  || (len row <? 4)
  || (Py.is_empty (spec.field row 0) || Py.is_empty (spec.field row 1)
      || Py.is_empty (spec.field row 2) || Py.is_empty (spec.field row 3))
  = spec.skippedb row.
Proof.
  unfold spec.skippedb, len.
  replace (forallb (fun cell => Py.str_eqb (Py.strip cell) []) row)
    with (forallb (fun cell => Py.is_empty (Py.strip cell)) row)
    by (apply forallb_pointwise; intros c; now rewrite str_eqb_nil).
  replace (Z.of_nat (List.length row) <? 4) with (List.length row <? 4)%nat.
  2:{ destruct (Nat.ltb_spec (List.length row) 4), (Z.ltb_spec (Z.of_nat (List.length row)) 4);
      trivial; lia. }
  destruct row as [| c row]; [reflexivity|].
  cbn [Py.is_empty orb]. now rewrite !orb_assoc.
Qed.

(** A skipped row leaves the count and the store as they are. *)
Lemma import_row_skipped engine user row count db :
  spec.skippedb row = true -> import_row engine user row count db = (Ok count, db).
Proof.
  intros H. rewrite <- import_row_tests in H. unfold import_row.
  fold (spec.field row 0) (spec.field row 1) (spec.field row 2) (spec.field row 3).
  destruct (Py.is_empty row || forallb _ row); [reflexivity|].
  destruct (len row <? 4); [reflexivity|].
  cbn [orb] in H. now rewrite H.
Qed.

(** A row that is not skipped goes through the type test, category
    resolution, the two conversions and the insertion. *)
Lemma import_row_kept engine user row count :
  spec.skippedb row = false ->
  import_row engine user row count =
    (cat_type <-
       (if Py.str_eqb (spec.field row 1) INCOME_LABEL then ret INCOME
        else if Py.str_eqb (spec.field row 1) EXPENSE_LABEL then ret EXPENSE
        else raise (spec.UnrecognizedTypeError (spec.field row 1))) ;;
     ' (category, created) <-
       writes.Category_get_or_create (spec.field row 2) cat_type user ;;
     amount <- lift (decimal.Decimal (spec.field row 3)) ;;
     date <- lift (datetime.fromisoformat (spec.field row 0)) ;;
     _ <- writes.Transaction_create engine user category amount
            (spec.stored_description row) date ;;
     ret (count + 1)).
Proof.
  intros H. rewrite <- import_row_tests in H. unfold import_row, spec.stored_description.
  fold (spec.field row 0) (spec.field row 1) (spec.field row 2) (spec.field row 3)
       (spec.field row 4).
  apply orb_false_iff in H. destruct H as [H H3].
  apply orb_false_iff in H. destruct H as [H1 H2].
  rewrite H1, H2, H3. reflexivity.
Qed.

Lemma import_rows_app engine user before after count db :
  import_rows engine user (before ++ after) count db =
  match import_rows engine user before count db with
  | (Ok count', db') => import_rows engine user after count' db'
  | (Raise e, db') => (Raise e, db')
  end.
Proof.
  revert count db. induction before as [| row before IH]; intros count db; [reflexivity|].
  cbn [app import_rows]. unfold bind.
  destruct (import_row engine user row count db) as [[count' | e] db']; [apply IH | reflexivity].
Qed.

(** C8. A data row that is fully blank, has fewer than four fields, or
    whose date, type, category name or amount is empty after trimming, is
    passed over: the loop body returns the count and the store unchanged and
    raises nothing, so the import of a file gives the result and the store it
    gives without that row. A row of three fields is such a row. *)
Theorem skipped_rows_are_ignored engine user row :
  spec.skipped row ->
  (forall count db, import_row engine user row count db = (Ok count, db))
  /\ (forall header before after db,
        import_transactions_from_csv engine (header :: before ++ row :: after) user db
        = import_transactions_from_csv engine (header :: before ++ after) user db).
Proof.
  intros Hs. apply skippedb_spec in Hs.
  assert (Hrow : forall count db, import_row engine user row count db = (Ok count, db))
    by (intros; now apply import_row_skipped).
  split; [exact Hrow|].
  intros header before after db. unfold import_transactions_from_csv.
  rewrite !import_rows_app.
  destruct (import_rows engine user before 0 db) as [[count' | e] db']; [|reflexivity].
  cbn [import_rows]. unfold bind. now rewrite Hrow.
Qed.

(** A row of three fields after the header. *)
Lemma skipped_rows_are_ignored_witness :
  spec.skipped tests.row_of_three
  /\ import_row tests.engine tests.user tests.row_of_three 0 tests.db = (Ok 0, tests.db)
  /\ import_transactions_from_csv tests.engine [HEADER; tests.row_of_three] tests.user
       tests.db
     = import_transactions_from_csv tests.engine [HEADER] tests.user tests.db.
Proof.
  assert (H : spec.skipped tests.row_of_three) by (right; left; cbn; lia).
  split; [exact H|].
  destruct (skipped_rows_are_ignored tests.engine tests.user tests.row_of_three H)
    as [H1 H2].
  split; [apply H1 | apply (H2 HEADER [] [])].
Defined.

(** What the conversions, the preparation of the amount and the category
    lookup raise. *)
Lemma Decimal_raises s e : decimal.Decimal s = Raise e -> e = InvalidOperation.
Proof.
  unfold decimal.Decimal. destruct (decimal.numeric_as_ascii s) as [a|];
    [|now intros [= <-]].
  destruct (decimal.of_ascii a); [discriminate | now intros [= <-]].
Qed.

Lemma new_date_raises y m d e : datetime.new_date y m d = Raise e -> e = ValueError.
Proof. unfold datetime.new_date. destruct (datetime.valid_dateb y m d); [discriminate | now intros [= <-]]. Qed.

Lemma fromisoformat_raises s e : datetime.fromisoformat s = Raise e -> e = ValueError.
Proof.
  unfold datetime.fromisoformat.
  destruct (Py.encode_utf8 s) as [b|]; [|now intros [= <-]].
  destruct (_ || _)%nat; [|now intros [= <-]].
  destruct (datetime.parse_isoformat_date b) as [[[y m] d]|]; [|now intros [= <-]].
  apply new_date_raises.
Qed.

Lemma save_raises engine v e :
  column.save engine v = Raise e ->
  e = DecimalValidationError \/ e = InvalidOperation \/ e = DataError.
Proof.
  unfold column.save. destruct (decimal.is_finite v); [|intros [= <-]; tauto].
  assert (H : column.answered (engine v) = Raise e ->
              e = DecimalValidationError \/ e = InvalidOperation \/ e = DataError).
  { destruct (engine v); cbn; [discriminate | |]; intros [= <-]; tauto. }
  destruct (decimal.hundredths v) as [a|]; [|exact H].
  destruct (column.holds a); [discriminate | exact H].
Qed.

Lemma conversions_raises engine row e :
  spec.conversions engine row = Raise e ->
  e = InvalidOperation \/ e = ValueError \/ e = DecimalValidationError \/ e = DataError.
Proof.
  unfold spec.conversions.
  destruct (decimal.Decimal (spec.field row 3)) as [v | e1] eqn:Ev.
  - destruct (datetime.fromisoformat (spec.field row 0)) as [d | e2] eqn:Ed.
    + destruct (column.save engine v) as [a | e3] eqn:Es; [discriminate|].
      intros [= <-]. apply save_raises in Es. tauto.
    + intros [= <-]. apply fromisoformat_raises in Ed. tauto.
  - intros [= <-]. apply Decimal_raises in Ev. tauto.
Qed.

Lemma get_or_create_raises name ty user db e db' :
  writes.Category_get_or_create name ty user db = (Raise e, db') ->
  e = MultipleObjectsReturned /\ db' = db.
Proof.
  unfold writes.Category_get_or_create.
  destruct (filter _ (Category_objects db)) as [| c [| c' l]]; try discriminate.
  now intros [= <- <-].
Qed.

(** The loop body with a recognised type label: category resolution, then
    the conversions, then the insertion. *)
Lemma import_row_typed engine user row count ty db :
  spec.skippedb row = false -> spec.label_type (spec.field row 1) = Some ty ->
  import_row engine user row count db =
    match writes.Category_get_or_create (spec.field row 2) ty user db with
    | (Raise e, db1) => (Raise e, db1)
    | (Ok (c, _), db1) =>
        match spec.conversions engine row with
        | Raise e => (Raise e, db1)
        | Ok (a, d) =>
            (Ok (count + 1),
             snd (writes.Transaction_insert user c a (spec.stored_description row) d db1))
        end
    end.
Proof.
  intros Hs Hty. rewrite import_row_kept by exact Hs. unfold spec.label_type in Hty.
  assert (E : (if Py.str_eqb (spec.field row 1) INCOME_LABEL then ret INCOME
               else if Py.str_eqb (spec.field row 1) EXPENSE_LABEL then ret EXPENSE
               else raise (spec.UnrecognizedTypeError (spec.field row 1)))
              = ret ty).
  { destruct (Py.str_eqb (spec.field row 1) INCOME_LABEL); [now injection Hty as <-|].
    destruct (Py.str_eqb (spec.field row 1) EXPENSE_LABEL); [now injection Hty as <-|].
    discriminate. }
  rewrite E. unfold bind, lift, ret, spec.conversions, writes.Transaction_create.
  destruct (writes.Category_get_or_create _ ty user db) as [[[c created] | e1] db1];
    [|reflexivity].
  destruct (decimal.Decimal (spec.field row 3)) as [v | e2]; [|reflexivity].
  destruct (datetime.fromisoformat (spec.field row 0)) as [d | e3]; [|reflexivity].
  destruct (column.save engine v) as [a | e4]; reflexivity.
Qed.

(** The loop body with any other type string. *)
Lemma import_row_untyped engine user row count db :
  spec.skippedb row = false -> spec.label_type (spec.field row 1) = None ->
  import_row engine user row count db
  = (Raise (spec.UnrecognizedTypeError (spec.field row 1)), db).
Proof.
  intros Hs Hty. rewrite import_row_kept by exact Hs. unfold spec.label_type in Hty.
  destruct (Py.str_eqb (spec.field row 1) INCOME_LABEL); [discriminate|].
  destruct (Py.str_eqb (spec.field row 1) EXPENSE_LABEL); [discriminate|].
  reflexivity.
Qed.

(** With a recognised label the loop body raises no error of the services. *)
Lemma import_row_typed_raises engine user row count db ty e db' :
  spec.skippedb row = false -> spec.label_type (spec.field row 1) = Some ty ->
  import_row engine user row count db = (Raise e, db') ->
  e = MultipleObjectsReturned \/ e = InvalidOperation \/ e = ValueError
  \/ e = DecimalValidationError \/ e = DataError.
Proof.
  intros Hs Hty. rewrite (import_row_typed engine user row count ty db Hs Hty).
  destruct (writes.Category_get_or_create _ ty user db) as [[[c created] | e1] db1] eqn:Eg.
  - destruct (spec.conversions engine row) as [[a d] | e2] eqn:Ec; [discriminate|].
    intros [= <- <-]. apply conversions_raises in Ec. tauto.
  - intros [= <- <-]. left. now apply get_or_create_raises in Eg.
Qed.

(** C9. A data row that is not skipped and whose trimmed type column is
    neither label makes the loop body raise [UnrecognizedTypeError] with
    that type string, leaving the store as it is; when the rows before it
    were processed without error, the whole import raises this error. For a
    row that is not skipped and whose type column is one of the two labels,
    the loop body raises no [UnrecognizedTypeError]. *)
Theorem unrecognized_type_error engine user row :
  ~ spec.skipped row ->
  (spec.label_type (spec.field row 1) = None ->
     (forall count db,
         import_row engine user row count db
         = (Raise (spec.UnrecognizedTypeError (spec.field row 1)), db))
     /\ (forall header before after db count' db',
           import_rows engine user before 0 db = (Ok count', db') ->
           import_transactions_from_csv engine (header :: before ++ row :: after) user db
           = (Raise (spec.UnrecognizedTypeError (spec.field row 1)), db')))
  /\ (spec.label_type (spec.field row 1) <> None ->
      forall count db type_str,
        fst (import_row engine user row count db)
        <> Raise (spec.UnrecognizedTypeError type_str)).
Proof.
  intros Hs. apply not_skipped in Hs. split.
  - intros Hty.
    assert (Hrow : forall count db,
               import_row engine user row count db
               = (Raise (spec.UnrecognizedTypeError (spec.field row 1)), db))
      by (intros; now apply import_row_untyped).
    split; [exact Hrow|].
    intros header before after db count' db' Hbefore.
    unfold import_transactions_from_csv. rewrite import_rows_app, Hbefore.
    cbn [import_rows]. unfold bind. now rewrite Hrow.
  - intros Hty count db type_str.
    destruct (spec.label_type (spec.field row 1)) as [ty|] eqn:E; [|contradiction].
    destruct (import_row engine user row count db) as [[c | e] db'] eqn:Er; [discriminate|].
    cbn [fst]. apply (import_row_typed_raises engine user row count db ty e db' Hs E) in Er.
    unfold spec.UnrecognizedTypeError. destruct Er as [-> | [-> | [-> | [-> | ->]]]];
      discriminate.
Qed.

(** A row whose type column reads "Перевод". *)
Lemma unrecognized_type_error_witness :
  ~ spec.skipped tests.row_of_unknown_type
  /\ import_transactions_from_csv tests.engine [HEADER; tests.row_of_unknown_type]
       tests.user tests.db
     = (Raise (spec.UnrecognizedTypeError tests.TRANSFER), tests.db).
Proof.
  assert (H : ~ spec.skipped tests.row_of_unknown_type)
    by (apply not_skipped; reflexivity).
  split; [exact H|].
  destruct (unrecognized_type_error tests.engine tests.user tests.row_of_unknown_type H)
    as [H1 _].
  destruct (H1 eq_refl) as [_ H2].
  exact (H2 HEADER [] [] tests.db 0 tests.db eq_refl).
Defined.

(** The loop raises an error of its own, never the error of the empty file. *)
Lemma import_row_raise_cases engine user row count db e db' :
  import_row engine user row count db = (Raise e, db') ->
  e = spec.UnrecognizedTypeError (spec.field row 1)
  \/ e = MultipleObjectsReturned \/ e = InvalidOperation \/ e = ValueError
  \/ e = DecimalValidationError \/ e = DataError.
Proof.
  intros H. destruct (spec.skippedb row) eqn:Hs.
  - rewrite import_row_skipped in H by exact Hs. discriminate.
  - destruct (spec.label_type (spec.field row 1)) as [ty|] eqn:Hty.
    + right. exact (import_row_typed_raises engine user row count db ty e db' Hs Hty H).
    + rewrite import_row_untyped in H by assumption. injection H as <- _. now left.
Qed.

Lemma import_rows_not_empty_error engine user rows count db :
  fst (import_rows engine user rows count db) <> Raise spec.EmptyInputError.
Proof.
  revert count db. induction rows as [| row rows IH]; intros count db; [discriminate|].
  cbn [import_rows]. unfold bind.
  destruct (import_row engine user row count db) as [[c | e] db'] eqn:Er; [apply IH|].
  cbn [fst]. apply import_row_raise_cases in Er.
  unfold spec.EmptyInputError, spec.UnrecognizedTypeError.
  destruct Er as [-> | [-> | [-> | [-> | [-> | ->]]]]]; discriminate.
Qed.

(** C3. The import raises [EmptyInputError] exactly when the file has no
    rows, and then leaves the store untouched; of a file with rows, the
    first row is dropped unread: the import is the loop over the rows after
    it, whatever the first row holds. *)
Theorem empty_input_error engine file user db :
  (fst (import_transactions_from_csv engine file user db) = Raise spec.EmptyInputError
   <-> file = [])
  /\ import_transactions_from_csv engine [] user db = (Raise spec.EmptyInputError, db)
  /\ (forall header rows,
        import_transactions_from_csv engine (header :: rows) user db
        = import_rows engine user rows 0 db)
  /\ (forall header header' rows,
        import_transactions_from_csv engine (header :: rows) user db
        = import_transactions_from_csv engine (header' :: rows) user db).
Proof.
  split; [|repeat split].
  destruct file as [| header rows]; cbn [import_transactions_from_csv].
  - split; reflexivity.
  - split; [|discriminate]. intros H. exfalso.
    exact (import_rows_not_empty_error engine user rows 0 db H).
Qed.

Lemma CategoryType_eqb_eq a b : CategoryType_eqb a b = true <-> a = b.
Proof. destruct a, b; cbn; split; congruence. Qed.

Lemma categories_matching_spec db name ty user c :
  In c (spec.categories_matching db name ty user)
  <-> In c (Category_objects db)
      /\ Category.name c = name /\ Category.type c = ty /\ Category.user c = user.
Proof.
  unfold spec.categories_matching.
  rewrite filter_In, !andb_true_iff, str_eqb_eq, CategoryType_eqb_eq, Z.eqb_eq. tauto.
Qed.

(** Category resolution: the one matching row, or a new row at the end of
    the table. *)
Lemma get_or_create_ok name ty user db :
  (List.length (spec.categories_matching db name ty user) <= 1)%nat ->
  exists (c : Category.t) (created : bool),
    writes.Category_get_or_create name ty user db
    = (Ok (c, created),
       mkDB (if created then Category_objects db ++ [c] else Category_objects db)
            (Transaction_objects db) (Budget_objects db))
    /\ Category.name c = name /\ Category.type c = ty /\ Category.user c = user
    /\ (if created
        then spec.categories_matching db name ty user = []
             /\ Category.id c = orm.next_pk (map Category.id (Category_objects db))
        else spec.categories_matching db name ty user = [c]).
Proof.
  intros Hu. unfold writes.Category_get_or_create.
  fold (spec.categories_matching db name ty user).
  destruct (spec.categories_matching db name ty user) as [| c [| c' l]] eqn:E.
  - eexists. exists true. split; [reflexivity|]. cbn. repeat split.
  - assert (Hc : In c (spec.categories_matching db name ty user))
      by (rewrite E; now left).
    apply categories_matching_spec in Hc. destruct Hc as (_ & Hn & Ht & Hus).
    exists c, false. destruct db. repeat split; assumption.
  - cbn in Hu. lia.
Qed.

(** An amount of the column is held as it is, whatever the engine. *)
Lemma save_held engine v a :
  decimal.hundredths v = Some a -> column.holds a = true ->
  column.save engine v = Ok a.
Proof.
  intros Hh Hf. unfold column.save. rewrite Hh, Hf.
  destruct v; [reflexivity | discriminate | discriminate].
Qed.

(** C10 (amended). The importer checks no sign: for a row that is not
    skipped, whose type column is a label and whose date converts, and a
    store that keeps categories unique, an amount that converts to a finite
    decimal which is an amount of the column (a whole number of hundredths
    of at most twelve digits), be it zero or negative, is stored as it is in
    one new transaction of the user under the category of the row's name and
    type, and the count grows by one, whatever the database engine;
    [TransactionForm.clean_amount] refuses the same amount when it is not
    positive. *)
Theorem import_stores_any_amount engine user row count db ty v a d :
  ~ spec.skipped row ->
  spec.label_type (spec.field row 1) = Some ty ->
  datetime.fromisoformat (spec.field row 0) = Ok d ->
  decimal.Decimal (spec.field row 3) = Ok v ->
  decimal.hundredths v = Some a ->
  column.holds a = true ->
  spec.category_unique_together db ->
  (exists c t db',
      import_row engine user row count db = (Ok (count + 1), db')
      /\ Transaction_objects db' = Transaction_objects db ++ [t]
      /\ Transaction.amount t = a
      /\ Transaction.user t = user
      /\ Transaction.date t = d
      /\ Transaction.category t = Category.id c
      /\ In c (Category_objects db')
      /\ Category.name c = spec.field row 2
      /\ Category.type c = ty
      /\ Category.user c = user)
  /\ (a <= 0 ->
      forms.TransactionForm_clean_amount a
      = Raise (ValidationError forms.POSITIVE_AMOUNT_MESSAGE)).
Proof.
  intros Hs Hty Hd Hv Ha Hf Hu. apply not_skipped in Hs. split.
  - destruct (get_or_create_ok (spec.field row 2) ty user db (Hu _ _ _))
      as (c & created & Hg & Hn & Ht & Hus & Hcase).
    rewrite (import_row_typed engine user row count ty db Hs Hty), Hg.
    unfold spec.conversions. rewrite Hv, Hd, (save_held engine v a Ha Hf).
    unfold writes.Transaction_insert. cbn [snd Transaction_objects Category_objects].
    exists c. eexists. eexists. split; [reflexivity|].
    cbn [Transaction_objects Category_objects Transaction.amount Transaction.user
         Transaction.date Transaction.category].
    repeat split; try assumption.
    destruct created.
    + apply in_or_app. right. now left.
    + assert (Hin : In c (spec.categories_matching db (spec.field row 2) ty user))
        by (rewrite Hcase; now left).
      now apply categories_matching_spec in Hin.
  - intros Hle. unfold forms.TransactionForm_clean_amount.
    destruct (Z.leb_spec a 0); [reflexivity | lia].
Qed.

(** A row with the amount -5.00, imported into an empty store. *)
Lemma import_stores_any_amount_witness :
  ~ spec.skipped tests.row_of_negative_amount
  /\ decimal.Decimal (spec.field tests.row_of_negative_amount 3)
     = Ok (decimal.Finite true 500 (-2))
  /\ exists c t db',
      import_row tests.engine tests.user tests.row_of_negative_amount 0 (mkDB [] [] [])
      = (Ok 1, db')
      /\ Transaction_objects db' = [t]
      /\ Transaction.amount t = -500
      /\ Transaction.category t = Category.id c
      /\ Category.name c = tests.FOOD.
Proof.
  assert (H : ~ spec.skipped tests.row_of_negative_amount)
    by (apply not_skipped; reflexivity).
  split; [exact H|]. split; [reflexivity|].
  assert (Hu : spec.category_unique_together (mkDB [] [] []))
    by (intros name ty user; cbn; lia).
  destruct (import_stores_any_amount tests.engine tests.user tests.row_of_negative_amount 0
              (mkDB [] [] []) EXPENSE (decimal.Finite true 500 (-2)) (-500)
              (datetime.mkdate 2025 10 1)
              H eq_refl eq_refl eq_refl eq_refl eq_refl Hu)
    as [(c & t & db' & Hr & Ht & Ha & _ & _ & Hc & _ & Hn & _) _].
  exists c, t, db'. repeat split; assumption.
Defined.

(** C10, as stated, fails for rows that are not skipped and whose amount
    converts to a decimal: when the date does not convert, the conversion of
    the date raises; when the amount converts to [NaN], Django refuses the
    value. No transaction is inserted and nothing is counted. *)
Lemma import_parsed_amount_not_stored :
  (~ spec.skipped tests.row_of_bad_date
   /\ decimal.Decimal (spec.field tests.row_of_bad_date 3)
      = Ok (decimal.Finite true 500 (-2))
   /\ import_transactions_from_csv tests.engine [HEADER; tests.row_of_bad_date]
        tests.user tests.db
      = (Raise ValueError, tests.db))
  /\ (~ spec.skipped tests.row_of_nan_amount
      /\ decimal.Decimal (spec.field tests.row_of_nan_amount 3)
         = Ok (decimal.NaN false false 0)
      /\ forall engine,
           import_transactions_from_csv engine [HEADER; tests.row_of_nan_amount]
             tests.user tests.db
           = (Raise DecimalValidationError, tests.db)).
Proof.
  split; (split; [apply not_skipped; reflexivity|]); split; reflexivity.
Qed.

End Importer.

(** ** Budgets *)

Section Budgets.
Import datetime.

Lemma date_eqb_eq a b : date_eqb a b = true <-> a = b.
Proof.
  destruct a, b. unfold date_eqb. cbn [year month day].
  rewrite !andb_true_iff, !Z.eqb_eq. split.
  - intros [[-> ->] ->]. reflexivity.
  - intros [= -> -> ->]. repeat split.
Qed.

Lemma date_eqb_refl a : date_eqb a a = true.
Proof. now apply date_eqb_eq. Qed.

Lemma NoDup_map_inj {A B} (f : A -> B) l x y :
  NoDup (map f l) -> In x l -> In y l -> f x = f y -> x = y.
Proof.
  induction l as [| a l IH]; cbn [map]; intros Hnd Hx Hy E; [destruct Hx|].
  inversion Hnd as [| ? ? Hnotin Hnd']; subst.
  destruct Hx as [-> | Hx], Hy as [-> | Hy]; trivial.
  - exfalso. apply Hnotin. rewrite E. now apply in_map.
  - exfalso. apply Hnotin. rewrite <- E. now apply in_map.
  - now apply IH.
Qed.

Lemma next_pk_fresh pks : ~ In (orm.next_pk pks) pks.
Proof.
  assert (H : forall x, In x pks -> x <= fold_right Z.max 0 pks).
  { induction pks as [| p pks IH]; cbn [fold_right]; intros x []; subst; [lia|].
    specialize (IH x H). lia. }
  intros Hin. apply H in Hin. unfold orm.next_pk in Hin. lia.
Qed.

(** What an accepted budget form holds. *)
Lemma BudgetForm_clean_spec db user data c a mo :
  forms.BudgetForm_clean db user data = Some (c, a, mo) ->
  In c (Category_objects db)
  /\ Category.id c = forms.category data
  /\ Category.user c = user /\ Category.type c = EXPENSE
  /\ a = forms.amount data
  /\ mo = mkdate (year (forms.month data)) (month (forms.month data)) 1.
Proof.
  unfold forms.BudgetForm_clean.
  destruct (find _ (forms.BudgetForm_category_queryset db user)) as [c'|] eqn:Ef;
    [|discriminate].
  destruct (forms.amount_fits (forms.amount data)); [|discriminate].
  destruct (forms.BudgetForm_clean_month (forms.month data)) as [m'|] eqn:Em;
    [|discriminate].
  intros [= -> <- ->]. apply find_some in Ef. destruct Ef as [Hin Hid].
  unfold forms.BudgetForm_category_queryset in Hin. apply filter_In in Hin.
  destruct Hin as [Hin Hq]. apply andb_true_iff in Hq. destruct Hq as [Hu Ht].
  apply Z.eqb_eq in Hid, Hu. apply CategoryType_eqb_eq in Ht.
  unfold forms.BudgetForm_clean_month, replace, new_date in Em.
  destruct (valid_dateb _ _ 1); [|discriminate]. injection Em as <-.
  repeat split; assumption.
Qed.

Lemma BudgetForm_clean_categories db db' user data :
  Category_objects db' = Category_objects db ->
  forms.BudgetForm_clean db' user data = forms.BudgetForm_clean db user data.
Proof.
  intros E. unfold forms.BudgetForm_clean, forms.BudgetForm_category_queryset.
  now rewrite E.
Qed.

Lemma filter_map_commute {A} (p : A -> bool) (f : A -> A) l :
  (forall x, In x l -> p (f x) = p x) ->
  filter p (map f l) = map f (filter p l).
Proof.
  induction l as [| x l IH]; intros H; [reflexivity|].
  cbn [map filter]. rewrite (H x (or_introl eq_refl)).
  rewrite IH by (intros y Hy; apply H; now right).
  now destruct (p x).
Qed.

(** One accepted submission: afterwards the key has exactly one row, with
    the submitted amount and the normalised month, and the constraints of the
    table still hold. *)
Lemma budget_list_POST_accepted db user data c a mo :
  spec.budget_unique_together db -> spec.budget_pk_unique db ->
  forms.BudgetForm_clean db user data = Some (c, a, mo) ->
  let db' := views.budget_list_POST user data db in
  (exists b,
      spec.budget_key_rows db' user (Category.id c) mo = [b]
      /\ Budget.amount b = a /\ Budget.month b = mo)
  /\ spec.budget_unique_together db' /\ spec.budget_pk_unique db'
  /\ Category_objects db' = Category_objects db
  /\ (List.length (Budget_objects db')
      = List.length (Budget_objects db)
        + (1 - List.length (spec.budget_key_rows db user (Category.id c) mo)))%nat.
Proof.
  intros Hu Hpk Hclean. cbv zeta. unfold views.budget_list_POST. rewrite Hclean.
  fold (spec.budget_key_rows db user (Category.id c) mo).
  pose proof (Hu user (Category.id c) mo) as Hlen.
  destruct (spec.budget_key_rows db user (Category.id c) mo) as [| e rest] eqn:Ek;
    cbn [hd_error].
  - (* no row yet: insert *)
    unfold writes.Budget_insert.
    set (b := Budget.mk _ user (Category.id c) a mo).
    assert (Hkey : forall u k m,
               spec.budget_key_rows
                 (mkDB (Category_objects db) (Transaction_objects db)
                       (Budget_objects db ++ [b])) u k m
               = spec.budget_key_rows db u k m
                 ++ (if (user =? u) && (Category.id c =? k) && date_eqb mo m
                     then [b] else [])).
    { intros u k m. unfold spec.budget_key_rows. cbn [Budget_objects].
      rewrite filter_app. cbn [filter]. subst b.
      cbn [Budget.user Budget.category Budget.month]. now destruct (_ && _). }
    split; [|split; [|split; [|split]]].
    + exists b. rewrite Hkey, Ek, !Z.eqb_refl, date_eqb_refl. repeat split.
    + intros u k m. rewrite Hkey.
      destruct ((user =? u) && (Category.id c =? k) && date_eqb mo m) eqn:E.
      * apply andb_true_iff in E. destruct E as [E E3].
        apply andb_true_iff in E. destruct E as [E1 E2].
        apply Z.eqb_eq in E1, E2. apply date_eqb_eq in E3. subst u k m.
        rewrite Ek. cbn. lia.
      * rewrite app_nil_r. apply Hu.
    + unfold spec.budget_pk_unique. cbn [Budget_objects]. rewrite map_app. cbn [map].
      apply NoDup_app_remove_l with (l := []). cbn [app].
      apply Permutation_NoDup with (l := Budget.id b :: map Budget.id (Budget_objects db)).
      * apply Permutation_cons_append.
      * constructor; [apply next_pk_fresh | exact Hpk].
    + reflexivity.
    + cbn [Budget_objects]. rewrite length_app. cbn. lia.
  - (* a row exists: update its amount *)
    assert (rest = []) by (destruct rest; [reflexivity | cbn in Hlen; lia]). subst rest.
    assert (He : In e (spec.budget_key_rows db user (Category.id c) mo))
      by (rewrite Ek; now left).
    unfold spec.budget_key_rows in He. apply filter_In in He. destruct He as [Hein Hematch].
    apply andb_true_iff in Hematch. destruct Hematch as [Hematch He3].
    apply andb_true_iff in Hematch. destruct Hematch as [He1 He2].
    apply Z.eqb_eq in He1, He2. apply date_eqb_eq in He3.
    unfold writes.Budget_update. cbn [Budget.id].
    set (e' := Budget.mk (Budget.id e) (Budget.user e) (Budget.category e) a (Budget.month e)).
    set (f := fun b : Budget.t => if Budget.id b =? Budget.id e then e' else b).
    assert (Hf : forall b, In b (Budget_objects db) ->
                 Budget.id (f b) = Budget.id b /\ Budget.user (f b) = Budget.user b
                 /\ Budget.category (f b) = Budget.category b
                 /\ Budget.month (f b) = Budget.month b).
    { intros b Hb. unfold f. destruct (Z.eqb_spec (Budget.id b) (Budget.id e)) as [E | E].
      - assert (b = e) by (apply (NoDup_map_inj Budget.id (Budget_objects db)); assumption).
        subst b. repeat split.
      - repeat split. }
    assert (Hkey : forall u k m,
               spec.budget_key_rows
                 (mkDB (Category_objects db) (Transaction_objects db)
                       (map f (Budget_objects db))) u k m
               = map f (spec.budget_key_rows db u k m)).
    { intros u k m. unfold spec.budget_key_rows. cbn [Budget_objects].
      apply filter_map_commute. intros b Hb.
      destruct (Hf b Hb) as (_ & -> & -> & ->). reflexivity. }
    split; [|split; [|split; [|split]]].
    + exists e'. rewrite Hkey, Ek. cbn [map]. unfold f. rewrite Z.eqb_refl.
      repeat split. exact He3.
    + intros u k m. rewrite Hkey, length_map. apply Hu.
    + unfold spec.budget_pk_unique. cbn [Budget_objects]. rewrite map_map.
      rewrite (map_ext_in _ Budget.id); [exact Hpk|].
      intros b Hb. now destruct (Hf b Hb) as (-> & _).
    + reflexivity.
    + cbn [Budget_objects]. rewrite length_map. cbn. lia.
Qed.

(** C4. On a budget table that satisfies its uniqueness constraints, two
    accepted submissions of the budget form by one user for the same
    category and the same calendar month, whatever their days and amounts,
    leave exactly one budget row for the key [(user, category, month)],
    holding the amount of the second submission (after the first alone, the
    one row holds the amount of the first). The month stored by either write
    is the submitted date with its day set to 1, and the second submission
    adds no row to the table. *)
Theorem budget_upsert_idempotent db user data1 data2 c a1 a2 mo :
  spec.budget_unique_together db -> spec.budget_pk_unique db ->
  forms.BudgetForm_clean db user data1 = Some (c, a1, mo) ->
  forms.BudgetForm_clean db user data2 = Some (c, a2, mo) ->
  let db1 := views.budget_list_POST user data1 db in
  let db2 := views.budget_list_POST user data2 db1 in
  exists b1 b2,
    spec.budget_key_rows db1 user (Category.id c) mo = [b1]
    /\ Budget.amount b1 = forms.amount data1
    /\ spec.budget_key_rows db2 user (Category.id c) mo = [b2]
    /\ Budget.amount b2 = forms.amount data2
    /\ Budget.month b1 = mo /\ Budget.month b2 = mo
    /\ mo = mkdate (year (forms.month data1)) (month (forms.month data1)) 1
    /\ mo = mkdate (year (forms.month data2)) (month (forms.month data2)) 1
    /\ List.length (Budget_objects db2) = List.length (Budget_objects db1).
Proof.
  intros Hu Hpk H1 H2. cbv zeta.
  destruct (budget_list_POST_accepted db user data1 c a1 mo Hu Hpk H1)
    as ((b1 & Hk1 & Ha1 & Hm1) & Hu1 & Hpk1 & Hcat1 & _).
  rewrite <- (BudgetForm_clean_categories db _ user data2 Hcat1) in H2.
  destruct (budget_list_POST_accepted _ user data2 c a2 mo Hu1 Hpk1 H2)
    as ((b2 & Hk2 & Ha2 & Hm2) & _ & _ & _ & Hlen).
  rewrite Hk1 in Hlen. cbn [List.length] in Hlen.
  rewrite (BudgetForm_clean_categories db _ user data2 Hcat1) in H2.
  apply BudgetForm_clean_spec in H1. destruct H1 as (_ & _ & _ & _ & -> & Hmo1).
  apply BudgetForm_clean_spec in H2. destruct H2 as (_ & _ & _ & _ & -> & Hmo2).
  exists b1, b2. repeat split; trivial. lia.
Qed.

(** Two submissions for food in October 2025, on the 15th and on the 28th. *)
Lemma budget_upsert_idempotent_witness :
  forms.BudgetForm_clean_month (mkdate 2025 10 15) = Ok (mkdate 2025 10 1)
  /\ exists b,
      spec.budget_key_rows
        (views.budget_list_POST tests.user tests.second_submission
           (views.budget_list_POST tests.user tests.first_submission tests.db))
        tests.user 1 (mkdate 2025 10 1) = [b]
      /\ Budget.amount b = 450000
      /\ Budget.month b = mkdate 2025 10 1.
Proof.
  split; [reflexivity|].
  assert (Hu : spec.budget_unique_together tests.db) by (intros u k m; cbn; lia).
  assert (Hpk : spec.budget_pk_unique tests.db) by constructor.
  destruct (budget_upsert_idempotent tests.db tests.user tests.first_submission
              tests.second_submission tests.expense_cat 300000 450000 (mkdate 2025 10 1)
              Hu Hpk eq_refl eq_refl)
    as (b1 & b2 & _ & _ & Hk & Ha & _ & Hm & _).
  exists b2. repeat split; assumption.
Defined.

End Budgets.

(** ** Export followed by import *)

Section RoundTrip.
Import datetime services.
Local Open Scope store_scope.


(** *** Trimming *)

Lemma lstrip_nonspace s : Forall spec.nonspace s -> Py.lstrip s = s.
Proof. intros H. destruct H as [| c s Hc _]; [reflexivity|]. cbn. now rewrite Hc. Qed.

Lemma strip_nonspace s : Forall spec.nonspace s -> Py.strip s = s.
Proof.
  intros H. unfold Py.strip, Py.rstrip. rewrite (lstrip_nonspace s H).
  rewrite lstrip_nonspace by now apply Forall_rev. apply rev_involutive.
Qed.

Lemma numeric_nonspace c : spec.numeric c -> spec.nonspace c.
Proof.
  unfold spec.numeric, spec.nonspace, Py.isspace. intros H.
  replace (c <=? 13) with false by (symmetry; apply Z.leb_gt; lia).
  replace (c <=? 32) with false by (symmetry; apply Z.leb_gt; lia).
  replace (8192 <=? c) with false by (symmetry; apply Z.leb_gt; lia).
  repeat match goal with
         | |- context [c =? ?b] =>
             replace (c =? b) with false by (symmetry; apply Z.eqb_neq; lia)
         end.
  now rewrite !andb_false_r.
Qed.

Lemma digit_numeric q : 0 <= q <= 9 -> spec.numeric (digit q).
Proof. unfold spec.numeric, digit. lia. Qed.

Ltac digits_numeric :=
  repeat (apply Forall_cons;
          [apply digit_numeric; Z.to_euclidean_division_equations; lia|]);
  apply Forall_nil.

Lemma zfill2_numeric n : 0 <= n <= 99 -> Forall spec.numeric (zfill2 n).
Proof. intros H. unfold zfill2. digits_numeric. Qed.

Lemma str_of_uint_digits d : Forall (fun c => 48 <= c <= 57) (Py.str_of_uint d).
Proof. induction d; cbn [Py.str_of_uint]; constructor; trivial; lia. Qed.

Lemma str_of_uint_numeric d : Forall spec.numeric (Py.str_of_uint d).
Proof. eapply Forall_impl; [| apply str_of_uint_digits]. intros c Hc. now left. Qed.

Lemma valid_fields d :
  valid d ->
  1 <= year d <= 9999 /\ 1 <= month d <= 12 /\ 1 <= day d <= _days_in_month (year d) (month d).
Proof.
  unfold valid, valid_dateb, MINYEAR, MAXYEAR.
  rewrite !andb_true_iff, !Z.leb_le. tauto.
Qed.

Lemma Forall_app_intro {A} (P : A -> Prop) l l' :
  Forall P l -> Forall P l' -> Forall P (l ++ l').
Proof. intros H H'. apply Forall_app. now split. Qed.

Lemma strftime_numeric d : valid d -> Forall spec.numeric (strftime_Ymd d).
Proof.
  intros Hv. apply valid_fields in Hv. destruct Hv as (Hy & Hm & Hd).
  pose proof (days_in_month_bounds (year d) (month d) Hm).
  unfold strftime_Ymd.
  apply Forall_app_intro; [apply str_of_uint_numeric|].
  apply Forall_app_intro; [constructor; [right; now left | constructor]|].
  apply Forall_app_intro; [apply zfill2_numeric; lia|].
  apply Forall_app_intro; [constructor; [right; now left | constructor]|].
  apply zfill2_numeric. lia.
Qed.

Lemma to_str_numeric a : Forall spec.numeric (decimal.to_str a).
Proof.
  unfold decimal.to_str.
  apply Forall_app_intro.
  { destruct (a <? 0); [constructor; [right; now left | constructor] | constructor]. }
  apply Forall_app_intro; [apply str_of_uint_numeric|].
  apply Forall_app_intro; [constructor; [right; now right | constructor]|].
  apply zfill2_numeric. pose proof (Z.mod_pos_bound (Z.abs a) 100). lia.
Qed.

Lemma numeric_trimmed s : Forall spec.numeric s -> spec.trimmed s.
Proof.
  intros H. apply strip_nonspace. eapply Forall_impl; [| exact H].
  apply numeric_nonspace.
Qed.

(** *** The date survives printing and parsing when its year has four digits *)

Lemma digit_val_digit q : 0 <= q <= 9 -> digit_val (digit q) = Some q.
Proof.
  intros H. unfold digit_val, digit.
  destruct (Z.leb_spec 48 (48 + q)); [|lia].
  destruct (Z.leb_spec (48 + q) 57); [|lia].
  cbn [andb]. f_equal. lia.
Qed.

Lemma utf8_digit q : 0 <= q <= 9 -> Py.utf8_of_char (digit q) = Some [digit q].
Proof.
  intros H. unfold Py.utf8_of_char, digit.
  destruct (Z.ltb_spec (48 + q) 128); [reflexivity | lia].
Qed.

Lemma digit_not_W q : 0 <= q <= 9 -> (digit q =? LETTER_W) = false.
Proof. intros H. apply Z.eqb_neq. unfold digit, LETTER_W. lia. Qed.

(** Every year of four digits is printed as its four digits. *)
Lemma years_printed :
  forallb (fun y => Py.str_eqb (Py.str_of_uint (N.to_uint (Z.to_N y))) (spec.four_digits y))
          spec.four_digit_years = true.
Proof. vm_compute. reflexivity. Qed.

Lemma in_four_digit_years y : 1000 <= y <= 9999 -> In y spec.four_digit_years.
Proof.
  intros H. unfold spec.four_digit_years.
  apply in_map_iff. exists (Z.to_nat (y - 1000)). split; [lia|]. apply in_seq. lia.
Qed.

Lemma year_printed y :
  1000 <= y <= 9999 -> Py.str_of_uint (N.to_uint (Z.to_N y)) = spec.four_digits y.
Proof.
  intros H.
  pose proof (proj1 (forallb_forall _ _) years_printed y (in_four_digit_years y H)) as Hc.
  now apply str_eqb_eq in Hc.
Qed.

(** The calendar form with ten ASCII digits and hyphens. *)
Lemma fromisoformat_calendar a b c e f g h i :
  0 <= a <= 9 -> 0 <= b <= 9 -> 0 <= c <= 9 -> 0 <= e <= 9 ->
  0 <= f <= 9 -> 0 <= g <= 9 -> 0 <= h <= 9 -> 0 <= i <= 9 ->
  fromisoformat [digit a; digit b; digit c; digit e; HYPHEN; digit f; digit g; HYPHEN;
                 digit h; digit i]
  = new_date (10 * (10 * (10 * (10 * 0 + a) + b) + c) + e) (10 * (10 * 0 + f) + g)
             (10 * (10 * 0 + h) + i).
Proof.
  intros Ha Hb Hc He Hf Hg Hh Hi. unfold fromisoformat.
  cbn [Py.encode_utf8]. rewrite !utf8_digit by assumption.
  change (Py.utf8_of_char HYPHEN) with (Some [HYPHEN]). cbn [app List.length].
  change ((10 =? 7)%nat || (10 =? 8)%nat || (10 =? 10)%nat) with true. cbv iota.
  unfold parse_isoformat_date, digits_at, byte_at.
  cbn [nth]. rewrite Z.eqb_refl. cbv iota.
  cbn [firstn skipn List.length Nat.eqb nth Nat.add parse_digits negb andb].
  rewrite !digit_val_digit by assumption. rewrite (digit_not_W f) by assumption.
  reflexivity.
Qed.

Lemma fromisoformat_strftime d :
  valid d -> 1000 <= year d -> fromisoformat (strftime_Ymd d) = Ok d.
Proof.
  intros Hv Hy4. pose proof (valid_fields d Hv) as (Hy & Hm & Hd).
  pose proof (days_in_month_bounds (year d) (month d) Hm).
  unfold strftime_Ymd. rewrite year_printed by lia.
  unfold spec.four_digits, zfill2. cbn [app].
  rewrite fromisoformat_calendar by (Z.to_euclidean_division_equations; lia).
  replace (10 * (10 * (10 * (10 * 0 + year d / 1000) + year d / 100 mod 10)
                 + year d / 10 mod 10) + year d mod 10)
    with (year d) by (Z.to_euclidean_division_equations; lia).
  replace (10 * (10 * 0 + month d / 10) + month d mod 10)
    with (month d) by (Z.to_euclidean_division_equations; lia).
  replace (10 * (10 * 0 + day d / 10) + day d mod 10)
    with (day d) by (Z.to_euclidean_division_equations; lia).
  rewrite new_date_ok by lia. now destruct d.
Qed.

(** *** The amount survives printing and parsing when the column holds it *)

Lemma uint_of_str_of_uint d : Py.uint_of_str (Py.str_of_uint d) = Some d.
Proof.
  induction d; cbn [Py.str_of_uint Py.uint_of_str]; trivial;
    rewrite IHd; reflexivity.
Qed.

Lemma split_point_digits ip fp :
  Forall (fun c => 48 <= c <= 57) ip ->
  decimal.split_point (ip ++ decimal.DOT :: fp) = (ip, Some fp).
Proof.
  induction 1 as [| c ip Hc _ IH]; cbn [app decimal.split_point].
  - now rewrite Z.eqb_refl.
  - unfold decimal.DOT in *. destruct (Z.eqb_spec c 46); [lia|]. now rewrite IH.
Qed.

(** The hundredths 0..99 print as two digits that denote them. *)
Lemma hundredths_printed :
  forallb (fun f => match decimal.digits_value (zfill2 f) with
                    | Some v => v =? f
                    | None => false
                    end) spec.all_hundredths = true.
Proof. vm_compute. reflexivity. Qed.

Lemma digits_value_zfill2 f :
  0 <= f <= 99 -> decimal.digits_value (zfill2 f) = Some f.
Proof.
  intros H.
  assert (Hin : In f spec.all_hundredths).
  { apply in_map_iff. exists (Z.to_nat f). split; [lia|]. apply in_seq. lia. }
  pose proof (proj1 (forallb_forall _ _) hundredths_printed f Hin) as Hc.
  cbv beta in Hc.
  destruct (decimal.digits_value (zfill2 f)) as [v|]; [|discriminate].
  apply Z.eqb_eq in Hc. now subst.
Qed.

Lemma digits_value_printed n :
  0 <= n -> decimal.digits_value (Py.str_of_uint (N.to_uint (Z.to_N n))) = Some n.
Proof.
  intros H. unfold decimal.digits_value. rewrite uint_of_str_of_uint. cbn [option_map].
  rewrite DecimalN.Unsigned.of_to. f_equal. lia.
Qed.

(** A printed number has no more digits than it has bits. *)
Lemma nb_digits_double d :
  (Decimal.nb_digits (Decimal.Little.double d) <= S (Decimal.nb_digits d))%nat
  /\ (Decimal.nb_digits (Decimal.Little.succ_double d) <= S (Decimal.nb_digits d))%nat.
Proof.
  induction d as [| d [IH1 IH2] | d [IH1 IH2] | d [IH1 IH2] | d [IH1 IH2] | d [IH1 IH2]
                    | d [IH1 IH2] | d [IH1 IH2] | d [IH1 IH2] | d [IH1 IH2] | d [IH1 IH2]];
    cbn [Decimal.Little.double Decimal.Little.succ_double Decimal.nb_digits]; split; lia.
Qed.

Lemma nb_digits_to_little_uint p :
  (Decimal.nb_digits (Pos.to_little_uint p) <= Pos.to_nat p)%nat.
Proof.
  induction p as [p IH | p IH |]; cbn [Pos.to_little_uint Decimal.nb_digits].
  - pose proof (proj2 (nb_digits_double (Pos.to_little_uint p))). lia.
  - pose proof (proj1 (nb_digits_double (Pos.to_little_uint p))). lia.
  - lia.
Qed.

Lemma length_str_of_uint d : List.length (Py.str_of_uint d) = Decimal.nb_digits d.
Proof. induction d; cbn [Py.str_of_uint List.length Decimal.nb_digits]; congruence. Qed.

Lemma length_printed n :
  0 <= n -> decimal.len (Py.str_of_uint (N.to_uint (Z.to_N n))) <= Z.max 1 n.
Proof.
  intros H. unfold decimal.len. rewrite length_str_of_uint.
  destruct n as [| p | p]; [cbn; lia | | lia].
  cbn [Z.to_N N.to_uint]. unfold Pos.to_uint.
  rewrite DecimalFacts.nb_digits_rev.
  pose proof (nb_digits_to_little_uint p). lia.
Qed.

Lemma printed_not_empty n : Py.str_of_uint (N.to_uint n) <> [].
Proof.
  intros E. assert (H : N.to_uint n = Decimal.Nil)
    by (destruct (N.to_uint n); [reflexivity | discriminate ..]).
  pose proof (DecimalN.Unsigned.of_to n) as Hof. rewrite H in Hof.
  cbn in Hof. subst n. discriminate.
Qed.

Lemma as_ascii_numeric s : Forall spec.numeric s -> decimal.as_ascii s = Some s.
Proof.
  induction 1 as [| c s Hc _ IH]; [reflexivity|]. cbn [decimal.as_ascii].
  unfold spec.numeric in Hc. unfold decimal.UNDERSCORE.
  destruct (Z.eqb_spec c 95); [lia|].
  destruct (Z.ltb_spec 0 c); [|lia]. destruct (Z.leb_spec c 127); [|lia].
  cbn [andb]. now rewrite IH.
Qed.

Lemma length_drop_zeros s : (List.length (decimal.drop_zeros s) <= List.length s)%nat.
Proof.
  induction s as [| c s IH]; cbn [decimal.drop_zeros List.length]; [lia|].
  destruct (c =? 48); cbn [List.length]; lia.
Qed.

Lemma split_exponent_numeric s :
  Forall spec.numeric s -> decimal.split_exponent s = (s, None).
Proof.
  induction 1 as [| c s Hc _ IH]; [reflexivity|]. cbn [decimal.split_exponent].
  unfold spec.numeric in Hc. unfold decimal.lower.
  replace ((65 <=? c) && (c <=? 90)) with false.
  2:{ symmetry. apply andb_false_iff. left. apply Z.leb_gt. lia. }
  destruct (Z.eqb_spec c 101); [lia|]. now rewrite IH.
Qed.

(** The numeric strings that start with a digit. *)
Lemma of_ascii_number (negative : bool) c s :
  48 <= c <= 57 ->
  decimal.of_ascii ((if negative then [decimal.MINUS] else []) ++ c :: s)
  = decimal.numeric_value negative (c :: s).
Proof.
  intros Hc. unfold decimal.of_ascii.
  assert (Hsigned : decimal.signed ((if negative then [decimal.MINUS] else []) ++ c :: s)
                    = (negative, c :: s)).
  { destruct negative; cbn [app decimal.signed].
    - now rewrite Z.eqb_refl.
    - unfold decimal.MINUS, decimal.PLUS.
      destruct (Z.eqb_spec c 45); [lia|]. destruct (Z.eqb_spec c 43); [lia|]. reflexivity. }
  rewrite Hsigned.
  assert (Hlow : decimal.lower c = c).
  { unfold decimal.lower. destruct (Z.leb_spec 65 c); [lia | reflexivity]. }
  unfold decimal.NAN_, decimal.SNAN_, decimal.INF_. cbn [decimal.after_prefix].
  rewrite Hlow.
  destruct (Z.eqb_spec c 110); [lia|]. destruct (Z.eqb_spec c 115); [lia|].
  destruct (Z.eqb_spec c 105); [lia|]. reflexivity.
Qed.

(** What the exporter prints for an amount of the column is read as that
    amount. *)
Lemma Decimal_to_str a :
  column.holds a = true ->
  decimal.Decimal (decimal.to_str a) = Ok (decimal.Finite (a <? 0) (Z.abs a) (-2)).
Proof.
  intros Hh. unfold column.holds in Hh. apply Z.ltb_lt in Hh.
  change (10 ^ 12) with 1000000000000 in Hh.
  unfold decimal.Decimal, decimal.numeric_as_ascii.
  rewrite (numeric_trimmed _ (to_str_numeric a)), (as_ascii_numeric _ (to_str_numeric a)).
  unfold decimal.to_str.
  set (n := Z.abs a / 100). set (f := Z.abs a mod 100).
  assert (Hf : 0 <= f <= 99) by (unfold f; pose proof (Z.mod_pos_bound (Z.abs a) 100); lia).
  assert (Hn : 0 <= n < 10000000000) by (unfold n; Z.to_euclidean_division_equations; lia).
  assert (Habs : Z.abs a = 100 * n + f) by (unfold n, f; apply Z.div_mod; lia).
  remember (Py.str_of_uint (N.to_uint (Z.to_N n))) as ip eqn:Eip.
  assert (Hip : Forall (fun c => 48 <= c <= 57) ip) by (subst ip; apply str_of_uint_digits).
  assert (Hlen : decimal.len ip <= Z.max 1 n) by (subst ip; apply length_printed; lia).
  assert (Hval : decimal.digits_value ip = Some n)
    by (subst ip; apply digits_value_printed; lia).
  assert (Hnil : ip <> []) by (subst ip; apply printed_not_empty).
  clear Eip.
  change ([decimal.DOT] ++ zfill2 f) with (decimal.DOT :: zfill2 f).
  assert (Hdz : decimal.len (decimal.drop_zeros (ip ++ zfill2 f)) <= decimal.len ip + 2).
  { unfold decimal.len. pose proof (length_drop_zeros (ip ++ zfill2 f)) as Hd.
    rewrite length_app in Hd. cbn [zfill2 List.length] in Hd. lia. }
  assert (Hnum : Forall spec.numeric (ip ++ decimal.DOT :: zfill2 f)).
  { apply Forall_app_intro.
    - eapply Forall_impl; [| exact Hip]. intros x Hx. now left.
    - constructor; [right; now right|]. apply zfill2_numeric. exact Hf. }
  assert (Hne : Py.is_empty (ip ++ zfill2 f) = false) by (now destruct ip).
  destruct ip as [| c ip']; [contradiction|].
  change ((c :: ip') ++ decimal.DOT :: zfill2 f)
    with (c :: (ip' ++ decimal.DOT :: zfill2 f)).
  rewrite (of_ascii_number (a <? 0) c) by (now inversion Hip).
  unfold decimal.numeric_value.
  change (c :: ip' ++ decimal.DOT :: zfill2 f)
    with ((c :: ip') ++ decimal.DOT :: zfill2 f).
  rewrite (split_exponent_numeric _ Hnum).
  rewrite split_point_digits by exact Hip.
  rewrite Hval, digits_value_zfill2 by exact Hf.
  assert (Hl2 : decimal.len (zfill2 f) = 2) by reflexivity.
  rewrite Hl2, Hne. change (10 ^ 2) with 100.
  set (digits := Z.max 1 (decimal.len (decimal.drop_zeros ((c :: ip') ++ zfill2 f)))) in *.
  assert (Hdigits : 1 <= digits <= 10000000002) by (unfold digits; lia).
  unfold decimal.MAX_PREC, decimal.MAX_EMAX, decimal.MIN_ETINY.
  destruct (Z.ltb_spec 999999999999999999 2); [lia|].
  destruct (Z.ltb_spec 999999999999999999 digits); [lia|].
  destruct (Z.ltb_spec 999999999999999999 (0 - 2 + digits - 1)); [lia|].
  destruct (Z.ltb_spec (0 - 2) (-1999999999999999997)); [lia|].
  cbn [orb]. f_equal. f_equal; lia.
Qed.

Lemma hundredths_to_str a :
  decimal.hundredths (decimal.Finite (a <? 0) (Z.abs a) (-2)) = Some a.
Proof.
  unfold decimal.hundredths. change (0 <=? -2 + 2) with true. cbv iota.
  change (10 ^ (-2 + 2)) with 1. f_equal.
  destruct (Z.ltb_spec a 0); lia.
Qed.

(** *** One exported row, imported *)

Lemma find_app {A} (f : A -> bool) l l' :
  find f (l ++ l') = match find f l with Some x => Some x | None => find f l' end.
Proof.
  induction l as [| x l IH]; [reflexivity|]. cbn [app find]. now destruct (f x).
Qed.

Lemma find_none_iff {A} (f : A -> bool) l :
  find f l = None <-> forall x, In x l -> f x = false.
Proof.
  split; [apply find_none|]. induction l as [| x l IH]; intros H; [reflexivity|].
  cbn [find]. rewrite (H x (or_introl eq_refl)). apply IH. intros y Hy. apply H. now right.
Qed.

(** With unique keys, a category row is the one its key refers to. *)
Lemma category_of_in db c :
  spec.category_pk_unique db -> In c (Category_objects db) ->
  orm.category_of db (Category.id c) = Some c.
Proof.
  intros Hpk Hin. unfold orm.category_of.
  destruct (find _ (Category_objects db)) as [c'|] eqn:E.
  - apply find_some in E. destruct E as [Hin' Hid]. apply Z.eqb_eq in Hid.
    f_equal. now apply (NoDup_map_inj Category.id (Category_objects db)).
  - rewrite find_none_iff in E. specialize (E c Hin). rewrite Z.eqb_refl in E. discriminate.
Qed.

Lemma join_category_ext db db' ts :
  (forall t, In t ts ->
     orm.category_of db' (Transaction.category t) = orm.category_of db (Transaction.category t)) ->
  orm.join_category db' ts = orm.join_category db ts.
Proof.
  induction ts as [| t ts IH]; intros H; [reflexivity|].
  cbn [orm.join_category]. rewrite (H t (or_introl eq_refl)).
  rewrite IH by (intros x Hx; apply H; now right). reflexivity.
Qed.

Lemma join_category_app db ts ts' :
  orm.join_category db (ts ++ ts') = orm.join_category db ts ++ orm.join_category db ts'.
Proof.
  induction ts as [| t ts IH]; [reflexivity|]. cbn [app orm.join_category].
  destruct (orm.category_of db (Transaction.category t)); rewrite IH; reflexivity.
Qed.

Lemma to_str_not_empty a : decimal.to_str a <> [].
Proof.
  unfold decimal.to_str. intros H.
  apply app_eq_nil in H. destruct H as [_ H].
  apply app_eq_nil in H. destruct H as [_ H]. discriminate.
Qed.

Lemma strftime_not_empty d : strftime_Ymd d <> [].
Proof.
  unfold strftime_Ymd. intros H. apply app_eq_nil in H. destruct H as [_ H]. discriminate.
Qed.

Lemma or_empty_id s : Py.or_empty s = s.
Proof. now destruct s. Qed.

Lemma is_empty_false {A} (l : list A) : l <> [] -> Py.is_empty l = false.
Proof. destruct l; [congruence | reflexivity]. Qed.

(** The fields the importer reads from an exported row. *)
Lemma export_row_fields t c :
  valid (Transaction.date t) -> spec.trimmed (Category.name c) ->
  Category.name c <> [] -> spec.trimmed (Transaction.description t) ->
  spec.skippedb (export_row (t, c)) = false
  /\ spec.field (export_row (t, c)) 0 = strftime_Ymd (Transaction.date t)
  /\ spec.label_type (spec.field (export_row (t, c)) 1) = Some (Category.type c)
  /\ spec.field (export_row (t, c)) 2 = Category.name c
  /\ spec.field (export_row (t, c)) 3 = decimal.to_str (Transaction.amount t)
  /\ spec.stored_description (export_row (t, c)) = Transaction.description t.
Proof.
  intros Hv Hn Hne Hd.
  pose proof (numeric_trimmed _ (strftime_numeric _ Hv)) as H0.
  pose proof (numeric_trimmed _ (to_str_numeric (Transaction.amount t))) as H3.
  assert (H1 : spec.field (export_row (t, c)) 1
               = if CategoryType_eqb (Category.type c) INCOME
                 then INCOME_LABEL else EXPENSE_LABEL).
  { unfold spec.field, export_row. cbn [nth]. now destruct (CategoryType_eqb _ _). }
  unfold spec.skippedb, spec.stored_description. rewrite H1.
  unfold spec.field, export_row. cbn [nth forallb List.length].
  rewrite or_empty_id. unfold spec.trimmed in *. rewrite H0, Hn, H3, Hd.
  rewrite (is_empty_false _ (strftime_not_empty (Transaction.date t))),
    (is_empty_false _ Hne),
    (is_empty_false _ (to_str_not_empty (Transaction.amount t))).
  repeat split.
  - now destruct (Category.type c).
  - now destruct (Category.type c).
Qed.

Lemma categories_matching_app cats c' txs buds name ty user :
  spec.categories_matching (mkDB (cats ++ [c']) txs buds) name ty user
  = spec.categories_matching (mkDB cats txs buds) name ty user
    ++ (if Py.str_eqb (Category.name c') name
           && CategoryType_eqb (Category.type c') ty && (Category.user c' =? user)
        then [c'] else []).
Proof.
  unfold spec.categories_matching. cbn [Category_objects].
  rewrite filter_app. cbn [filter]. now destruct (_ && _).
Qed.

(** The conversions of an exported row give back the amount and the date. *)
Lemma conversions_exported engine t c :
  valid (Transaction.date t) -> spec.trimmed (Category.name c) ->
  Category.name c <> [] -> spec.trimmed (Transaction.description t) ->
  1000 <= year (Transaction.date t) -> column.holds (Transaction.amount t) = true ->
  spec.conversions engine (export_row (t, c))
  = Ok (Transaction.amount t, Transaction.date t).
Proof.
  intros Hv Hn Hne Hd Hy Hh.
  destruct (export_row_fields t c Hv Hn Hne Hd) as (_ & F0 & _ & _ & F3 & _).
  unfold spec.conversions. rewrite F0, F3.
  rewrite Decimal_to_str by exact Hh. rewrite fromisoformat_strftime by assumption.
  now rewrite (save_held engine _ _ (hundredths_to_str _) Hh).
Qed.

(** Importing the row exported for a transaction adds one transaction
    with the same date, type, category name, amount and description, and
    keeps the store ready for the next row. *)
Lemma import_exported_row engine db user t c count :
  spec.import_ready db user ->
  valid (Transaction.date t) -> spec.trimmed (Category.name c) ->
  Category.name c <> [] -> spec.trimmed (Transaction.description t) ->
  1000 <= year (Transaction.date t) -> column.holds (Transaction.amount t) = true ->
  exists db',
    import_row engine user (export_row (t, c)) count db = (Ok (count + 1), db')
    /\ spec.import_ready db' user
    /\ spec.user_tuples db' user = spec.user_tuples db user ++ [spec.tuple_of (t, c)].
Proof.
  intros (Hpk & Huniq & Hfk) Hv Hn Hne Hd Hy Hh.
  destruct (export_row_fields t c Hv Hn Hne Hd) as (Hs & F0 & F1 & F2 & F3 & F4).
  rewrite (import_row_typed engine user _ count (Category.type c) db Hs F1).
  rewrite (conversions_exported engine t c Hv Hn Hne Hd Hy Hh).
  rewrite F2, F4.
  destruct (get_or_create_ok (Category.name c) (Category.type c) user db (Huniq _ _))
    as (c' & created & Hg & Hcn & Hct & Hcu & Hcase).
  rewrite Hg.
  unfold writes.Transaction_insert.
  cbn [snd Transaction_objects Category_objects Budget_objects].
  set (cats' := if created then Category_objects db ++ [c'] else Category_objects db).
  set (t' := Transaction.mk _ user (Transaction.amount t) (Category.id c')
               (Transaction.description t) (Transaction.date t)).
  set (db' := mkDB cats' (Transaction_objects db ++ [t']) (Budget_objects db)).
  (* lookups that resolved before resolve to the same row *)
  assert (Hkeep : forall pk, orm.category_of db pk <> None ->
                             orm.category_of db' pk = orm.category_of db pk).
  { intros pk Hsome. unfold orm.category_of, db', cats' in *. cbn [Category_objects].
    destruct created; [|reflexivity]. rewrite find_app.
    destruct (find _ (Category_objects db)); [reflexivity | contradiction]. }
  (* the category of the new transaction *)
  assert (Hnew : orm.category_of db' (Category.id c') = Some c').
  { destruct created.
    - destruct Hcase as [_ Hid]. unfold orm.category_of, db', cats'. cbn [Category_objects].
      rewrite find_app.
      destruct (find _ (Category_objects db)) as [x|] eqn:E.
      + exfalso. apply find_some in E. destruct E as [Hin Hx]. apply Z.eqb_eq in Hx.
        apply (next_pk_fresh (map Category.id (Category_objects db))).
        rewrite <- Hid, <- Hx. now apply in_map.
      + cbn [find]. now rewrite Z.eqb_refl.
    - assert (Hin : In c' (Category_objects db)).
      { assert (Hm : In c' (spec.categories_matching db (Category.name c) (Category.type c) user))
          by (rewrite Hcase; now left).
        now apply categories_matching_spec in Hm. }
      rewrite Hkeep; apply category_of_in in Hin; trivial. congruence. }
  exists db'. split; [reflexivity|]. split.
  - (* the store stays ready *)
    split; [|split].
    + unfold spec.category_pk_unique, db', cats'. cbn [Category_objects].
      destruct created; [|exact Hpk]. destruct Hcase as [_ Hid].
      rewrite map_app. cbn [map].
      apply Permutation_NoDup with (l := Category.id c' :: map Category.id (Category_objects db)).
      * apply Permutation_cons_append.
      * constructor; [rewrite Hid; apply next_pk_fresh | exact Hpk].
    + intros name ty. unfold db', cats'. destruct created.
      * destruct Hcase as [Hnone _]. rewrite categories_matching_app.
        destruct (Py.str_eqb (Category.name c') name
                  && CategoryType_eqb (Category.type c') ty && (Category.user c' =? user)) eqn:E.
        -- apply andb_true_iff in E. destruct E as [E _].
           apply andb_true_iff in E. destruct E as [E1 E2].
           apply str_eqb_eq in E1. apply CategoryType_eqb_eq in E2.
           rewrite <- E1, <- E2, Hcn, Hct.
           unfold spec.categories_matching in *. cbn [Category_objects].
           rewrite Hnone. cbn. lia.
        -- rewrite app_nil_r. apply Huniq.
      * apply Huniq.
    + intros x Hx Hux. unfold db' in Hx. cbn [Transaction_objects] in Hx.
      apply in_app_or in Hx. destruct Hx as [Hx | [<- | []]].
      * rewrite Hkeep; now apply Hfk.
      * unfold t'. cbn [Transaction.category]. rewrite Hnew. discriminate.
  - (* the tuples *)
    unfold spec.user_tuples, spec.user_rows, db'. cbn [Transaction_objects].
    fold db'. rewrite filter_app, join_category_app, map_app. f_equal.
    + f_equal. apply join_category_ext. intros x Hx. apply filter_In in Hx.
      destruct Hx as [Hx Hux]. apply Z.eqb_eq in Hux. apply Hkeep. now apply Hfk.
    + cbn [filter]. unfold t' at 1. cbn [Transaction.user]. rewrite Z.eqb_refl.
      cbn [orm.join_category]. unfold t' at 1. cbn [Transaction.category].
      rewrite Hnew. cbn [map]. unfold spec.tuple_of, t'. cbn [fst snd
        Transaction.date Transaction.amount Transaction.description].
      now rewrite Hcn, Hct.
Qed.

(** *** The whole file *)

Lemma import_exported_rows engine db user rows count :
  spec.import_ready db user ->
  (forall t c, In (t, c) rows ->
     (valid (Transaction.date t) /\ spec.trimmed (Category.name c)
      /\ Category.name c <> [] /\ spec.trimmed (Transaction.description t))
     /\ 1000 <= year (Transaction.date t) /\ column.holds (Transaction.amount t) = true) ->
  exists db',
    import_rows engine user (map export_row rows) count db
    = (Ok (count + Z.of_nat (List.length rows)), db')
    /\ spec.import_ready db' user
    /\ spec.user_tuples db' user = spec.user_tuples db user ++ map spec.tuple_of rows.
Proof.
  revert db count. induction rows as [| [t c] rows IH]; intros db count Hready Hrows.
  - exists db. cbn [map import_rows List.length Z.of_nat]. unfold ret.
    rewrite Z.add_0_r, app_nil_r. split; [reflexivity | split; [exact Hready | reflexivity]].
  - destruct (Hrows t c (or_introl eq_refl)) as ((Hv & Hn & Hne & Hd) & Hy & Hh).
    destruct (import_exported_row engine db user t c count Hready Hv Hn Hne Hd Hy Hh)
      as (db1 & Hstep & Hready1 & Htuples1).
    destruct (IH db1 (count + 1) Hready1) as (db2 & Hrest & Hready2 & Htuples2).
    { intros t' c' Hin. apply Hrows. now right. }
    exists db2. cbn [map import_rows]. unfold bind. rewrite Hstep, Hrest.
    split; [|split; [exact Hready2|]].
    + f_equal. f_equal. cbn [List.length]. lia.
    + rewrite Htuples2, Htuples1, <- app_assoc. reflexivity.
Qed.

Lemma export_shape response db user :
  export_transactions_to_csv response db user
  = response ++ HEADER :: map export_row (transactions_newest_first db user).
Proof.
  unfold export_transactions_to_csv, csv.writerow.
  generalize (transactions_newest_first db user) as rows.
  assert (H : forall rows w,
             fold_left (fun w tc => w ++ [export_row tc]) rows w
             = w ++ map export_row rows).
  { induction rows as [| r rows IH]; intros w; cbn [fold_left map].
    - now rewrite app_nil_r.
    - rewrite IH, <- app_assoc. reflexivity. }
  intros rows. rewrite H, <- app_assoc. reflexivity.
Qed.

Lemma insert_by_permutation {A} (before : A -> A -> bool) x l :
  Permutation (orm.insert_by before x l) (x :: l).
Proof.
  induction l as [| y l IH]; cbn [orm.insert_by]; [reflexivity|].
  destruct (before x y); [reflexivity|].
  rewrite IH. apply perm_swap.
Qed.

(** Ordering keeps the rows. *)
Lemma order_by_permutation {A} (before : A -> A -> bool) l :
  Permutation (orm.order_by before l) l.
Proof.
  induction l as [| x l IH]; [reflexivity|].
  unfold orm.order_by in *. cbn [fold_right].
  rewrite insert_by_permutation. now constructor.
Qed.

Lemma newest_first_permutation db user :
  Permutation (transactions_newest_first db user) (spec.user_rows db user).
Proof. apply order_by_permutation. Qed.

Lemma account_empty_ready db user :
  spec.account_empty db user -> spec.category_pk_unique db ->
  spec.import_ready db user /\ spec.user_tuples db user = [].
Proof.
  intros [Htx Hcat] Hpk. split; [split; [exact Hpk | split]|].
  - intros name ty.
    replace (spec.categories_matching db name ty user) with (@nil Category.t); [cbn; lia|].
    symmetry. apply filter_none. intros c Hc.
    destruct (Z.eqb_spec (Category.user c) user) as [E | E]; [now apply Hcat in Hc|].
    apply andb_false_r.
  - intros t Ht Hu. now apply Htx in Ht.
  - unfold spec.user_tuples, spec.user_rows.
    rewrite filter_none; [reflexivity|].
    intros t Ht. apply Z.eqb_neq. now apply Htx.
Qed.

(** The rows of an account that is trimmed and exportable. *)
Lemma exportable_rows src user :
  spec.account_trimmed src user -> spec.account_exportable src user ->
  forall t c, In (t, c) (transactions_newest_first src user) ->
    (valid (Transaction.date t) /\ spec.trimmed (Category.name c)
     /\ Category.name c <> [] /\ spec.trimmed (Transaction.description t))
    /\ 1000 <= year (Transaction.date t) /\ column.holds (Transaction.amount t) = true.
Proof.
  intros Htrim Hexp t c Hin.
  assert (Hin' : In (t, c) (spec.user_rows src user))
    by (eapply Permutation_in; [apply newest_first_permutation | exact Hin]).
  split; [exact (Htrim t c Hin') | exact (Hexp t c Hin')].
Qed.

(** C1 (amended). For an account whose category names are trimmed and not
    empty, whose descriptions are trimmed, whose dates are dates of the
    years 1000 to 9999 and whose amounts are amounts of the column,
    exporting the user's transactions and importing the rows written into an
    account without categories and transactions (in a store with unique
    category keys) succeeds, counts every transaction, and leaves in that
    account the same multiset of (date, type, category name, amount,
    description) tuples, so that every category name keeps its type;
    whatever the database engine. *)
Theorem export_import_round_trip engine src dst user :
  spec.account_trimmed src user -> spec.account_exportable src user ->
  spec.account_empty dst user -> spec.category_pk_unique dst ->
  exists dst',
    import_transactions_from_csv engine (export_transactions_to_csv [] src user) user dst
    = (Ok (Z.of_nat (List.length (spec.user_tuples src user))), dst')
    /\ Permutation (spec.user_tuples dst' user) (spec.user_tuples src user).
Proof.
  intros Htrim Hexp Hempty Hpk.
  destruct (account_empty_ready dst user Hempty Hpk) as [Hready Hnone].
  pose proof (newest_first_permutation src user) as Hperm.
  destruct (import_exported_rows engine dst user (transactions_newest_first src user) 0
              Hready (exportable_rows src user Htrim Hexp))
    as (dst' & Himport & _ & Htuples).
  exists dst'. rewrite export_shape. cbn [app import_transactions_from_csv].
  rewrite Himport, Htuples, Hnone. cbn [app]. split.
  - f_equal. f_equal. cbn [Z.add]. f_equal. unfold spec.user_tuples.
    rewrite length_map. now apply Permutation_length.
  - unfold spec.user_tuples. now apply Permutation_map.
Qed.

Lemma fixture_rows :
  spec.user_rows tests.db tests.user
  = [ (Transaction.mk 1 tests.user 5000000 2 [] (mkdate 2025 10 5), tests.income_cat);
      (Transaction.mk 2 tests.user 100000 1 [] (mkdate 2025 10 10), tests.expense_cat);
      (Transaction.mk 3 tests.user 50000 1 [] (mkdate 2025 10 20), tests.expense_cat) ].
Proof. reflexivity. Qed.

Lemma fixture_trimmed : spec.account_trimmed tests.db tests.user.
Proof.
  intros t c Hin. rewrite fixture_rows in Hin.
  destruct Hin as [[= <- <-] | [[= <- <-] | [[= <- <-] | []]]];
    repeat split; discriminate.
Qed.

Lemma fixture_exportable : spec.account_exportable tests.db tests.user.
Proof.
  intros t c Hin. rewrite fixture_rows in Hin.
  destruct Hin as [[= <- <-] | [[= <- <-] | [[= <- <-] | []]]];
    split; (reflexivity || discriminate).
Qed.

(** The account of the test fixture, exported and imported into an empty store. *)
Lemma export_import_round_trip_witness :
  spec.account_trimmed tests.db tests.user
  /\ spec.account_exportable tests.db tests.user
  /\ exists dst',
      import_transactions_from_csv tests.engine
        (export_transactions_to_csv [] tests.db tests.user) tests.user (mkDB [] [] [])
      = (Ok 3, dst')
      /\ Permutation (spec.user_tuples dst' tests.user) (spec.user_tuples tests.db tests.user).
Proof.
  split; [exact fixture_trimmed|]. split; [exact fixture_exportable|].
  assert (Hempty : spec.account_empty (mkDB [] [] []) tests.user)
    by (split; intros x []).
  assert (Hpk : spec.category_pk_unique (mkDB [] [] [])) by constructor.
  exact (export_import_round_trip tests.engine tests.db (mkDB [] [] []) tests.user
           fixture_trimmed fixture_exportable Hempty Hpk).
Defined.

(** An account with a transaction of the year 999 satisfies the constraints
    of the schema and of the forms. *)
Lemma year_999_store_ok : spec.store_ok tests.db_year_999.
Proof.
  store_ok_split.
  - repeat (constructor; [cbn; intuition discriminate|]). constructor.
  - intros name ty user. unfold spec.categories_matching.
    cbn [tests.db_year_999 Category_objects filter]. destruct (_ && _); cbn; lia.
  - repeat (constructor; [cbn; intuition discriminate|]). constructor.
  - intros t [<- | []]. exists tests.expense_cat. split; reflexivity.
  - constructor.
  - intros user cat mo. cbn. lia.
  - intros b [].
  - split.
    + intros c [<- | []]; split; (reflexivity || discriminate).
    + intros t [<- | []]; split; reflexivity.
Qed.

(** C1, as stated, fails for an account with a transaction of the year
    999, a date that the transaction form accepts, in a store that satisfies
    the constraints: the exporter writes the year as [999], the importer
    refuses the date, and nothing is imported; whatever the database
    engine. *)
Lemma round_trip_year_999 :
  spec.store_ok tests.db_year_999
  /\ spec.account_trimmed tests.db_year_999 tests.user
  /\ spec.user_tuples tests.db_year_999 tests.user
     = [(mkdate 999 10 10, EXPENSE, tests.FOOD, 100000, [])]
  /\ export_transactions_to_csv [] tests.db_year_999 tests.user
     = [HEADER; [Py.lit "999-10-10"; EXPENSE_LABEL; tests.FOOD; Py.lit "1000.00"; []]]
  /\ forall engine,
       exists dst',
         import_transactions_from_csv engine
           (export_transactions_to_csv [] tests.db_year_999 tests.user)
           tests.user (mkDB [] [] [])
         = (Raise ValueError, dst')
         /\ spec.user_tuples dst' tests.user = [].
Proof.
  split; [exact year_999_store_ok|].
  split; [|split; [reflexivity | split; [vm_compute; reflexivity|]]].
  - intros t c [[= <- <-] | []]. repeat split; discriminate.
  - intros engine. eexists. split; vm_compute; reflexivity.
Qed.

(** The names must be trimmed: the importer trims the name of a category
    that starts with a space, and the imported transaction is under another
    category name than the exported one. *)
Lemma round_trip_untrimmed_name :
  let dst' :=
    snd (import_transactions_from_csv tests.engine
           (export_transactions_to_csv [] tests.db_untrimmed tests.user)
           tests.user (mkDB [] [] [])) in
  spec.user_tuples tests.db_untrimmed tests.user
  = [(mkdate 2025 10 10, EXPENSE, 32 :: tests.FOOD, 100000, [])]
  /\ spec.user_tuples dst' tests.user
     = [(mkdate 2025 10 10, EXPENSE, tests.FOOD, 100000, [])]
  /\ ~ Permutation (spec.user_tuples dst' tests.user)
         (spec.user_tuples tests.db_untrimmed tests.user).
Proof.
  cbv zeta.
  assert (E1 : spec.user_tuples tests.db_untrimmed tests.user
               = [(mkdate 2025 10 10, EXPENSE, 32 :: tests.FOOD, 100000, [])])
    by reflexivity.
  assert (E2 : spec.user_tuples
                 (snd (import_transactions_from_csv tests.engine
                         (export_transactions_to_csv [] tests.db_untrimmed tests.user)
                         tests.user (mkDB [] [] []))) tests.user
               = [(mkdate 2025 10 10, EXPENSE, tests.FOOD, 100000, [])])
    by (vm_compute; reflexivity).
  split; [exact E1|]. split; [exact E2|].
  rewrite E1, E2. intros H. apply Permutation_length_1 in H. discriminate.
Qed.

End RoundTrip.

(** * Further properties of the code *)

(** ** Which month a transaction counts in *)

Section MonthBuckets.
Import datetime.

Lemma date_leb_spec a b :
  date_leb a b = true
  <-> year a < year b
      \/ (year a = year b
          /\ (month a < month b \/ (month a = month b /\ day a <= day b))).
Proof.
  unfold date_leb, date_compare.
  destruct (Z.compare_spec (year a) (year b));
    destruct (Z.compare_spec (month a) (month b));
    destruct (Z.compare_spec (day a) (day b));
    split; intros; try discriminate; try reflexivity; lia.
Qed.

Lemma new_date_inv y m d x :
  new_date y m d = Ok x ->
  x = mkdate y m d /\ 1 <= y <= 9999 /\ 1 <= m <= 12 /\ 1 <= d <= _days_in_month y m.
Proof.
  unfold new_date. destruct (valid_dateb y m d) eqn:E; [|discriminate].
  intros [= <-]. split; [reflexivity|].
  exact (valid_fields (mkdate y m d) E).
Qed.

Lemma rbind_inv {A B} (r : result A) (k : A -> result B) b :
  rbind r k = Ok b -> exists a, r = Ok a /\ k a = Ok b.
Proof. destruct r as [a | e]; cbn [rbind]; [eauto | discriminate]. Qed.

(** A range is computed only for the months of the domain, and then it is
    the calendar month. *)
Lemma month_bounds_inv y m s e :
  services.month_bounds y m = Ok (s, e)
  \/ services.month_bounds_relativedelta y m = Ok (s, e) ->
  spec.month_in_domain y m /\ s = spec.first_day y m /\ e = spec.last_day y m.
Proof.
  intros H.
  assert (Hrange : 1 <= y <= 9999 /\ 1 <= m <= 12).
  { destruct H as [H | H];
      [unfold services.month_bounds in H | unfold services.month_bounds_relativedelta in H];
      apply rbind_inv in H; destruct H as (x & Hx & _);
      apply new_date_inv in Hx; tauto. }
  destruct Hrange as [Hy Hm].
  assert (Hlast : ~ (y = 9999 /\ m = 12)).
  { intros [-> ->]. destruct H as [H | H]; vm_compute in H; discriminate. }
  assert (Hd : spec.month_in_domain y m) by (unfold spec.month_in_domain; tauto).
  split; [exact Hd|].
  destruct H as [H | H];
    [rewrite month_bounds_ok in H by exact Hd
    | rewrite month_bounds_relativedelta_ok in H by exact Hd];
    injection H as <- <-; split; reflexivity.
Qed.

(** X1. Whenever a month range is computed (by either computation of the
    services), a valid date lies within the range exactly when it is a date
    of that year and month: a transaction counts in the month of its date
    and in no other. *)
Theorem dates_of_the_month y m s e d :
  services.month_bounds y m = Ok (s, e)
  \/ services.month_bounds_relativedelta y m = Ok (s, e) ->
  valid d ->
  (in_range d s e = true <-> year d = y /\ month d = m).
Proof.
  intros H Hv. apply month_bounds_inv in H. destruct H as (Hd & -> & ->).
  apply valid_fields in Hv. destruct Hv as (_ & _ & Hday).
  unfold in_range. rewrite andb_true_iff, !date_leb_spec.
  unfold spec.first_day, spec.last_day. cbn [year month day].
  split.
  - intros [H1 H2]. lia.
  - intros [<- <-]. lia.
Qed.

(** October 5, 2025 in the range of October 2025. *)
Lemma dates_of_the_month_witness :
  services.month_bounds 2025 10 = Ok (mkdate 2025 10 1, mkdate 2025 10 31)
  /\ valid (mkdate 2025 10 5)
  /\ (in_range (mkdate 2025 10 5) (mkdate 2025 10 1) (mkdate 2025 10 31) = true
      <-> 2025 = 2025 /\ 10 = 10).
Proof.
  assert (H : services.month_bounds 2025 10 = Ok (mkdate 2025 10 1, mkdate 2025 10 31))
    by (vm_compute; reflexivity).
  assert (Hv : valid (mkdate 2025 10 5)) by reflexivity.
  split; [exact H|]. split; [exact Hv|].
  exact (dates_of_the_month 2025 10 _ _ (mkdate 2025 10 5) (or_introl H) Hv).
Defined.

End MonthBuckets.

(** ** The expense breakdown *)

Section Breakdown.
Import datetime.

Lemma existsb_str_eqb x seen : existsb (Py.str_eqb x) seen = true <-> In x seen.
Proof.
  rewrite existsb_exists. split.
  - intros (y & Hy & E). apply str_eqb_eq in E. now subst.
  - intros H. exists x. split; [exact H | now apply str_eqb_eq].
Qed.

Lemma distinct_spec l seen x :
  In x (services.distinct l seen) <-> In x l /\ ~ In x seen.
Proof.
  revert seen. induction l as [| y l IH]; intros seen; cbn [services.distinct].
  - cbn. tauto.
  - destruct (existsb (Py.str_eqb y) seen) eqn:E.
    + apply existsb_str_eqb in E. rewrite IH. cbn [In]. split.
      * tauto.
      * intros [[-> | H] Hn]; [contradiction | tauto].
    + assert (Hy : ~ In y seen) by (rewrite <- existsb_str_eqb, E; discriminate).
      cbn [In]. rewrite IH. cbn [In]. split.
      * intros [<- | [H Hn]]; [tauto | tauto].
      * intros [[<- | H] Hn]; [now left|].
        destruct (Py.str_eq_dec y x) as [-> | Hne]; [now left | right; tauto].
Qed.

Lemma distinct_NoDup l seen : NoDup (services.distinct l seen).
Proof.
  revert seen. induction l as [| y l IH]; intros seen; cbn [services.distinct].
  - constructor.
  - destruct (existsb (Py.str_eqb y) seen); [apply IH|].
    constructor; [|apply IH]. rewrite distinct_spec. cbn [In]. tauto.
Qed.

Lemma total_app xs ys : spec.total (xs ++ ys) = spec.total xs + spec.total ys.
Proof.
  unfold spec.total. induction xs as [| x xs IH]; cbn [app fold_right]; lia.
Qed.

Lemma total_permutation xs ys : Permutation xs ys -> spec.total xs = spec.total ys.
Proof.
  unfold spec.total. induction 1; cbn [fold_right]; lia.
Qed.

(** The sum over rows that pass one of two tests no row passes both of. *)
Lemma total_filter_either {A} (amount : A -> Z) (p q : A -> bool) l :
  (forall x, In x l -> p x = true -> q x = false) ->
  spec.total (map amount (filter (fun x => p x || q x) l))
  = spec.total (map amount (filter p l)) + spec.total (map amount (filter q l)).
Proof.
  unfold spec.total. induction l as [| x l IH]; intros H; [reflexivity|].
  assert (IH' := IH (fun y Hy => H y (or_intror Hy))).
  specialize (H x (or_introl eq_refl)). cbn [filter].
  destruct (p x); [rewrite H by reflexivity | destruct (q x)];
    cbn [orb map fold_right]; lia.
Qed.

(** Summing group by group is summing all rows under the grouped names. *)
Lemma total_by_names (rows : list (Transaction.t * Category.t)) ns :
  NoDup ns ->
  spec.total
    (map (fun n =>
            spec.total (map (fun tc => Transaction.amount (fst tc))
                          (filter (fun tc => Py.str_eqb (Category.name (snd tc)) n) rows)))
         ns)
  = spec.total (map (fun tc => Transaction.amount (fst tc))
                  (filter (fun tc => existsb (Py.str_eqb (Category.name (snd tc))) ns) rows)).
Proof.
  induction 1 as [| n ns Hn Hnd IH].
  - cbn [map existsb]. rewrite filter_none by reflexivity. reflexivity.
  - cbn [map existsb]. change (spec.total (?x :: ?l)) with (x + spec.total l).
    rewrite IH.
    rewrite (total_filter_either _
               (fun tc => Py.str_eqb (Category.name (snd tc)) n)
               (fun tc => existsb (Py.str_eqb (Category.name (snd tc))) ns)).
    + reflexivity.
    + intros tc _ E. apply str_eqb_eq in E. rewrite E.
      destruct (existsb (Py.str_eqb n) ns) eqn:E'; [|reflexivity].
      apply existsb_str_eqb in E'. contradiction.
Qed.

Lemma amounts_map_fst (rows : list (Transaction.t * Category.t)) :
  orm.amounts (map fst rows) = map (fun tc => Transaction.amount (fst tc)) rows.
Proof. unfold orm.amounts. now rewrite map_map. Qed.

Lemma filter_all {A} (f : A -> bool) l :
  (forall x, In x l -> f x = true) -> filter f l = l.
Proof.
  induction l as [| x l IH]; intros H; [reflexivity|].
  cbn [filter]. rewrite (H x (or_introl eq_refl)). f_equal.
  apply IH. intros y Hy. apply H. now right.
Qed.

(** The totals of the groups add up to the total of the rows. *)
Lemma group_by_name_total rows :
  spec.total (map services.total (services.group_by_name rows))
  = spec.total (orm.amounts (map fst rows)).
Proof.
  unfold services.group_by_name. rewrite map_map. cbn [services.total].
  erewrite map_ext.
  2:{ intros n. rewrite fold_left_add, amounts_map_fst, Z.add_0_l. reflexivity. }
  rewrite total_by_names by apply distinct_NoDup.
  rewrite amounts_map_fst. f_equal. f_equal. apply filter_all.
  intros tc Htc. apply existsb_str_eqb. apply distinct_spec.
  split; [|intros []]. apply in_map_iff. now exists tc.
Qed.

Lemma group_by_name_names rows :
  map services.category__name (services.group_by_name rows)
  = services.distinct (map (fun tc => Category.name (snd tc)) rows) [].
Proof.
  unfold services.group_by_name. rewrite map_map. cbn [services.category__name].
  apply map_id.
Qed.

(** *** Ordering *)

Lemma HdRel_insert_by {A} (before : A -> A -> bool) y x l :
  HdRel (fun a b => before a b = true) y l -> before y x = true ->
  HdRel (fun a b => before a b = true) y (orm.insert_by before x l).
Proof.
  intros Hl Hx. destruct l as [| z l]; cbn [orm.insert_by].
  - now constructor.
  - destruct (before x z); constructor; trivial. now inversion Hl.
Qed.

Lemma insert_by_sorted {A} (before : A -> A -> bool) x l :
  (forall a b, before a b = false -> before b a = true) ->
  Sorted (fun a b => before a b = true) l ->
  Sorted (fun a b => before a b = true) (orm.insert_by before x l).
Proof.
  intros Htotal. induction 1 as [| y l Hs IH Hhd]; cbn [orm.insert_by].
  - repeat constructor.
  - destruct (before x y) eqn:E.
    + constructor; [now constructor | now constructor].
    + constructor; [exact IH|]. apply HdRel_insert_by; [exact Hhd | now apply Htotal].
Qed.

(** An ordered query result is ordered, whenever the order is total. *)
Lemma order_by_sorted {A} (before : A -> A -> bool) l :
  (forall a b, before a b = false -> before b a = true) ->
  Sorted (fun a b => before a b = true) (orm.order_by before l).
Proof.
  intros Htotal. induction l as [| x l IH]; [constructor|].
  unfold orm.order_by in *. cbn [fold_right]. now apply insert_by_sorted.
Qed.

Lemma Sorted_impl {A} (R R' : A -> A -> Prop) l :
  (forall a b, R a b -> R' a b) -> Sorted R l -> Sorted R' l.
Proof.
  intros H. induction 1 as [| x l Hs IH Hhd]; constructor; trivial.
  destruct Hhd; constructor; auto.
Qed.

(** X2. Whenever the expense breakdown and the monthly summary of a user
    and month are both returned, the totals of the breakdown add up to the
    expense of the summary. *)
Theorem breakdown_adds_up_to_expense db user y m rows s :
  services.get_expense_breakdown_by_category db user y m = Ok rows ->
  services.get_monthly_summary db user y m = Ok s ->
  spec.total (map services.total rows) = services.expense s.
Proof.
  unfold services.get_expense_breakdown_by_category, services.get_monthly_summary.
  destruct (services.month_bounds y m) as [[a b] | e]; cbn [rbind]; [|discriminate].
  intros [= <-] [= <-]. cbn [services.expense].
  rewrite or_0_Sum.
  rewrite (total_permutation _ _
             (Permutation_map services.total (order_by_permutation _ _))).
  apply group_by_name_total.
Qed.

(** October 2025 of the test fixture: one group of 1500.00. *)
Lemma breakdown_adds_up_to_expense_witness :
  exists rows s,
    services.get_expense_breakdown_by_category tests.db tests.user 2025 10 = Ok rows
    /\ services.get_monthly_summary tests.db tests.user 2025 10 = Ok s
    /\ spec.total (map services.total rows) = services.expense s.
Proof.
  eexists. eexists.
  assert (H1 : services.get_expense_breakdown_by_category tests.db tests.user 2025 10
               = Ok [services.mkBreakdownRow tests.FOOD 150000])
    by (vm_compute; reflexivity).
  assert (H2 : services.get_monthly_summary tests.db tests.user 2025 10
               = Ok (services.mkSummary 5000000 150000 4850000))
    by (vm_compute; reflexivity).
  split; [exact H1|]. split; [exact H2|].
  exact (breakdown_adds_up_to_expense tests.db tests.user 2025 10 _ _ H1 H2).
Defined.

(** X3. A returned expense breakdown lists its rows with the largest total
    first, names no category twice, and has a row only for a category name
    under which the user has an expense in the month: the total of the row
    is the sum of those expenses. *)
Theorem breakdown_rows db user y m rows :
  services.get_expense_breakdown_by_category db user y m = Ok rows ->
  Sorted spec.not_smaller rows
  /\ NoDup (map services.category__name rows)
  /\ exists a b,
      services.month_bounds y m = Ok (a, b)
      /\ Forall (fun r =>
                   spec.expenses_named db user a b (services.category__name r) <> []
                   /\ services.total r
                      = spec.total
                          (orm.amounts
                             (map fst (spec.expenses_named db user a b
                                         (services.category__name r)))))
                rows.
Proof.
  unfold services.get_expense_breakdown_by_category.
  destruct (services.month_bounds y m) as [[a b] | e]; cbn [rbind]; [|discriminate].
  intros [= <-].
  set (groups := services.group_by_name (orm.transactions_of_type db user EXPENSE a b)).
  pose proof (order_by_permutation
                (fun r r' => services.total r' <=? services.total r) groups) as Hperm.
  split; [|split].
  - eapply Sorted_impl; [| apply order_by_sorted].
    + intros r r' H. unfold spec.not_smaller. now apply Z.leb_le.
    + intros r r' H. apply Z.leb_gt in H. apply Z.leb_le. lia.
  - eapply Permutation_NoDup.
    + apply Permutation_map. symmetry. exact Hperm.
    + unfold groups. rewrite group_by_name_names. apply distinct_NoDup.
  - exists a, b. split; [reflexivity|]. apply Forall_forall. intros r Hr.
    apply (Permutation_in _ Hperm) in Hr. unfold groups, services.group_by_name in Hr.
    apply in_map_iff in Hr. destruct Hr as (n & <- & Hn).
    cbn [services.category__name services.total].
    apply distinct_spec in Hn. destruct Hn as [Hn _].
    apply in_map_iff in Hn. destruct Hn as (tc & Hname & Htc).
    unfold spec.expenses_named. split.
    + intros E.
      assert (Hin : In tc (filter (fun tc => Py.str_eqb (Category.name (snd tc)) n)
                             (orm.transactions_of_type db user EXPENSE a b))).
      { apply filter_In. split; [exact Htc | now apply str_eqb_eq]. }
      rewrite E in Hin. destruct Hin.
    + rewrite fold_left_add. lia.
Qed.

(** October 2025 of the test fixture. *)
Lemma breakdown_rows_witness :
  exists rows,
    services.get_expense_breakdown_by_category tests.db tests.user 2025 10 = Ok rows
    /\ Sorted spec.not_smaller rows
    /\ NoDup (map services.category__name rows).
Proof.
  eexists.
  assert (H : services.get_expense_breakdown_by_category tests.db tests.user 2025 10
              = Ok [services.mkBreakdownRow tests.FOOD 150000])
    by (vm_compute; reflexivity).
  split; [exact H|].
  destruct (breakdown_rows tests.db tests.user 2025 10 _ H) as (H1 & H2 & _).
  split; [exact H1 | exact H2].
Defined.

End Breakdown.

(** ** What the services read *)

Section Isolation.
Import datetime.

Lemma filter_filter_and {A} (p q : A -> bool) l :
  filter (fun x => p x && q x) l = filter q (filter p l).
Proof.
  induction l as [| x l IH]; [reflexivity|]. cbn [filter].
  destruct (p x); cbn [andb filter]; [destruct (q x)|]; now rewrite IH.
Qed.

Lemma category_of_own_part db user pk :
  orm.category_of (spec.own_part db user) pk = orm.category_of db pk.
Proof. reflexivity. Qed.

Lemma join_category_own_part db user ts :
  orm.join_category (spec.own_part db user) ts = orm.join_category db ts.
Proof. apply join_category_ext. intros t _. apply category_of_own_part. Qed.

(** A filter on the owner, applied to the join, sees only the owner's rows. *)
Lemma filter_join_own db user (p : Transaction.t * Category.t -> bool) ts :
  filter (fun tc => (Transaction.user (fst tc) =? user) && p tc) (orm.join_category db ts)
  = filter (fun tc => (Transaction.user (fst tc) =? user) && p tc)
      (orm.join_category db (filter (fun t => Transaction.user t =? user) ts)).
Proof.
  induction ts as [| t ts IH]; [reflexivity|]. cbn [orm.join_category filter].
  destruct (Z.eqb_spec (Transaction.user t) user) as [E | E]; cbn [orm.join_category];
    destruct (orm.category_of db (Transaction.category t)) as [c|]; trivial;
    cbn [filter fst]; rewrite IH; trivial.
  destruct (Z.eqb_spec (Transaction.user t) user); [contradiction | reflexivity].
Qed.

Lemma transactions_of_type_own db user ty a b :
  orm.transactions_of_type (spec.own_part db user) user ty a b
  = orm.transactions_of_type db user ty a b.
Proof.
  assert (E : forall db',
             orm.transactions_of_type db' user ty a b
             = filter (fun tc => (Transaction.user (fst tc) =? user)
                                 && (CategoryType_eqb (Category.type (snd tc)) ty
                                     && in_range (Transaction.date (fst tc)) a b))
                 (orm.join_category db' (Transaction_objects db'))).
  { intros db'. unfold orm.transactions_of_type. apply filter_ext.
    intros tc. now rewrite andb_assoc. }
  rewrite !E. cbn [Transaction_objects spec.own_part].
  rewrite join_category_own_part. symmetry.
  apply (filter_join_own db user
           (fun tc => CategoryType_eqb (Category.type (snd tc)) ty
                      && in_range (Transaction.date (fst tc)) a b)).
Qed.

Lemma filter_idem {A} (p : A -> bool) l : filter p (filter p l) = filter p l.
Proof.
  apply filter_all. intros x Hx. apply filter_In in Hx. tauto.
Qed.

Lemma transactions_of_category_own db user cat a b :
  orm.transactions_of_category (spec.own_part db user) user cat a b
  = orm.transactions_of_category db user cat a b.
Proof.
  assert (E : forall db',
             orm.transactions_of_category db' user cat a b
             = filter (fun t => (Transaction.category t =? cat)
                                && in_range (Transaction.date t) a b)
                 (filter (fun t => Transaction.user t =? user) (Transaction_objects db'))).
  { intros db'. unfold orm.transactions_of_category.
    rewrite <- filter_filter_and. apply filter_ext.
    intros t. now rewrite andb_assoc. }
  rewrite !E. cbn [Transaction_objects spec.own_part]. now rewrite filter_idem.
Qed.

Lemma budgets_of_month_own db user start :
  services.budgets_of_month (spec.own_part db user) user start
  = services.budgets_of_month db user start.
Proof.
  unfold services.budgets_of_month. cbn [Budget_objects spec.own_part].
  rewrite !(filter_filter_and (fun b => Budget.user b =? user)), filter_idem.
  generalize (filter (fun b => date_eqb (Budget.month b) start)
                (filter (fun b => Budget.user b =? user) (Budget_objects db))).
  induction l as [| b l IH]; [reflexivity|]. cbn [orm.join_budget_category].
  rewrite category_of_own_part, IH. reflexivity.
Qed.

(** X4. The three aggregation functions and the exporter read, besides the
    categories, only the transactions and the budgets of the user they are
    called for: their results are those on the store without the
    transactions and budgets of every other user. *)
Theorem services_read_own_rows db user y m response :
  services.get_monthly_summary (spec.own_part db user) user y m
  = services.get_monthly_summary db user y m
  /\ services.get_expense_breakdown_by_category (spec.own_part db user) user y m
     = services.get_expense_breakdown_by_category db user y m
  /\ services.get_budget_vs_actual (spec.own_part db user) user y m
     = services.get_budget_vs_actual db user y m
  /\ services.export_transactions_to_csv response (spec.own_part db user) user
     = services.export_transactions_to_csv response db user.
Proof.
  split; [|split; [|split]].
  - unfold services.get_monthly_summary.
    destruct (services.month_bounds y m) as [[a b] | e]; cbn [rbind]; [|reflexivity].
    now rewrite !transactions_of_type_own.
  - unfold services.get_expense_breakdown_by_category.
    destruct (services.month_bounds y m) as [[a b] | e]; cbn [rbind]; [|reflexivity].
    now rewrite transactions_of_type_own.
  - unfold services.get_budget_vs_actual.
    destruct (services.month_bounds_relativedelta y m) as [[a b] | e]; cbn [rbind];
      [|reflexivity].
    rewrite budgets_of_month_own. f_equal. apply map_ext. intros [bud c].
    unfold services.budget_entry. now rewrite transactions_of_category_own.
  - unfold services.export_transactions_to_csv, services.transactions_newest_first.
    cbn [Transaction_objects spec.own_part].
    now rewrite filter_idem, join_category_own_part.
Qed.

End Isolation.

(** ** The exporter *)

Section Exporter.
Import datetime services.

Lemma date_leb_total a b : date_leb a b = false -> date_leb b a = true.
Proof.
  intros H. apply date_leb_spec.
  assert (Hn : ~ (date_leb a b = true)) by congruence.
  rewrite date_leb_spec in Hn. lia.
Qed.

(** X5. The exporter appends to what was written before it the header row
    and then one row per transaction of the user whose category exists: the
    rows are those of the user's transactions in some order, each has five
    fields, and its type field is one of the two labels. *)
Theorem export_layout response db user :
  exists data,
    export_transactions_to_csv response db user = response ++ HEADER :: data
    /\ Permutation data (map export_row (spec.user_rows db user))
    /\ List.length data = List.length (spec.user_rows db user)
    /\ Forall (fun row => List.length row = 5%nat
                          /\ (nth 1 row [] = INCOME_LABEL \/ nth 1 row [] = EXPENSE_LABEL))
              data.
Proof.
  exists (map export_row (transactions_newest_first db user)).
  pose proof (newest_first_permutation db user) as Hperm.
  split; [apply export_shape|]. split; [now apply Permutation_map|].
  split; [rewrite length_map; now apply Permutation_length|].
  apply Forall_forall. intros row Hrow. apply in_map_iff in Hrow.
  destruct Hrow as ([t c] & <- & _). unfold export_row. cbn [List.length nth].
  split; [reflexivity|]. destruct (CategoryType_eqb (Category.type c) INCOME); tauto.
Qed.

(** X6. The exporter writes the transactions newest first: in the order of
    the rows, no transaction is followed by one of a later date. *)
Theorem export_newest_first db user :
  Sorted spec.not_older (transactions_newest_first db user)
  /\ forall response,
       export_transactions_to_csv response db user
       = response ++ HEADER :: map export_row (transactions_newest_first db user).
Proof.
  split; [|intros; apply export_shape].
  unfold transactions_newest_first.
  apply (order_by_sorted
           (fun a b => date_leb (Transaction.date (fst b)) (Transaction.date (fst a)))).
  intros a b. apply date_leb_total.
Qed.

End Exporter.

(** ** What an import does to the store *)

Section ImportEffects.
Import datetime services.
Local Open Scope store_scope.

(** *** Trimming twice *)

Lemma lstrip_head s :
  Py.lstrip s = [] \/ exists c r, Py.lstrip s = c :: r /\ Py.isspace c = false.
Proof.
  induction s as [| c s IH]; cbn [Py.lstrip]; [now left|].
  destruct (Py.isspace c) eqn:E; [exact IH | right; eauto].
Qed.

Lemma lstrip_idempotent s : Py.lstrip (Py.lstrip s) = Py.lstrip s.
Proof.
  destruct (lstrip_head s) as [-> | (c & r & -> & Hc)]; [reflexivity|].
  cbn [Py.lstrip]. now rewrite Hc.
Qed.

Lemma lstrip_app_nonspace l c :
  Py.isspace c = false -> Py.lstrip (l ++ [c]) = Py.lstrip l ++ [c].
Proof.
  intros Hc. induction l as [| x l IH]; cbn [app Py.lstrip].
  - now rewrite Hc.
  - destruct (Py.isspace x); [exact IH | reflexivity].
Qed.

Lemma rstrip_cons_nonspace c r :
  Py.isspace c = false -> Py.rstrip (c :: r) = c :: Py.rstrip r.
Proof.
  intros Hc. unfold Py.rstrip. cbn [rev].
  rewrite lstrip_app_nonspace by exact Hc. rewrite rev_app_distr. reflexivity.
Qed.

Lemma rstrip_idempotent s : Py.rstrip (Py.rstrip s) = Py.rstrip s.
Proof.
  unfold Py.rstrip. now rewrite rev_involutive, lstrip_idempotent.
Qed.

(** What [strip] returns is trimmed. *)
Lemma strip_trimmed s : spec.trimmed (Py.strip s).
Proof.
  unfold spec.trimmed, Py.strip.
  destruct (lstrip_head s) as [-> | (c & r & -> & Hc)]; [reflexivity|].
  rewrite rstrip_cons_nonspace by exact Hc. cbn [Py.lstrip]. rewrite Hc.
  rewrite <- rstrip_cons_nonspace by exact Hc. apply rstrip_idempotent.
Qed.

Lemma fromisoformat_valid s d : fromisoformat s = Ok d -> valid d.
Proof.
  unfold fromisoformat.
  destruct (Py.encode_utf8 s) as [b|]; [|discriminate].
  destruct (_ || _)%nat; [|discriminate].
  destruct (parse_isoformat_date b) as [[[y m] dd]|]; [|discriminate].
  unfold new_date. destruct (valid_dateb y m dd) eqn:E; [|discriminate].
  intros [= <-]. exact E.
Qed.

Lemma conversions_valid engine row a d : spec.conversions engine row = Ok (a, d) -> valid d.
Proof.
  unfold spec.conversions.
  destruct (decimal.Decimal (spec.field row 3)) as [v|]; [|discriminate].
  destruct (fromisoformat (spec.field row 0)) as [d'|] eqn:Ed; [|discriminate].
  destruct (column.save engine v) as [a'|]; [|discriminate].
  intros [= _ <-]. exact (fromisoformat_valid _ _ Ed).
Qed.

(** *** The loop body, case by case *)

Lemma import_row_typed_cases engine user row count db ty r db' :
  spec.skippedb row = false -> spec.label_type (spec.field row 1) = Some ty ->
  import_row engine user row count db = (r, db') ->
  (r = Raise MultipleObjectsReturned /\ db' = db
   /\ (2 <= List.length (spec.categories_matching db (spec.field row 2) ty user))%nat)
  \/ exists c cats,
      ((spec.categories_matching db (spec.field row 2) ty user = []
        /\ c = Category.mk (orm.next_pk (map Category.id (Category_objects db)))
                 (spec.field row 2) ty user
        /\ cats = Category_objects db ++ [c])
       \/ (spec.categories_matching db (spec.field row 2) ty user = [c]
           /\ cats = Category_objects db))
      /\ ((exists e, spec.conversions engine row = Raise e
                     /\ r = Raise e /\ db' = spec.with_category db cats)
          \/ (exists a d, spec.conversions engine row = Ok (a, d)
                          /\ r = Ok (count + 1)
                          /\ db' = spec.with_transaction db cats user a c
                                     (spec.stored_description row) d)).
Proof.
  intros Hs Hty. rewrite (import_row_typed engine user row count ty db Hs Hty).
  unfold writes.Category_get_or_create.
  fold (spec.categories_matching db (spec.field row 2) ty user).
  destruct (spec.categories_matching db (spec.field row 2) ty user)
    as [| c [| c2 rest]] eqn:Em.
  - (* a new category *)
    set (c := Category.mk _ (spec.field row 2) ty user).
    destruct (spec.conversions engine row) as [[a d] | e] eqn:Ec;
      intros [= <- <-]; right; exists c, (Category_objects db ++ [c]);
      (split; [left; repeat split|]).
    + right. exists a, d. repeat split.
    + left. exists e. repeat split.
  - (* the category exists *)
    destruct (spec.conversions engine row) as [[a d] | e] eqn:Ec;
      intros [= <- <-]; right; exists c, (Category_objects db);
      (split; [right; repeat split|]).
    + right. exists a, d. destruct db. repeat split.
    + left. exists e. destruct db. repeat split.
  - intros [= <- <-]. left. repeat split. cbn. lia.
Qed.

(** What one pass of the loop does, whatever the row. *)
Lemma import_row_outcome engine user row count db r db' :
  import_row engine user row count db = (r, db') ->
  Budget_objects db' = Budget_objects db
  /\ exists cs ts,
      Category_objects db' = Category_objects db ++ cs
      /\ Transaction_objects db' = Transaction_objects db ++ ts
      /\ Forall (fun c => Category.user c = user) cs
      /\ Forall (fun t => Transaction.user t = user) ts
      /\ match r with
         | Ok n => n = count + Z.of_nat (List.length ts)
                   /\ List.length ts = (if spec.skippedb row then 0 else 1)%nat
         | Raise _ => ts = []
         end.
Proof.
  intros H. destruct (spec.skippedb row) eqn:Hs.
  - rewrite import_row_skipped in H by exact Hs. injection H as <- <-.
    split; [reflexivity|]. exists [], []. rewrite !app_nil_r. repeat split; trivial.
    cbn. lia.
  - destruct (spec.label_type (spec.field row 1)) as [ty|] eqn:Hty.
    + apply (import_row_typed_cases engine user row count db ty r db' Hs Hty) in H.
      destruct H as [(-> & -> & _) | (c & cats & Hc & H)].
      * split; [reflexivity|]. exists [], []. rewrite !app_nil_r. repeat split; trivial.
      * assert (Hcats : exists cs, cats = Category_objects db ++ cs
                                   /\ Forall (fun c => Category.user c = user) cs).
        { destruct Hc as [(_ & -> & ->) | (_ & ->)].
          - eexists. split; [reflexivity|]. repeat constructor.
          - exists []. rewrite app_nil_r. split; [reflexivity | constructor]. }
        destruct Hcats as (cs & -> & Hcs).
        destruct H as [(e & _ & -> & ->) | (a & d & _ & -> & ->)];
          (split; [reflexivity|]); exists cs.
        -- exists []. rewrite app_nil_r. repeat split; trivial.
        -- eexists. split; [reflexivity|]. split; [reflexivity|]. split; [exact Hcs|].
           split; [repeat constructor|]. cbn. split; [lia | reflexivity].
    + rewrite import_row_untyped in H by assumption. injection H as <- <-.
      split; [reflexivity|]. exists [], []. rewrite !app_nil_r. repeat split; trivial.
Qed.

Lemma import_rows_outcome engine user rows count db r db' :
  import_rows engine user rows count db = (r, db') ->
  Budget_objects db' = Budget_objects db
  /\ exists cs ts,
      Category_objects db' = Category_objects db ++ cs
      /\ Transaction_objects db' = Transaction_objects db ++ ts
      /\ Forall (fun c => Category.user c = user) cs
      /\ Forall (fun t => Transaction.user t = user) ts
      /\ forall n, r = Ok n ->
           n = count + Z.of_nat (List.length ts)
           /\ List.length ts = List.length (spec.kept_rows rows).
Proof.
  revert count db. induction rows as [| row rows IH]; intros count db.
  - cbn [import_rows]. unfold ret. intros [= <- <-].
    split; [reflexivity|]. exists [], []. rewrite !app_nil_r.
    split; [reflexivity|]. split; [reflexivity|].
    split; [constructor|]. split; [constructor|].
    intros n [= <-]. cbn. split; [lia | reflexivity].
  - cbn [import_rows]. unfold bind.
    destruct (import_row engine user row count db) as [[c1 | e] db1] eqn:E1.
    + intros H. apply import_row_outcome in E1.
      destruct E1 as (Hb1 & cs1 & ts1 & Hc1 & Ht1 & Fc1 & Ft1 & Hn1 & Hl1).
      apply IH in H. destruct H as (Hb & cs & ts & Hc & Ht & Fc & Ft & Hn).
      split; [congruence|]. exists (cs1 ++ cs), (ts1 ++ ts).
      rewrite Hc, Hc1, Ht, Ht1, !app_assoc.
      split; [reflexivity|]. split; [reflexivity|].
      split; [now apply Forall_app_intro|]. split; [now apply Forall_app_intro|].
      intros n Hr. destruct (Hn n Hr) as [Hn' Hk]. unfold spec.kept_rows in *.
      cbn [filter]. rewrite length_app.
      destruct (spec.skippedb row); cbn [negb List.length]; lia.
    + intros [= <- <-]. apply import_row_outcome in E1.
      destruct E1 as (Hb1 & cs1 & ts1 & Hc1 & Ht1 & Fc1 & Ft1 & ->).
      split; [exact Hb1|]. exists cs1, [].
      split; [exact Hc1|]. split; [exact Ht1|].
      split; [exact Fc1|]. split; [constructor|]. intros n Hn. discriminate.
Qed.

(** X7. Whatever the file and whatever the outcome, an import only appends:
    the categories and the transactions that were in the store stay as they
    were and where they were, the rows added belong to the importing user,
    and the budgets are untouched. *)
Theorem import_only_appends engine file user db r db' :
  import_transactions_from_csv engine file user db = (r, db') ->
  Budget_objects db' = Budget_objects db
  /\ exists cs ts,
      Category_objects db' = Category_objects db ++ cs
      /\ Transaction_objects db' = Transaction_objects db ++ ts
      /\ Forall (fun c => Category.user c = user) cs
      /\ Forall (fun t => Transaction.user t = user) ts.
Proof.
  destruct file as [| header rows]; cbn [import_transactions_from_csv].
  - intros [= <- <-]. split; [reflexivity|]. exists [], [].
    rewrite !app_nil_r. repeat split; constructor.
  - intros H. apply import_rows_outcome in H.
    destruct H as (Hb & cs & ts & Hc & Ht & Fc & Ft & _).
    split; [exact Hb|]. exists cs, ts. repeat split; assumption.
Qed.

(** The file of the tests imported into the fixture. *)
Lemma import_only_appends_witness :
  exists r db',
    import_transactions_from_csv tests.engine tests.csv_data tests.user tests.db = (r, db')
    /\ Budget_objects db' = Budget_objects tests.db
    /\ exists cs ts,
        Category_objects db' = Category_objects tests.db ++ cs
        /\ Transaction_objects db' = Transaction_objects tests.db ++ ts.
Proof.
  destruct (import_transactions_from_csv tests.engine tests.csv_data tests.user tests.db)
    as [r db'] eqn:E.
  exists r, db'. split; [reflexivity|].
  destruct (import_only_appends tests.engine tests.csv_data tests.user tests.db r db' E)
    as (Hb & cs & ts & Hc & Ht & _).
  split; [exact Hb|]. exists cs, ts. split; assumption.
Defined.

(** X8. The count a successful import returns is the number of
    transactions it inserted, and that is the number of data rows it did not
    skip. *)
Theorem import_count engine file user db n db' :
  import_transactions_from_csv engine file user db = (Ok n, db') ->
  exists ts,
    Transaction_objects db' = Transaction_objects db ++ ts
    /\ n = Z.of_nat (List.length ts)
    /\ List.length ts = List.length (spec.kept_rows (tl file)).
Proof.
  destruct file as [| header rows]; cbn [import_transactions_from_csv tl];
    [discriminate|].
  intros H. apply import_rows_outcome in H.
  destruct H as (_ & cs & ts & _ & Ht & _ & _ & Hn).
  destruct (Hn n eq_refl) as [Hn1 Hn2]. exists ts. repeat split; trivial; lia.
Qed.

(** The file of the tests with a row of three fields added. *)
Lemma import_count_witness :
  exists db' ts,
    import_transactions_from_csv tests.engine (tests.csv_data ++ [tests.row_of_three]) tests.user
      (mkDB [] [] []) = (Ok 2, db')
    /\ Transaction_objects db' = ts
    /\ List.length ts = 2%nat.
Proof.
  destruct (import_transactions_from_csv tests.engine (tests.csv_data ++ [tests.row_of_three])
              tests.user (mkDB [] [] [])) as [r db'] eqn:E.
  assert (Hr : r = Ok 2) by (apply (f_equal fst) in E; now vm_compute in E).
  subst r.
  destruct (import_count _ _ _ _ _ _ E) as (ts & Ht & Hn & _).
  exists db', ts. repeat split; trivial; lia.
Defined.

(** X9. An import that fails at a row undoes nothing: when the rows before
    the failing row were processed, the import of the file raises the error
    of that row and leaves the store as that row left it, with the
    transactions of all the rows before it. *)
Theorem failed_import_keeps_earlier_rows engine user header before row after db count db1 e db2 :
  import_rows engine user before 0 db = (Ok count, db1) ->
  import_row engine user row count db1 = (Raise e, db2) ->
  import_transactions_from_csv engine (header :: before ++ row :: after) user db
  = (Raise e, db2)
  /\ exists ts,
      Transaction_objects db2 = Transaction_objects db ++ ts
      /\ List.length ts = List.length (spec.kept_rows before)
      /\ count = Z.of_nat (List.length ts).
Proof.
  intros Hbefore Hrow. split.
  - cbn [import_transactions_from_csv]. rewrite import_rows_app, Hbefore.
    cbn [import_rows]. unfold bind. now rewrite Hrow.
  - apply import_rows_outcome in Hbefore.
    destruct Hbefore as (_ & cs & ts & _ & Ht & _ & _ & Hn).
    destruct (Hn count eq_refl) as [Hn1 Hn2].
    apply import_row_outcome in Hrow.
    destruct Hrow as (_ & cs2 & ts2 & _ & Ht2 & _ & _ & ->).
    exists ts. rewrite Ht2, Ht, app_nil_r. repeat split; trivial; lia.
Qed.

(** The file of the tests followed by a row dated February 30: the two
    transactions stay. *)
Lemma failed_import_keeps_earlier_rows_witness :
  exists db2,
    import_transactions_from_csv tests.engine tests.csv_with_bad_row tests.user (mkDB [] [] [])
    = (Raise ValueError, db2)
    /\ List.length (Transaction_objects db2) = 2%nat.
Proof.
  destruct (import_rows tests.engine tests.user (tl tests.csv_data) 0 (mkDB [] [] []))
    as [r1 db1] eqn:E1.
  assert (Hr1 : r1 = Ok 2) by (apply (f_equal fst) in E1; now vm_compute in E1).
  subst r1.
  destruct (import_row tests.engine tests.user tests.row_of_bad_date 2 db1) as [r2 db2] eqn:E2.
  assert (Hr2 : r2 = Raise ValueError).
  { apply (f_equal snd) in E1. cbn [snd] in E1. subst db1.
    apply (f_equal fst) in E2. now vm_compute in E2. }
  subst r2.
  destruct (failed_import_keeps_earlier_rows tests.engine tests.user services.HEADER
              (tl tests.csv_data) tests.row_of_bad_date [] (mkDB [] [] []) 2 db1
              ValueError db2 E1 E2) as (H & ts & Ht & Hl & _).
  exists db2. split; [exact H|]. rewrite Ht. exact Hl.
Defined.

Lemma categories_matching_snoc db db' c name ty user :
  Category_objects db' = Category_objects db ++ [c] ->
  spec.categories_matching db' name ty user
  = spec.categories_matching db name ty user
    ++ (if Py.str_eqb (Category.name c) name
           && CategoryType_eqb (Category.type c) ty && (Category.user c =? user)
        then [c] else []).
Proof.
  intros E. unfold spec.categories_matching. rewrite E, filter_app. cbn [filter].
  now destruct (_ && _).
Qed.

Lemma categories_matching_same db db' name ty user :
  Category_objects db' = Category_objects db ->
  spec.categories_matching db' name ty user = spec.categories_matching db name ty user.
Proof. intros E. unfold spec.categories_matching. now rewrite E. Qed.

(** X10. A row that fails after category resolution, at its amount, at
    its date or at the insertion, has had its category resolved before: when
    the user has no category of the row's name and type, the failed pass
    leaves a new category of that name, type and user in the store, and no
    transaction; whatever the database engine. *)
Theorem failed_row_leaves_category engine user row count db ty e db' :
  ~ spec.skipped row ->
  spec.label_type (spec.field row 1) = Some ty ->
  spec.categories_matching db (spec.field row 2) ty user = [] ->
  import_row engine user row count db = (Raise e, db') ->
  Transaction_objects db' = Transaction_objects db
  /\ exists c,
      Category_objects db' = Category_objects db ++ [c]
      /\ Category.name c = spec.field row 2
      /\ Category.type c = ty /\ Category.user c = user.
Proof.
  intros Hs Hty Hnone H. apply not_skipped in Hs.
  apply (import_row_typed_cases engine user row count db ty _ db' Hs Hty) in H.
  destruct H as [(_ & _ & Hlen) | (c & cats & Hc & H)].
  - rewrite Hnone in Hlen. cbn in Hlen. lia.
  - destruct Hc as [(_ & -> & ->) | (Hone & _)]; [|rewrite Hnone in Hone; discriminate].
    destruct H as [(e' & _ & _ & ->) | (a & d & _ & He & _)]; [|discriminate].
    split; [reflexivity|]. eexists. split; [reflexivity|]. repeat split.
Qed.

(** A row dated February 30 under a category the fixture does not have. *)
Lemma failed_row_leaves_category_witness :
  exists db' c,
    import_row tests.engine tests.user tests.row_of_new_category 0 tests.db = (Raise ValueError, db')
    /\ Transaction_objects db' = Transaction_objects tests.db
    /\ Category_objects db' = Category_objects tests.db ++ [c]
    /\ Category.name c = tests.GROCERIES.
Proof.
  destruct (import_row tests.engine tests.user tests.row_of_new_category 0 tests.db)
    as [r db'] eqn:E.
  assert (Hr : r = Raise ValueError) by (apply (f_equal fst) in E; now vm_compute in E).
  subst r.
  assert (Hs : ~ spec.skipped tests.row_of_new_category)
    by (apply not_skipped; reflexivity).
  destruct (failed_row_leaves_category tests.engine tests.user tests.row_of_new_category 0
              tests.db EXPENSE ValueError db' Hs eq_refl eq_refl E)
    as (Ht & c & Hc & Hn & _).
  exists db', c. repeat split; assumption.
Defined.

(** X11. Category resolution is by name, type and user: after a pass over
    a row that is not skipped and has a type label, in a store with at most
    one category of the row's name and type for the user, there is exactly
    one; it is the one that was there, if there was one, and then no category
    is added; and the categories of every other name, type or user are as
    before, so that a category of the same name and the other type is never
    taken for it. *)
Theorem category_resolution engine user row count db ty r db' :
  ~ spec.skipped row ->
  spec.label_type (spec.field row 1) = Some ty ->
  (List.length (spec.categories_matching db (spec.field row 2) ty user) <= 1)%nat ->
  import_row engine user row count db = (r, db') ->
  (exists c, spec.categories_matching db' (spec.field row 2) ty user = [c]
             /\ (spec.categories_matching db (spec.field row 2) ty user <> [] ->
                 spec.categories_matching db (spec.field row 2) ty user = [c]
                 /\ Category_objects db' = Category_objects db))
  /\ forall name' ty' user',
       (name', ty', user') <> (spec.field row 2, ty, user) ->
       spec.categories_matching db' name' ty' user'
       = spec.categories_matching db name' ty' user'.
Proof.
  intros Hs Hty Hle H. apply not_skipped in Hs.
  apply (import_row_typed_cases engine user row count db ty _ db' Hs Hty) in H.
  destruct H as [(_ & _ & Hlen) | (c & cats & Hc & H)]; [lia|].
  assert (Hcats : Category_objects db' = cats).
  { destruct H as [(e & _ & _ & ->) | (a & d & _ & _ & ->)]; reflexivity. }
  clear H. destruct Hc as [(Hnone & -> & ->) | (Hone & ->)].
  - set (c := Category.mk _ (spec.field row 2) ty user) in *. split.
    + exists c. split; [|rewrite Hnone; congruence].
      rewrite (categories_matching_snoc db db' c) by exact Hcats.
      rewrite Hnone. unfold c. cbn [Category.name Category.type Category.user app].
      assert (E1 : Py.str_eqb (spec.field row 2) (spec.field row 2) = true)
        by now apply str_eqb_eq.
      assert (E2 : CategoryType_eqb ty ty = true) by now apply CategoryType_eqb_eq.
      now rewrite E1, E2, Z.eqb_refl.
    + intros name' ty' user' Hne.
      rewrite (categories_matching_snoc db db' c) by exact Hcats.
      unfold c. cbn [Category.name Category.type Category.user].
      destruct (Py.str_eqb (spec.field row 2) name'
                && CategoryType_eqb ty ty' && (user =? user')) eqn:E;
        [|apply app_nil_r].
      exfalso. apply Hne.
      apply andb_true_iff in E. destruct E as [E E3].
      apply andb_true_iff in E. destruct E as [E1 E2].
      apply str_eqb_eq in E1. apply CategoryType_eqb_eq in E2. apply Z.eqb_eq in E3.
      congruence.
  - split.
    + exists c. rewrite (categories_matching_same db db') by exact Hcats.
      split; [exact Hone|]. intros _. split; [exact Hone | exact Hcats].
    + intros name' ty' user' _. now apply categories_matching_same.
Qed.

(** A transfer row for food in the fixture, which has the category. *)
Lemma category_resolution_witness :
  exists r db' c,
    import_row tests.engine tests.user tests.row_of_negative_amount 0 tests.db = (r, db')
    /\ spec.categories_matching db' tests.FOOD EXPENSE tests.user = [c]
    /\ Category_objects db' = Category_objects tests.db.
Proof.
  destruct (import_row tests.engine tests.user tests.row_of_negative_amount 0 tests.db)
    as [r db'] eqn:E.
  assert (Hs : ~ spec.skipped tests.row_of_negative_amount)
    by (apply not_skipped; reflexivity).
  assert (Hle : (List.length (spec.categories_matching tests.db
                   (spec.field tests.row_of_negative_amount 2) EXPENSE tests.user) <= 1)%nat)
    by (vm_compute; lia).
  destruct (category_resolution tests.engine tests.user tests.row_of_negative_amount 0
              tests.db EXPENSE r db' Hs eq_refl Hle E) as [(c & Hc & Hold) _].
  exists r, db', c. split; [reflexivity|]. split; [exact Hc|].
  apply Hold. discriminate.
Defined.

End ImportEffects.

(** ** The constraints of the schema under the writes *)

Section Invariants.
Import datetime services.

Lemma category_of_app db db' cs k c :
  Category_objects db' = Category_objects db ++ cs ->
  orm.category_of db k = Some c -> orm.category_of db' k = Some c.
Proof. intros E H. unfold orm.category_of in *. now rewrite E, find_app, H. Qed.

Lemma NoDup_snoc_fresh pks : NoDup pks -> NoDup (pks ++ [orm.next_pk pks]).
Proof.
  intros H. apply NoDup_app; [exact H | constructor; [intros [] | constructor] |].
  intros a Ha [<- | []]. now apply next_pk_fresh in Ha.
Qed.

Lemma NoDup_map_filter {A B} (f : A -> B) (p : A -> bool) l :
  NoDup (map f l) -> NoDup (map f (filter p l)).
Proof.
  induction l as [| a l IH]; cbn [map filter]; intros H; [constructor|].
  inversion H as [| ? ? Hnotin Hnd]; subst.
  destruct (p a); [|now apply IH]. cbn [map]. constructor; [|now apply IH].
  intros Hin. apply Hnotin. apply in_map_iff in Hin. destruct Hin as (x & <- & Hx).
  apply in_map. apply filter_In in Hx. tauto.
Qed.

(** A new category under a key that no row has. *)
Lemma store_ok_add_category db c :
  spec.store_ok db ->
  Category.id c = orm.next_pk (map Category.id (Category_objects db)) ->
  spec.categories_matching db (Category.name c) (Category.type c) (Category.user c) = [] ->
  spec.trimmed (Category.name c) -> Category.name c <> [] ->
  spec.store_ok (mkDB (Category_objects db ++ [c]) (Transaction_objects db)
                      (Budget_objects db)).
Proof.
  intros (Hcpk & Hcu & Htpk & Hown & Hbpk & Hbu & Hbw & Hcn & Htd) Hid Hnone Htr Hne.
  set (db' := mkDB _ _ _).
  assert (Hcat : forall k x, orm.category_of db k = Some x -> orm.category_of db' k = Some x)
    by (intros k x; now apply (category_of_app db db' [c])).
  store_ok_split.
  - unfold spec.category_pk_unique, db'. cbn [Category_objects].
    rewrite map_app. cbn [map]. rewrite Hid. now apply NoDup_snoc_fresh.
  - intros name ty user. rewrite (categories_matching_snoc db db' c) by reflexivity.
    destruct (_ && _) eqn:E.
    + apply andb_true_iff in E. destruct E as [E E3].
      apply andb_true_iff in E. destruct E as [E1 E2].
      apply str_eqb_eq in E1. apply CategoryType_eqb_eq in E2. apply Z.eqb_eq in E3.
      subst name ty user. rewrite Hnone. cbn. lia.
    + rewrite app_nil_r. apply Hcu.
  - exact Htpk.
  - intros t Ht. destruct (Hown t Ht) as (x & Hx & Hu).
    exists x. split; [now apply Hcat | exact Hu].
  - exact Hbpk.
  - exact Hbu.
  - intros b Hb. destruct (Hbw b Hb) as (x & Hx & H).
    exists x. split; [now apply Hcat | exact H].
  - split; [|exact Htd]. intros x Hx. unfold db' in Hx. cbn [Category_objects] in Hx.
    apply in_app_or in Hx. destruct Hx as [Hx | [<- | []]]; [now apply Hcn | now split].
Qed.

(** A new transaction under a category of its user. *)
Lemma store_ok_add_transaction db t c :
  spec.store_ok db ->
  Transaction.id t = orm.next_pk (map Transaction.id (Transaction_objects db)) ->
  In c (Category_objects db) -> Transaction.category t = Category.id c ->
  Category.user c = Transaction.user t ->
  spec.trimmed (Transaction.description t) -> valid (Transaction.date t) ->
  spec.store_ok (mkDB (Category_objects db) (Transaction_objects db ++ [t])
                      (Budget_objects db)).
Proof.
  intros (Hcpk & Hcu & Htpk & Hown & Hbpk & Hbu & Hbw & Hcn & Htd) Hid Hc Hcat Hu Htr Hv.
  store_ok_split.
  - exact Hcpk.
  - exact Hcu.
  - unfold spec.transaction_pk_unique. cbn [Transaction_objects].
    rewrite map_app. cbn [map]. rewrite Hid. now apply NoDup_snoc_fresh.
  - intros x Hx. cbn [Transaction_objects] in Hx.
    apply in_app_or in Hx. destruct Hx as [Hx | [<- | []]]; [exact (Hown x Hx)|].
    exists c. split; [|exact Hu]. rewrite Hcat. exact (category_of_in db c Hcpk Hc).
  - exact Hbpk.
  - exact Hbu.
  - exact Hbw.
  - split; [exact Hcn|]. intros x Hx. cbn [Transaction_objects] in Hx.
    apply in_app_or in Hx. destruct Hx as [Hx | [<- | []]]; [now apply Htd | now split].
Qed.

(** A new budget under a key that no row has, on an expense category of
    its user, for the first day of a month. *)
Lemma store_ok_add_budget db b c :
  spec.store_ok db ->
  Budget.id b = orm.next_pk (map Budget.id (Budget_objects db)) ->
  spec.budget_key_rows db (Budget.user b) (Budget.category b) (Budget.month b) = [] ->
  In c (Category_objects db) -> Budget.category b = Category.id c ->
  Category.user c = Budget.user b -> Category.type c = EXPENSE ->
  day (Budget.month b) = 1 ->
  spec.store_ok (mkDB (Category_objects db) (Transaction_objects db)
                      (Budget_objects db ++ [b])).
Proof.
  intros (Hcpk & Hcu & Htpk & Hown & Hbpk & Hbu & Hbw & Hcn & Htd)
         Hid Hnone Hc Hcat Hu Hty Hday.
  store_ok_split.
  - exact Hcpk.
  - exact Hcu.
  - exact Htpk.
  - exact Hown.
  - unfold spec.budget_pk_unique. cbn [Budget_objects].
    rewrite map_app. cbn [map]. rewrite Hid. now apply NoDup_snoc_fresh.
  - intros user cat mo. unfold spec.budget_key_rows. cbn [Budget_objects].
    rewrite filter_app. cbn [filter]. destruct (_ && _) eqn:E.
    + apply andb_true_iff in E. destruct E as [E E3].
      apply andb_true_iff in E. destruct E as [E1 E2].
      apply Z.eqb_eq in E1, E2. apply date_eqb_eq in E3. subst user cat mo.
      unfold spec.budget_key_rows in Hnone. rewrite Hnone. cbn. lia.
    + rewrite app_nil_r. apply Hbu.
  - intros x Hx. cbn [Budget_objects] in Hx.
    apply in_app_or in Hx. destruct Hx as [Hx | [<- | []]]; [exact (Hbw x Hx)|].
    exists c. split; [|now repeat split]. rewrite Hcat. exact (category_of_in db c Hcpk Hc).
  - split; [exact Hcn | exact Htd].
Qed.

(** Another amount on a budget row. *)
Lemma store_ok_update_budget db e a :
  spec.store_ok db -> In e (Budget_objects db) ->
  spec.store_ok
    (writes.Budget_update
       (Budget.mk (Budget.id e) (Budget.user e) (Budget.category e) a (Budget.month e)) db).
Proof.
  intros (Hcpk & Hcu & Htpk & Hown & Hbpk & Hbu & Hbw & Hcn & Htd) He.
  unfold writes.Budget_update. cbn [Budget.id].
  set (e' := Budget.mk _ _ _ _ _).
  set (f := fun b => if Budget.id b =? Budget.id e then e' else b).
  assert (Hf : forall x, In x (Budget_objects db) -> f x = x \/ (x = e /\ f x = e')).
  { intros x Hx. unfold f. destruct (Z.eqb_spec (Budget.id x) (Budget.id e)) as [E | E];
      [right | now left].
    split; [|reflexivity]. now apply (NoDup_map_inj Budget.id (Budget_objects db)). }
  store_ok_split.
  - exact Hcpk.
  - exact Hcu.
  - exact Htpk.
  - exact Hown.
  - unfold spec.budget_pk_unique. cbn [Budget_objects]. rewrite map_map.
    rewrite (map_ext_in _ Budget.id); [exact Hbpk|].
    intros x Hx. destruct (Hf x Hx) as [-> | [-> ->]]; reflexivity.
  - intros user cat mo. unfold spec.budget_key_rows. cbn [Budget_objects].
    rewrite filter_map_commute, length_map; [apply Hbu|].
    intros x Hx. destruct (Hf x Hx) as [-> | [-> ->]]; reflexivity.
  - intros b Hb. cbn [Budget_objects] in Hb. apply in_map_iff in Hb.
    destruct Hb as (x & <- & Hx). destruct (Hf x Hx) as [-> | [-> ->]];
      [exact (Hbw x Hx) | exact (Hbw e He)].
  - split; [exact Hcn | exact Htd].
Qed.

(** Transactions removed. *)
Lemma store_ok_remove_transactions db p :
  spec.store_ok db ->
  spec.store_ok (mkDB (Category_objects db) (filter p (Transaction_objects db))
                      (Budget_objects db)).
Proof.
  intros (Hcpk & Hcu & Htpk & Hown & Hbpk & Hbu & Hbw & Hcn & Htd).
  store_ok_split; trivial.
  - now apply NoDup_map_filter.
  - intros t Ht. cbn [Transaction_objects] in Ht. apply filter_In in Ht.
    exact (Hown t (proj1 Ht)).
  - split; [exact Hcn|]. intros t Ht. cbn [Transaction_objects] in Ht.
    apply filter_In in Ht. exact (Htd t (proj1 Ht)).
Qed.

Lemma store_ok_same db db' :
  Category_objects db' = Category_objects db ->
  Transaction_objects db' = Transaction_objects db ->
  Budget_objects db' = Budget_objects db ->
  spec.store_ok db -> spec.store_ok db'.
Proof. destruct db, db'. cbn. now intros -> -> ->. Qed.

Lemma kept_name_not_empty row : spec.skippedb row = false -> spec.field row 2 <> [].
Proof.
  unfold spec.skippedb. rewrite !orb_false_iff. intros ((_ & H) & _) E.
  rewrite E in H. discriminate.
Qed.

Lemma stored_description_trimmed row : spec.trimmed (spec.stored_description row).
Proof.
  unfold spec.stored_description. destruct (4 <? len row); [apply strip_trimmed | reflexivity].
Qed.

(** The loop body keeps the constraints, whatever its outcome. *)
Lemma import_row_store_ok engine user row count db r db' :
  spec.store_ok db -> import_row engine user row count db = (r, db') -> spec.store_ok db'.
Proof.
  intros Hok H. destruct (spec.skippedb row) eqn:Hs.
  { rewrite import_row_skipped in H by exact Hs. now injection H as <- <-. }
  destruct (spec.label_type (spec.field row 1)) as [ty|] eqn:Hty.
  2:{ rewrite import_row_untyped in H by assumption. now injection H as <- <-. }
  apply (import_row_typed_cases engine user row count db ty _ db' Hs Hty) in H.
  destruct H as [(_ & -> & _) | (c & cats & Hc & H)]; [exact Hok|].
  assert (Hcats : spec.store_ok (spec.with_category db cats)
                  /\ In c cats /\ Category.user c = user).
  { destruct Hc as [(Hnone & -> & ->) | (Hone & ->)].
    - split; [|split; [apply in_or_app; right; now left | reflexivity]].
      apply store_ok_add_category; trivial; cbn [Category.name].
      + apply strip_trimmed.
      + now apply kept_name_not_empty.
    - split; [revert Hok; now apply store_ok_same|].
      assert (Hin : In c (spec.categories_matching db (spec.field row 2) ty user))
        by (rewrite Hone; now left).
      apply categories_matching_spec in Hin. tauto. }
  destruct Hcats as (Hok1 & Hin & Hu).
  destruct H as [(e & _ & _ & ->) | (a & d & Hd & _ & ->)]; trivial.
  apply (store_ok_add_transaction (spec.with_category db cats)
           (Transaction.mk (orm.next_pk (map Transaction.id (Transaction_objects db)))
              user a (Category.id c) (spec.stored_description row) d) c);
    trivial.
  - apply stored_description_trimmed.
  - now apply conversions_valid in Hd.
Qed.

Lemma import_rows_store_ok engine user rows count db r db' :
  spec.store_ok db -> import_rows engine user rows count db = (r, db') -> spec.store_ok db'.
Proof.
  revert count db. induction rows as [| row rows IH]; intros count db Hok;
    cbn [import_rows]; unfold bind, ret.
  - now intros [= <- <-].
  - destruct (import_row engine user row count db) as [[n | e] db1] eqn:E.
    + apply IH. now apply (import_row_store_ok engine user row count db (Ok n)).
    + intros [= <- <-]. now apply (import_row_store_ok engine user row count db (Raise e)).
Qed.

(** The fixture satisfies the constraints. *)
Lemma fixture_store_ok : spec.store_ok tests.db.
Proof.
  store_ok_split.
  - repeat (constructor; [cbn; intuition discriminate|]). constructor.
  - intros name ty user. unfold spec.categories_matching.
    cbn [tests.db Category_objects filter tests.expense_cat tests.income_cat
         Category.name Category.type Category.user].
    destruct ty; cbn [CategoryType_eqb]; rewrite ?andb_false_r, ?andb_false_l;
      destruct (_ && _); cbn; lia.
  - repeat (constructor; [cbn; intuition discriminate|]). constructor.
  - intros t [<- | [<- | [<- | []]]]; eexists; split; reflexivity.
  - constructor.
  - intros user cat mo. cbn. lia.
  - intros b [].
  - split.
    + intros c [<- | [<- | []]]; split; (reflexivity || discriminate).
    + intros t [<- | [<- | [<- | []]]]; split; reflexivity.
Qed.

(** X12. An import keeps the constraints of the schema whatever the file
    and whatever the outcome, a failure half way included: category and
    transaction keys stay unique, the user has at most one category of a
    name and type, every transaction is under a category of its own user,
    names and descriptions are trimmed and dates are valid. *)
Theorem import_keeps_constraints engine file user db r db' :
  spec.store_ok db ->
  import_transactions_from_csv engine file user db = (r, db') ->
  spec.store_ok db'.
Proof.
  intros Hok. destruct file as [| header rows]; cbn [import_transactions_from_csv].
  - now intros [= <- <-].
  - now apply import_rows_store_ok.
Qed.

(** The file of the tests followed by a row dated February 30, imported
    into the fixture. *)
Lemma import_keeps_constraints_witness :
  exists db',
    import_transactions_from_csv tests.engine tests.csv_with_bad_row tests.user tests.db
    = (Raise ValueError, db')
    /\ spec.store_ok db'.
Proof.
  destruct (import_transactions_from_csv tests.engine tests.csv_with_bad_row tests.user tests.db)
    as [r db'] eqn:E.
  assert (Hr : r = Raise ValueError) by (apply (f_equal fst) in E; now vm_compute in E).
  subst r. exists db'. split; [reflexivity|].
  exact (import_keeps_constraints tests.engine tests.csv_with_bad_row tests.user tests.db
           (Raise ValueError) db' fixture_store_ok E).
Defined.

End Invariants.


(** ** The forms and the views that write *)

Section Pages.
Import datetime services.

Lemma clean_text_spec n s text :
  TransactionForm.clean_text n s = Some text -> text = Py.strip s.
Proof.
  unfold TransactionForm.clean_text. destruct (_ && _); [|discriminate]. now intros [= <-].
Qed.

(** What an accepted transaction form holds. *)
Lemma TransactionForm_clean_spec db user data c a text d :
  TransactionForm.clean db user data = Some (c, a, text, d) ->
  In c (Category_objects db) /\ Category.id c = TransactionForm.category data
  /\ Category.user c = user
  /\ a = TransactionForm.amount data /\ 0 < a
  /\ text = Py.strip (TransactionForm.description data)
  /\ d = TransactionForm.date data /\ valid d.
Proof.
  unfold TransactionForm.clean.
  destruct (find _ (TransactionForm.category_queryset db user)) as [c'|] eqn:Ef;
    [|discriminate].
  destruct (forms.amount_fits _); [|discriminate].
  unfold forms.TransactionForm_clean_amount.
  destruct (Z.leb_spec (TransactionForm.amount data) 0) as [Ha | Ha]; [discriminate|].
  destruct (TransactionForm.clean_text 255 _) as [text'|] eqn:Et; [|discriminate].
  destruct (valid_dateb _ _ _) eqn:Ev; [|discriminate].
  intros [= <- <- <- <-].
  apply find_some in Ef. destruct Ef as [Hin Hid]. apply Z.eqb_eq in Hid.
  unfold TransactionForm.category_queryset in Hin. apply filter_In in Hin.
  destruct Hin as [Hin Hu]. apply Z.eqb_eq in Hu.
  apply clean_text_spec in Et.
  repeat split; trivial.
Qed.

(** X13. A transaction form that the view accepts adds one transaction and
    nothing else: it belongs to the user, lies under a category of that
    user, has a positive amount and the description with the whitespace
    around it removed; and the constraints of the schema still hold. *)
Theorem transaction_create_accepted user data db db' :
  spec.store_ok db ->
  pages.transaction_create_POST user data db = pages.Redirect db' ->
  spec.store_ok db'
  /\ Category_objects db' = Category_objects db
  /\ Budget_objects db' = Budget_objects db
  /\ exists t c,
      Transaction_objects db' = Transaction_objects db ++ [t]
      /\ In c (Category_objects db) /\ Category.user c = user
      /\ Transaction.category t = Category.id c
      /\ Transaction.user t = user
      /\ 0 < Transaction.amount t
      /\ Transaction.amount t = TransactionForm.amount data
      /\ Transaction.description t = Py.strip (TransactionForm.description data)
      /\ Transaction.date t = TransactionForm.date data.
Proof.
  intros Hok. unfold pages.transaction_create_POST.
  destruct (TransactionForm.clean db user data) as [[[[c a] text] d]|] eqn:E;
    [|discriminate].
  apply TransactionForm_clean_spec in E.
  destruct E as (Hin & _ & Hu & Ha & Hpos & Ht & Hd & Hv).
  unfold writes.Transaction_create. cbn [snd]. intros [= <-].
  set (t := Transaction.mk _ user a (Category.id c) text d).
  split; [|split; [reflexivity | split; [reflexivity|]]].
  - apply (store_ok_add_transaction db t c); trivial.
    unfold t. cbn [Transaction.description]. rewrite Ht. apply strip_trimmed.
  - exists t, c. cbn [Transaction_objects]. repeat split; trivial.
Qed.

(** The form for 10.00 on food in the fixture. *)
Lemma transaction_create_accepted_witness :
  exists db' t,
    pages.transaction_create_POST tests.user tests.transaction_form tests.db
    = pages.Redirect db'
    /\ spec.store_ok db'
    /\ Transaction_objects db' = Transaction_objects tests.db ++ [t]
    /\ Transaction.description t = tests.GROCERIES.
Proof.
  destruct (pages.transaction_create_POST tests.user tests.transaction_form tests.db)
    as [db' | | | |] eqn:E; try (now vm_compute in E).
  destruct (transaction_create_accepted tests.user tests.transaction_form tests.db db'
              fixture_store_ok E)
    as (Hok & _ & _ & t & c & Ht & _ & _ & _ & _ & _ & _ & Hd & _).
  exists db', t. split; [reflexivity|]. split; [exact Hok|]. split; [exact Ht|].
  rewrite Hd. reflexivity.
Defined.

Lemma existsb_false_filter {A} (p : A -> bool) l : existsb p l = false -> filter p l = [].
Proof.
  intros H. apply filter_none. intros x Hx.
  destruct (p x) eqn:E; [|reflexivity].
  assert (Ht : existsb p l = true) by (apply existsb_exists; now exists x).
  congruence.
Qed.

Lemma CategoryForm_clean_spec data name ty :
  CategoryForm.clean data = Some (name, ty) ->
  name = Py.strip (CategoryForm.name data) /\ name <> [] /\ ty = CategoryForm.type data.
Proof.
  unfold CategoryForm.clean.
  destruct (TransactionForm.clean_text 100 _) as [text|] eqn:Et; [|discriminate].
  destruct (Py.is_empty text) eqn:Ee; [discriminate|].
  intros [= <- <-]. apply clean_text_spec in Et.
  repeat split; trivial. intros ->. discriminate.
Qed.

(** X14. A category form that the view accepts and the store takes adds
    one category and nothing else: it belongs to the user, its name is the
    name typed with the whitespace around it removed and is not empty, the
    user had no category of that name and type; and the constraints of the
    schema still hold. *)
Theorem category_create_accepted user data db db' :
  spec.store_ok db ->
  pages.category_create_POST user data db = pages.Redirect db' ->
  spec.store_ok db'
  /\ Transaction_objects db' = Transaction_objects db
  /\ Budget_objects db' = Budget_objects db
  /\ exists c,
      Category_objects db' = Category_objects db ++ [c]
      /\ Category.name c = Py.strip (CategoryForm.name data)
      /\ Category.name c <> []
      /\ Category.type c = CategoryForm.type data
      /\ Category.user c = user
      /\ spec.categories_matching db (Category.name c) (Category.type c) user = [].
Proof.
  intros Hok. unfold pages.category_create_POST.
  destruct (CategoryForm.clean data) as [[name ty]|] eqn:E; [|discriminate].
  apply CategoryForm_clean_spec in E. destruct E as (Hn & Hne & Hty).
  destruct (existsb _ (Category_objects db)) eqn:Ex; [discriminate|].
  apply existsb_false_filter in Ex. intros [= <-].
  set (c := Category.mk _ name ty user).
  split; [|split; [reflexivity | split; [reflexivity|]]].
  - apply (store_ok_add_category db c); trivial.
    unfold c. cbn [Category.name]. rewrite Hn. apply strip_trimmed.
  - exists c. cbn [Category_objects]. repeat split; trivial.
Qed.

(** A new category name in the fixture. *)
Lemma category_create_accepted_witness :
  exists db' c,
    pages.category_create_POST tests.user tests.category_form tests.db
    = pages.Redirect db'
    /\ spec.store_ok db'
    /\ Category_objects db' = Category_objects tests.db ++ [c]
    /\ Category.name c = tests.GROCERIES.
Proof.
  destruct (pages.category_create_POST tests.user tests.category_form tests.db)
    as [db' | | | |] eqn:E; try (now vm_compute in E).
  destruct (category_create_accepted tests.user tests.category_form tests.db db'
              fixture_store_ok E)
    as (Hok & _ & _ & c & Hc & Hn & _).
  exists db', c. split; [reflexivity|]. split; [exact Hok|]. split; [exact Hc|].
  rewrite Hn. reflexivity.
Defined.

(** X15. The category form does not look for the name among the user's
    categories: when the user has a category of the type chosen whose name
    is the name typed with the whitespace around it removed, a form that is
    valid is saved and the store refuses the row; the view shows no form
    error and writes nothing. *)
Theorem category_create_duplicate user data db c :
  In c (Category_objects db) -> Category.user c = user ->
  Category.type c = CategoryForm.type data ->
  Category.name c = Py.strip (CategoryForm.name data) ->
  CategoryForm.clean data <> None ->
  pages.category_create_POST user data db = pages.IntegrityError.
Proof.
  intros Hin Hu Hty Hn Hvalid. unfold pages.category_create_POST.
  destruct (CategoryForm.clean data) as [[name ty]|] eqn:E; [|congruence].
  apply CategoryForm_clean_spec in E. destruct E as (-> & _ & ->).
  replace (existsb _ (Category_objects db)) with true; [reflexivity|].
  symmetry. apply existsb_exists. exists c. split; [exact Hin|].
  rewrite !andb_true_iff. repeat split.
  - now apply str_eqb_eq.
  - now apply CategoryType_eqb_eq.
  - now apply Z.eqb_eq.
Qed.

(** The name of the food category typed with a space before it. *)
Lemma category_create_duplicate_witness :
  pages.category_create_POST tests.user tests.duplicate_category_form tests.db
  = pages.IntegrityError.
Proof.
  apply (category_create_duplicate tests.user tests.duplicate_category_form tests.db
           tests.expense_cat).
  - now left.
  - reflexivity.
  - reflexivity.
  - reflexivity.
  - discriminate.
Defined.

(** X16. The budget view keeps the constraints of the schema whatever the
    form holds, and writes to the budgets only: after it every budget is
    still on an expense category of its own user and for the first day of a
    month, and the user still has at most one budget for a category and
    month. *)
Theorem budget_post_keeps_constraints user data db :
  spec.store_ok db ->
  spec.store_ok (views.budget_list_POST user data db)
  /\ Category_objects (views.budget_list_POST user data db) = Category_objects db
  /\ Transaction_objects (views.budget_list_POST user data db) = Transaction_objects db.
Proof.
  intros Hok. unfold views.budget_list_POST.
  destruct (forms.BudgetForm_clean db user data) as [[[c a] mo]|] eqn:E;
    [|split; [exact Hok | split; reflexivity]].
  apply BudgetForm_clean_spec in E. destruct E as (Hin & _ & Hu & Hty & _ & Hmo).
  destruct (filter _ (Budget_objects db)) as [| e rest] eqn:Ef; cbn [hd_error].
  - split; [|split; reflexivity].
    unfold writes.Budget_insert.
    apply (store_ok_add_budget db (Budget.mk _ user (Category.id c) a mo) c); trivial.
    rewrite Hmo. reflexivity.
  - split; [|split; reflexivity].
    apply store_ok_update_budget; [exact Hok|].
    assert (He : In e (filter (fun b => (Budget.user b =? user)
                                        && (Budget.category b =? Category.id c)
                                        && date_eqb (Budget.month b) mo)
                              (Budget_objects db)))
      by (rewrite Ef; now left).
    apply filter_In in He. tauto.
Qed.

(** The first submission of the budget form in the fixture. *)
Lemma budget_post_keeps_constraints_witness :
  spec.store_ok (views.budget_list_POST tests.user tests.first_submission tests.db)
  /\ List.length (Budget_objects
                    (views.budget_list_POST tests.user tests.first_submission tests.db))
     = 1%nat.
Proof.
  split; [|reflexivity].
  exact (proj1 (budget_post_keeps_constraints tests.user tests.first_submission tests.db
                  fixture_store_ok)).
Defined.

Lemma filter_key_one {A} (f : A -> Z) (p : A -> bool) l t :
  NoDup (map f l) -> In t l -> p t = true ->
  (forall x, In x l -> p x = true -> f x = f t) ->
  filter p l = [t].
Proof.
  induction l as [| a l IH]; cbn [map filter]; intros Hnd Hin Hp Hall; [destruct Hin|].
  inversion Hnd as [| ? ? Hnotin Hnd']; subst.
  destruct Hin as [-> | Hin].
  - rewrite Hp. f_equal. apply filter_none. intros x Hx.
    destruct (p x) eqn:E; [|reflexivity]. exfalso. apply Hnotin.
    rewrite <- (Hall x (or_intror Hx) E). now apply in_map.
  - destruct (p a) eqn:E.
    + exfalso. apply Hnotin. rewrite (Hall a (or_introl eq_refl) E). now apply in_map.
    + apply IH; trivial. intros x Hx. apply Hall. now right.
Qed.

(** X17. Deleting a transaction of one's own: a [GET] shows the
    confirmation page and changes nothing; a [POST] removes that transaction
    and no other, leaves categories and budgets as they are, and keeps the
    constraints of the schema. *)
Theorem transaction_delete_own user t db :
  spec.store_ok db -> In t (Transaction_objects db) -> Transaction.user t = user ->
  pages.transaction_delete false user (Transaction.id t) db = pages.Render
  /\ exists db',
      pages.transaction_delete true user (Transaction.id t) db = pages.Redirect db'
      /\ spec.store_ok db'
      /\ Category_objects db' = Category_objects db
      /\ Budget_objects db' = Budget_objects db
      /\ forall x, In x (Transaction_objects db') <-> In x (Transaction_objects db) /\ x <> t.
Proof.
  intros Hok Hin Hu. pose proof Hok as (_ & _ & Htpk & _).
  unfold pages.transaction_delete.
  rewrite (filter_key_one Transaction.id _ (Transaction_objects db) t); trivial.
  2:{ now rewrite Z.eqb_refl, Hu, Z.eqb_refl. }
  2:{ intros x _ Hx. apply andb_true_iff in Hx. now apply Z.eqb_eq. }
  split; [reflexivity|]. eexists. split; [reflexivity|].
  split; [now apply store_ok_remove_transactions|].
  split; [reflexivity|]. split; [reflexivity|].
  intros x. cbn [Transaction_objects]. rewrite filter_In, negb_true_iff, Z.eqb_neq.
  split; intros [Hx Hne]; (split; [exact Hx|]).
  - intros ->. now apply Hne.
  - intros E. apply Hne.
    now apply (NoDup_map_inj Transaction.id (Transaction_objects db)).
Qed.

(** The second transaction of the fixture. *)
Lemma transaction_delete_own_witness :
  exists db',
    pages.transaction_delete true tests.user 2 tests.db = pages.Redirect db'
    /\ spec.store_ok db'
    /\ List.length (Transaction_objects db') = 2%nat.
Proof.
  assert (Hin : In (Transaction.mk 2 tests.user 100000 1 [] (mkdate 2025 10 10))
                   (Transaction_objects tests.db)) by (right; now left).
  destruct (transaction_delete_own tests.user _ tests.db fixture_store_ok Hin eq_refl)
    as (_ & db' & Hd & Hok & _).
  exists db'. split; [exact Hd|]. split; [exact Hok|].
  cbn [Transaction.id] in Hd. vm_compute in Hd. injection Hd as <-. reflexivity.
Defined.

(** X18. Nobody reaches a transaction of another user through the delete
    view: for the key of a transaction that belongs to somebody else the
    answer is 404, for a [GET] and for a [POST] alike, and nothing is
    deleted. *)
Theorem transaction_delete_foreign post user t db :
  spec.transaction_pk_unique db ->
  In t (Transaction_objects db) -> Transaction.user t <> user ->
  pages.transaction_delete post user (Transaction.id t) db = pages.Http404.
Proof.
  intros Hpk Hin Hu. unfold pages.transaction_delete.
  rewrite filter_none; [reflexivity|].
  intros x Hx. destruct (Z.eqb_spec (Transaction.id x) (Transaction.id t)) as [E | E];
    [|reflexivity].
  assert (x = t) as -> by now apply (NoDup_map_inj Transaction.id (Transaction_objects db)).
  cbn [andb]. now apply Z.eqb_neq.
Qed.

(** The first user asks to delete the transaction of the second. *)
Lemma transaction_delete_foreign_witness :
  pages.transaction_delete true tests.user 4 tests.db_two_users = pages.Http404.
Proof.
  apply (transaction_delete_foreign true tests.user tests.other_transaction
           tests.db_two_users).
  - repeat (constructor; [cbn; intuition discriminate|]). constructor.
  - cbn. tauto.
  - discriminate.
Defined.

End Pages.


(** ** The months of the budget page *)

Section BudgetPage.
Import datetime.

Lemma budget_list_months_cases today :
  valid today ->
  pages.budget_list_months today
  = if (year today =? 1) && (month today =? 1) then Raise ValueError
    else Ok (spec.first_day (year today) (month today),
             spec.previous_month_first_day (year today) (month today)).
Proof.
  intros Hv. apply valid_fields in Hv. destruct Hv as (Hy & Hm & _).
  unfold pages.budget_list_months, replace.
  rewrite new_date_first by trivial. cbn [rbind].
  unfold relativedelta.rsub, relativedelta.radd, relativedelta.neg, spec.first_day.
  cbn [relativedelta.months relativedelta.rdays year month day].
  change (- (1) =? 0) with false.
  change (negb ((1 <=? Z.abs (- (1))) && (Z.abs (- (1)) <=? 12))) with false.
  change (- 0) with 0. cbv iota.
  destruct (Z.ltb_spec 12 (month today + - (1))) as [H12 | _]; [lia|].
  unfold spec.previous_month_first_day.
  destruct (Z.ltb_spec (month today + - (1)) 1) as [H1 | H1]; cbn [rbind].
  - assert (Em : month today = 1) by lia. rewrite Em, Z.eqb_refl, andb_true_r.
    change (1 + - (1) + 12) with 12.
    rewrite monthrange_ndays_ok by lia. cbn [rbind]. unfold replace.
    rewrite Z.min_r by (pose proof (days_in_month_bounds (year today - 1) 12); lia).
    destruct (Z.eqb_spec (year today) 1) as [Ey | Ey].
    + rewrite Ey. reflexivity.
    + rewrite new_date_first by lia. cbn [rbind].
      rewrite add_nothing_first_day by lia. reflexivity.
  - replace (month today =? 1) with false by (symmetry; apply Z.eqb_neq; lia).
    rewrite andb_false_r.
    rewrite monthrange_ndays_ok by lia. cbn [rbind]. unfold replace.
    rewrite Z.min_r
      by (pose proof (days_in_month_bounds (year today) (month today + - (1))); lia).
    rewrite new_date_first by lia. cbn [rbind].
    rewrite add_nothing_first_day by lia. reflexivity.
Qed.

(** X19. The budget page works with two months: the first day of today's
    month and the first day of the month before it, which for January is
    December of the year before. In January of the year 1 there is no month
    before, and the view raises [ValueError]. *)
Theorem budget_page_months today :
  valid today ->
  pages.budget_list_months today
  = if (year today =? 1) && (month today =? 1) then Raise ValueError
    else Ok (spec.first_day (year today) (month today),
             spec.previous_month_first_day (year today) (month today)).
Proof. exact (budget_list_months_cases today). Qed.

(** The fifteenth of January 2026: January 2026 and December 2025. *)
Lemma budget_page_months_witness :
  pages.budget_list_months (mkdate 2026 1 15)
  = Ok (mkdate 2026 1 1, mkdate 2025 12 1).
Proof. exact (budget_page_months (mkdate 2026 1 15) eq_refl). Defined.

Lemma in_join_budget_category db bs b c :
  In (b, c) (orm.join_budget_category db bs)
  <-> In b bs /\ orm.category_of db (Budget.category b) = Some c.
Proof.
  induction bs as [| b' bs IH]; cbn [orm.join_budget_category In]; [tauto|].
  destruct (orm.category_of db (Budget.category b')) as [c'|] eqn:E.
  - cbn [In]. rewrite IH. split.
    + intros [[= -> ->] | [H1 H2]]; [split; [now left | exact E] | split; [now right | exact H2]].
    + intros [[-> | H1] H2]; [left; congruence | right; now split].
  - rewrite IH. split.
    + intros [H1 H2]. split; [now right | exact H2].
    + intros [[-> | H1] H2]; [congruence | now split].
Qed.

(** X20. A budget that the form accepts is saved; the page that follows
    shows it, with the amount of the form, exactly when its month is today's
    month or the month before. A budget for any other month is in the store
    and not on the page. *)
Theorem saved_budget_on_page today user data db c a mo :
  spec.store_ok db -> valid today -> ~ (year today = 1 /\ month today = 1) ->
  forms.BudgetForm_clean db user data = Some (c, a, mo) ->
  exists shown,
    pages.budget_list_budgets today user (views.budget_list_POST user data db) = Ok shown
    /\ ((exists b, In (b, c) shown /\ Budget.amount b = a /\ Budget.month b = mo)
        <-> mo = spec.first_day (year today) (month today)
            \/ mo = spec.previous_month_first_day (year today) (month today)).
Proof.
  intros Hok Hv Hnot E. pose proof Hok as (Hcpk & _ & _ & _ & Hbpk & Hbu & _).
  destruct (budget_list_POST_accepted db user data c a mo Hbu Hbpk E)
    as ((b0 & Hkey & Ha0 & Hm0) & _ & _ & Hcats & _).
  apply BudgetForm_clean_spec in E. destruct E as (Hin & _).
  set (db' := views.budget_list_POST user data db) in *.
  assert (Hc : orm.category_of db' (Category.id c) = Some c).
  { apply category_of_in; [unfold spec.category_pk_unique | ]; now rewrite Hcats. }
  assert (Hb0 : In b0 (spec.budget_key_rows db' user (Category.id c) mo))
    by (rewrite Hkey; now left).
  apply filter_In in Hb0. destruct Hb0 as [Hb0 Hk].
  apply andb_true_iff in Hk. destruct Hk as [Hk _].
  apply andb_true_iff in Hk. destruct Hk as [Hu0 Hc0].
  apply Z.eqb_eq in Hc0.
  unfold pages.budget_list_budgets. rewrite budget_list_months_cases by exact Hv.
  replace ((year today =? 1) && (month today =? 1)) with false.
  2:{ symmetry. apply andb_false_iff.
      destruct (Z.eqb_spec (year today) 1), (Z.eqb_spec (month today) 1); tauto. }
  cbn [rbind]. eexists. split; [reflexivity|]. split.
  - intros (b & Hb & _ & Hm). apply in_join_budget_category in Hb.
    destruct Hb as [Hb _]. apply filter_In in Hb. destruct Hb as [_ Hb].
    apply andb_true_iff in Hb. destruct Hb as [_ Hb].
    apply orb_true_iff in Hb. rewrite !date_eqb_eq in Hb. rewrite <- Hm. tauto.
  - intros Hmo. exists b0. split; [|now split].
    apply in_join_budget_category. split; [|now rewrite Hc0].
    apply filter_In. split; [exact Hb0|]. rewrite Hu0. cbn [andb].
    apply orb_true_iff. rewrite !date_eqb_eq, Hm0. tauto.
Qed.

(** The first submission of the budget form, for October 2025, seen on the
    twentieth of November 2025. *)
Lemma saved_budget_on_page_witness :
  exists shown b,
    pages.budget_list_budgets (mkdate 2025 11 20) tests.user
      (views.budget_list_POST tests.user tests.first_submission tests.db) = Ok shown
    /\ In (b, tests.expense_cat) shown /\ Budget.amount b = 300000.
Proof.
  assert (Hnot : ~ (year (mkdate 2025 11 20) = 1 /\ month (mkdate 2025 11 20) = 1))
    by (intros [H _]; discriminate).
  destruct (saved_budget_on_page (mkdate 2025 11 20) tests.user tests.first_submission
              tests.db tests.expense_cat 300000 (mkdate 2025 10 1)
              fixture_store_ok eq_refl Hnot eq_refl)
    as (shown & Hshown & Hiff).
  destruct (proj2 Hiff (or_intror eq_refl)) as (b & Hb & Ha & _).
  exists shown, b. repeat split; assumption.
Defined.

End BudgetPage.


(** ** Importing an export into an account that has transactions *)

Section Merge.
Import datetime services.

Lemma store_ok_import_ready db user : spec.store_ok db -> spec.import_ready db user.
Proof.
  intros (Hcpk & Hcu & _ & Hown & _). split; [exact Hcpk | split].
  - intros name ty. apply Hcu.
  - intros t Ht _. destruct (Hown t Ht) as (c & Hc & _). congruence.
Qed.

Lemma store_ok_account_trimmed db user : spec.store_ok db -> spec.account_trimmed db user.
Proof.
  intros (_ & _ & _ & _ & _ & _ & _ & Hcn & Htd) t c Hin.
  apply in_join_category in Hin. destruct Hin as [Ht Hc].
  apply filter_In in Ht. destruct Ht as [Ht _].
  unfold orm.category_of in Hc. apply find_some in Hc. destruct Hc as [Hc _].
  destruct (Hcn c Hc) as [Hn Hne]. destruct (Htd t Ht) as [Hd Hv].
  repeat split; trivial.
Qed.

(** X21. The importer does not look for transactions that are already
    there. For stores that satisfy the constraints of the schema, and an
    exported account whose dates are of the years 1000 to 9999 and whose
    amounts are amounts of the column, importing the export of a user's
    account into an account of that user that has transactions succeeds,
    counts every exported transaction, and leaves in the account the tuples
    it had together with the exported ones; importing one's own export into
    one's own account therefore leaves every transaction twice. The
    constraints still hold afterwards; whatever the database engine. *)
Theorem import_of_export_adds engine src dst user :
  spec.store_ok src -> spec.store_ok dst -> spec.account_exportable src user ->
  exists dst',
    import_transactions_from_csv engine (export_transactions_to_csv [] src user) user dst
    = (Ok (Z.of_nat (List.length (spec.user_tuples src user))), dst')
    /\ Permutation (spec.user_tuples dst' user)
                   (spec.user_tuples dst user ++ spec.user_tuples src user)
    /\ spec.store_ok dst'.
Proof.
  intros Hsrc Hdst Hexp.
  pose proof (store_ok_account_trimmed src user Hsrc) as Htrim.
  pose proof (newest_first_permutation src user) as Hperm.
  destruct (import_exported_rows engine dst user (transactions_newest_first src user) 0
              (store_ok_import_ready dst user Hdst) (exportable_rows src user Htrim Hexp))
    as (dst' & Himport & _ & Htuples).
  exists dst'. rewrite export_shape. cbn [app import_transactions_from_csv].
  split; [|split].
  - rewrite Himport. f_equal. f_equal. cbn [Z.add]. f_equal. unfold spec.user_tuples.
    rewrite length_map. now apply Permutation_length.
  - rewrite Htuples. apply Permutation_app_head. unfold spec.user_tuples.
    now apply Permutation_map.
  - now apply (import_rows_store_ok engine user _ 0 dst _ dst' Hdst Himport).
Qed.

(** The account of the fixture exported and imported into itself. *)
Lemma import_of_export_adds_witness :
  exists dst',
    import_transactions_from_csv tests.engine
      (export_transactions_to_csv [] tests.db tests.user) tests.user tests.db
    = (Ok 3, dst')
    /\ List.length (spec.user_tuples dst' tests.user) = 6%nat.
Proof.
  destruct (import_of_export_adds tests.engine tests.db tests.db tests.user
              fixture_store_ok fixture_store_ok fixture_exportable)
    as (dst' & Himport & Hperm & _).
  exists dst'. split; [exact Himport|].
  apply Permutation_length in Hperm. rewrite Hperm. reflexivity.
Defined.

End Merge.


(** ** The examples of the specification and the tests of the repository *)

Section Examples.
Import datetime.

(** [test_get_monthly_summary] *)
Example test_get_monthly_summary :
  services.get_monthly_summary tests.db tests.user 2025 10
  = Ok (services.mkSummary 5000000 150000 4850000).
Proof. vm_compute. reflexivity. Qed.

(** [test_get_expense_breakdown] *)
Example test_get_expense_breakdown :
  services.get_expense_breakdown_by_category tests.db tests.user 2025 10
  = Ok [services.mkBreakdownRow tests.FOOD 150000].
Proof. vm_compute. reflexivity. Qed.

(** [test_export_csv]: the header and one row per transaction, newest first. *)
Example test_export_csv :
  List.length (services.export_transactions_to_csv [] tests.db tests.user) = 4%nat
  /\ nth 2 (nth 1 (services.export_transactions_to_csv [] tests.db tests.user) []) []
     = tests.FOOD.
Proof. split; vm_compute; reflexivity. Qed.

(** [test_import_csv]: two transactions and two categories. *)
Example test_import_csv :
  exists db,
    services.import_transactions_from_csv tests.engine tests.csv_data tests.user
      (mkDB [] [] [])
    = (Ok 2, db)
    /\ List.length (Transaction_objects db) = 2%nat
    /\ List.length (Category_objects db) = 2%nat
    /\ map Transaction.amount (Transaction_objects db) = [5000000; 100000].
Proof. eexists. split; [vm_compute; reflexivity|]. repeat split. Qed.

(** [test_budget_form_sets_first_day_of_month] *)
Example test_budget_form_sets_first_day_of_month :
  forms.BudgetForm_clean tests.db tests.user tests.first_submission
  = Some (tests.expense_cat, 300000, mkdate 2025 10 1).
Proof. reflexivity. Qed.

(** [test_transaction_form_invalid_amount] *)
Example test_transaction_form_invalid_amount :
  forms.TransactionForm_clean_amount (-5000)
  = Raise (ValidationError forms.POSITIVE_AMOUNT_MESSAGE).
Proof. reflexivity. Qed.

End Examples.
